(** * Linear-Discord communication relay (main.go): a shallow embedding

    The relay receives Linear webhooks and forwards them to Discord as
    embeds, and renders two polled reports of the open issues (a daily digest
    and a per-assignee task list).  This development embeds the Go code of
    [main.go] function by function and proves the properties its
    specification states about truncation, grouping, batching, dispatch and
    pagination.

    Conventions of the embedding:
    - a Go [string] is a [string] of bytes, [len] is its byte length; string
      literals are the bytes of the source file;
    - a Go [int] is a [Z] in the 64-bit two's-complement range, arithmetic
      that can leave the range is wrapped with [wrap64];
    - a nil pointer is [None], a slice is a [list];
    - a run-time panic is the outcome [Panicked]; an unbounded [for] loop
      takes fuel and yields [OutOfFuel] when the fuel does not suffice;
    - calls that leave the process (the Linear API, the Discord webhook,
      [time.Sleep]) are recorded, in order, in a trace of events: an event
      is one call of [client.Do], [http.Post] or [time.Sleep] by the
      program, and the answer of a remote service is what that call hands
      back; what the HTTP client does below the call (connections,
      redirects it follows, the time it takes) is not part of the model;
    - [log.Printf] only writes to the process log and is left out. *)

From Stdlib Require Import ZArith String List Lia.
From stdpp Require Import gmap strings list fin_maps pretty sorting.

Open Scope Z_scope.

Set Default Proof Using "Type".

(** ** The Go runtime, as far as the program uses it *)

Definition MinInt : Z := - 2 ^ 63.
Definition MaxInt : Z := 2 ^ 63 - 1.

(** Two's-complement wrap-around of a 64-bit [int]. *)
Definition wrap64 (z : Z) : Z := (z + 2 ^ 63) mod 2 ^ 64 - 2 ^ 63.

Definition int_sub (a b : Z) : Z := wrap64 (a - b).

Definition is_int (z : Z) : Prop := MinInt <= z <= MaxInt.

(** What running a piece of code can end in. *)
Inductive outcome (A : Type) : Type :=
| Returned (a : A)
| Panicked
| OutOfFuel.

Arguments Returned {A} a.
Arguments Panicked {A}.
Arguments OutOfFuel {A}.

Definition obind {A B : Type} (m : outcome A) (k : A -> outcome B) : outcome B :=
  match m with
  | Returned a => k a
  | Panicked => Panicked
  | OutOfFuel => OutOfFuel
  end.

Notation "x <~ m ;; k" := (obind m (fun x => k))
  (at level 100, m at next level, right associativity).

(** Go's [error] values are compared only against nil; the message is kept. *)
Definition error : Type := string.

Inductive result (A : Type) : Type :=
| Ok (a : A)
| Err (e : error).

Arguments Ok {A} a.
Arguments Err {A} e.

(** [len(s)] *)
Definition len (s : string) : Z := Z.of_nat (String.length s).

(** [s[:hi]]: a slice expression panics unless [0 <= hi <= len(s)]. *)
Definition slice_to (s : string) (hi : Z) : outcome string :=
  if (0 <=? hi) && (hi <=? len s)
  then Returned (substring 0 (Z.to_nat hi) s)
  else Panicked.

Definition newline : string := String (Ascii.ascii_of_nat 10) EmptyString.

(** [strings.Join] *)
Definition strings_Join (elems : list string) (sep : string) : string :=
  String.concat sep elems.

(** The verb [%d] of [fmt.Sprintf]. *)
Definition fmt_d (z : Z) : string := pretty z.

(** ** Helpers of main.go *)

Definition truncate (s : string) (maxLen : Z) : outcome string :=
  if len s <=? maxLen then Returned s
  else
    head <~ slice_to s (int_sub maxLen 3) ;;
    Returned (head +:+ "...").

Definition getStateEmoji (stateType : string) : string :=
  if String.eqb stateType "backlog" then "ðŸ“¥"
  else if String.eqb stateType "unstarted" then "âšª"
  else if String.eqb stateType "started" then "ðŸ”µ"
  else if String.eqb stateType "completed" then "âœ…"
  else if String.eqb stateType "canceled" then "âŒ"
  else "ðŸ“‹".

Definition getPriorityEmoji (priority : Z) : string :=
  if priority =? 0 then "â¬œ"
  else if priority =? 1 then "ðŸ”´"
  else if priority =? 2 then "ðŸŸ "
  else if priority =? 3 then "ðŸŸ¡"
  else if priority =? 4 then "ðŸŸ¢"
  else "â¬œ".

Definition getStatusPriority (statusType : string) : Z :=
  if String.eqb statusType "started" then 1
  else if String.eqb statusType "unstarted" then 2
  else if String.eqb statusType "backlog" then 3
  else 4.

(** ** Linear types *)

Record State : Type := {
  state_ID : string;
  state_Name : string;
  state_Color : string;
  state_Type : string
}.

Record User : Type := {
  user_ID : string;
  user_Name : string;
  user_DisplayName : string;
  user_Email : string
}.

Record Team : Type := {
  team_ID : string;
  team_Name : string;
  team_Key : string
}.

Record Label : Type := {
  label_ID : string;
  label_Name : string;
  label_Color : string
}.

(** [time.Time] values are instants, counted in nanoseconds. *)
Record Issue : Type := {
  issue_ID : string;
  issue_Identifier : string;
  issue_Title : string;
  issue_Description : string;
  issue_Priority : Z;
  issue_PriorityLabel : string;
  issue_URL : string;
  issue_CreatedAt : Z;
  issue_UpdatedAt : Z;
  issue_State : State;
  issue_Assignee : option User;
  issue_Team : Team;
  issue_Labels : list Label
}.

Record PageInfo : Type := {
  HasNextPage : bool;
  EndCursor : string
}.

Record IssuesResponse : Type := {
  issues_Nodes : list Issue;
  issues_PageInfo : PageInfo
}.

Record GraphQLResponse : Type := {
  gql_Data : string;
  gql_Errors : list string
}.

(** [Data] and [UpdatedFrom] are [json.RawMessage]: bytes not yet decoded. *)
Record LinearWebhook : Type := {
  wh_Action : string;
  wh_Actor : option User;
  wh_CreatedAt : string;
  wh_Data : string;
  wh_Type : string;
  wh_URL : string;
  wh_UpdatedFrom : string;
  wh_WebhookID : string;
  wh_WebhookTS : Z
}.

Record LinearWebhookIssue : Type := {
  wi_ID : string;
  wi_Identifier : string;
  wi_Title : string;
  wi_Description : string;
  wi_Priority : Z;
  wi_PriorityLabel : string;
  wi_State : option State;
  wi_Assignee : option User;
  wi_Team : option Team;
  wi_Labels : list Label;
  wi_URL : string
}.

Record LinearWebhookComment : Type := {
  wc_ID : string;
  wc_Body : string;
  wc_Issue : option LinearWebhookIssue;
  wc_User : option User;
  wc_CreatedAt : string;
  wc_URL : string
}.

Record LinearWebhookProject : Type := {
  wp_ID : string;
  wp_Name : string;
  wp_Description : string;
  wp_State : string;
  wp_URL : string
}.

(** ** Discord types *)

Record DiscordFooter : Type := {
  footer_Text : string;
  footer_IconURL : string
}.

Record DiscordAuthor : Type := {
  author_Name : string;
  author_URL : string;
  author_IconURL : string
}.

Record DiscordField : Type := {
  field_Name : string;
  field_Value : string;
  field_Inline : bool
}.

Record DiscordEmbed : Type := {
  embed_Title : string;
  embed_Description : string;
  embed_URL : string;
  embed_Color : Z;
  embed_Timestamp : string;
  embed_Footer : option DiscordFooter;
  embed_Author : option DiscordAuthor;
  embed_Fields : list DiscordField
}.

Record DiscordWebhook : Type := {
  dw_Content : string;
  dw_Username : string;
  dw_AvatarURL : string;
  dw_Embeds : list DiscordEmbed
}.

Definition ColorBlue : Z := 0x5E6AD2.
Definition ColorGreen : Z := 0x22C55E.
Definition ColorYellow : Z := 0xEAB308.
Definition ColorRed : Z := 0xEF4444.
Definition ColorGray : Z := 0x6B7280.
Definition ColorPurple : Z := 0x8B5CF6.

Definition linearAvatarURL : string :=
  "https://asset.brandfetch.io/ideiLNHwrW/id_xq4rBdb.png".

(** ** Report types *)

Record StatusGroup : Type := {
  sg_Name : string;
  sg_Type : string;
  sg_Color : string;
  sg_Issues : list Issue
}.

Record AssigneeGroup : Type := {
  ag_Name : string;
  ag_Issues : list Issue
}.

(** What [sort.Slice] asks of its [less]: a strict weak ordering. *)
Record strict_weak_order {A : Type} (less : A -> A -> bool) : Prop := {
  swo_irrefl : forall a, less a a = false;
  swo_trans : forall a b c, less a b = true -> less b c = true -> less a c = true;
  swo_incomp :
    forall a b c, less a b = false -> less b c = false -> less a c = false
}.

(** ** Effects: what the process does to the outside *)

(** One call made by the program: [client.Do] with a query to the Linear
    API, [http.Post] of a payload to the Discord webhook, [time.Sleep]. *)
Inductive Event : Type :=
| LinearQuery (cursor : option string)
| DiscordPost (payload : DiscordWebhook)
| Sleep (ms : Z).

(** An effectful computation: its value and the events it caused, in order. *)
Definition M (A : Type) : Type := outcome (A * list Event).

Definition mret {A : Type} (a : A) : M A := Returned (a, []).

Definition mbind {A B : Type} (m : M A) (k : A -> M B) : M B :=
  match m with
  | Returned (a, t) =>
      match k a with
      | Returned (b, t') => Returned (b, t ++ t')
      | Panicked => Panicked
      | OutOfFuel => OutOfFuel
      end
  | Panicked => Panicked
  | OutOfFuel => OutOfFuel
  end.

Definition emit (e : Event) : M unit := Returned (tt, [e]).

Definition lift {A : Type} (o : outcome A) : M A :=
  a <~ o ;; mret a.

Notation "x <- m ; k" := (mbind m (fun x => k))
  (at level 100, m at next level, right associativity).
Notation "m ;; k" := (mbind m (fun _ => k))
  (at level 100, right associativity).

(** An HTTP response written by a handler. *)
Inductive Body : Type :=
| NoBody
| TextBody (text : string)
| JSONBody (fields : list (string * string)).

Record Response : Type := {
  resp_Status : Z;
  resp_Body : Body
}.

(** [http.Error(w, msg, code)] *)
Definition http_Error (msg : string) (code : Z) : Response :=
  {| resp_Status := code; resp_Body := TextBody (msg +:+ newline) |}.

(** [json.NewEncoder(w).Encode(m)] with no status written before: 200. *)
Definition json_Encode (fields : list (string * string)) : Response :=
  {| resp_Status := 200; resp_Body := JSONBody fields |}.

(** The part of [*http.Request] a handler reads; [req_Body] is what
    [io.ReadAll(r.Body)] gives. *)
Record Request : Type := {
  req_Method : string;
  req_Body : result string
}.

Definition StatusOK : Z := 200.
Definition StatusBadRequest : Z := 400.
Definition StatusMethodNotAllowed : Z := 405.
Definition StatusInternalServerError : Z := 500.
Definition StatusServiceUnavailable : Z := 503.

(** ** Instances of the library contracts, and sample data

    Closed instances of what the program takes from outside, at which the
    properties below are instantiated. *)

(** One order a [range] over a map may take. *)
Definition reference_range (A : Type) (m : gmap string A) : list (string * A) :=
  reverse (map_to_list m).

(** A sort that meets the contract of [sort.Slice]. *)
Definition reference_sort (A : Type) (less : A -> A -> bool) (l : list A) : list A :=
  merge_sort (fun a b => less b a = false)
    (H := fun a b => decide (less b a = false)) l.

Definition sampleUser (name displayName : string) : User :=
  {| user_ID := "u-" +:+ name; user_Name := name;
     user_DisplayName := displayName; user_Email := name +:+ "@example.com" |}.

Definition sampleState (name type : string) : State :=
  {| state_ID := "s-" +:+ name; state_Name := name;
     state_Color := "#95a2b3"; state_Type := type |}.

Definition sampleIssue (identifier title : string) (priority : Z) (state : State)
    (assignee : option User) : Issue :=
  {| issue_ID := "i-" +:+ identifier;
     issue_Identifier := identifier;
     issue_Title := title;
     issue_Description := "";
     issue_Priority := priority;
     issue_PriorityLabel := "";
     issue_URL := "https://linear.app/issue/" +:+ identifier;
     issue_CreatedAt := 0;
     issue_UpdatedAt := 0;
     issue_State := state;
     issue_Assignee := assignee;
     issue_Team := {| team_ID := "t-1"; team_Name := "Core"; team_Key := "SCE" |};
     issue_Labels := [] |}.

(** Six issues over the four kinds of state type; three have no assignee. *)
Definition sampleIssues : list Issue :=
  [ sampleIssue "SCE-1" "Triage the crash reports" 0
      (sampleState "Triage" "triage") None;
    sampleIssue "SCE-2" "Fix authentication bug" 1
      (sampleState "In Progress" "started") (Some (sampleUser "Ana Lima" "ana"));
    sampleIssue "SCE-3" "Update API docs" 2
      (sampleState "Backlog" "backlog") None;
    sampleIssue "SCE-4" "Rotate the signing keys" 2
      (sampleState "Todo" "unstarted") (Some (sampleUser "Ben" ""));
    sampleIssue "SCE-5" "Archive old projects" 4
      (sampleState "Todo" "unstarted") None;
    sampleIssue "SCE-6" "Profile the report endpoint" 3
      (sampleState "In Progress" "started") (Some (sampleUser "Ana Lima" "ana")) ].

(** The six issues, all updated at the instant [t]. *)
Definition sampleUpdated (t : Z) : list Issue :=
  (fun i =>
     {| issue_ID := issue_ID i;
        issue_Identifier := issue_Identifier i;
        issue_Title := issue_Title i;
        issue_Description := issue_Description i;
        issue_Priority := issue_Priority i;
        issue_PriorityLabel := issue_PriorityLabel i;
        issue_URL := issue_URL i;
        issue_CreatedAt := issue_CreatedAt i;
        issue_UpdatedAt := t;
        issue_State := issue_State i;
        issue_Assignee := issue_Assignee i;
        issue_Team := issue_Team i;
        issue_Labels := issue_Labels i |}) <$> sampleIssues.

(** Twenty-four issues, each with an assignee of its own. *)
Definition sampleCrowd : list Issue :=
  (fun n : nat =>
     sampleIssue ("SCE-" +:+ pretty n) "Review the open tasks" 3
       (sampleState "Todo" "unstarted")
       (Some (sampleUser ("user-" +:+ pretty n) ""))) <$> seq 0 24.

(** A group of twenty-three issues. *)
Definition sampleBusy : AssigneeGroup :=
  {| ag_Name := "ana";
     ag_Issues :=
       replicate 23
         (sampleIssue "SCE-2" "Fix authentication bug" 1
            (sampleState "In Progress" "started")
            (Some (sampleUser "Ana Lima" "ana"))) |}.

Definition sampleWebhook (type action : string) : LinearWebhook :=
  {| wh_Action := action;
     wh_Actor := Some (sampleUser "Ana Lima" "ana");
     wh_CreatedAt := "2025-01-01T00:00:00Z";
     wh_Data := "{}";
     wh_Type := type;
     wh_URL := "";
     wh_UpdatedFrom := "";
     wh_WebhookID := "";
     wh_WebhookTS := 0 |}.

Definition sampleWebhookIssue : LinearWebhookIssue :=
  {| wi_ID := "i-SCE-2"; wi_Identifier := "SCE-2";
     wi_Title := "Fix authentication bug"; wi_Description := "";
     wi_Priority := 1; wi_PriorityLabel := "Urgent";
     wi_State := Some (sampleState "In Progress" "started");
     wi_Assignee := Some (sampleUser "Ana Lima" "ana");
     wi_Team := None; wi_Labels := []; wi_URL := "" |}.

Definition sampleWebhookComment : LinearWebhookComment :=
  {| wc_ID := "c-1"; wc_Body := "Looks good"; wc_Issue := Some sampleWebhookIssue;
     wc_User := None; wc_CreatedAt := ""; wc_URL := "" |}.

Definition sampleWebhookProject : LinearWebhookProject :=
  {| wp_ID := "p-1"; wp_Name := "Relay"; wp_Description := "";
     wp_State := "started"; wp_URL := "" |}.

(** A decoder that yields the same value for every input. *)
Definition sampleDecode {A : Type} (a : A) (data : string) : result A := Ok a.

Definition samplePage (nodes : list Issue) (hasNextPage : bool) (endCursor : string)
  : IssuesResponse :=
  {| issues_Nodes := nodes;
     issues_PageInfo := {| HasNextPage := hasNextPage; EndCursor := endCursor |} |}.

(** The Linear API answering the [n]-th query with a body that names [n]. *)
Definition sampleLinear (n : nat) (cursor : option string)
  : result (Z * result string) :=
  Ok (200, Ok (pretty n)).

(** The Linear API paging by cursor: the first page for a query without
    cursor, the second for the cursor "cursor-1", and status 400 for any
    other cursor. *)
Definition sampleLinearByCursor (n : nat) (cursor : option string)
  : result (Z * result string) :=
  match cursor with
  | None => Ok (200, Ok "0")
  | Some c =>
      if String.eqb c "cursor-1" then Ok (200, Ok "1")
      else Ok (400, Ok "unknown cursor")
  end.

(** The Linear API paging by cursor without end: every page reports a next
    page, whose cursor is one letter longer than the cursor received. *)
Definition sampleLinearEndless (n : nat) (cursor : option string)
  : result (Z * result string) :=
  match cursor with
  | None => Ok (200, Ok "c")
  | Some c => Ok (200, Ok ("c" +:+ c))
  end.

(** The [endCursor] of its [k]-th page. *)
Fixpoint sampleCursor (k : nat) : string :=
  match k with
  | O => "c"
  | S k' => "c" +:+ sampleCursor k'
  end.

(** The page whose body is its own [endCursor]. *)
Definition sampleEndlessPage (data : string) : result IssuesResponse :=
  Ok {| issues_Nodes := [];
        issues_PageInfo := {| HasNextPage := true; EndCursor := data |} |}.

Definition sampleGraphQL (body : string) : result GraphQLResponse :=
  Ok {| gql_Data := body; gql_Errors := [] |}.

(** [first] for the first query, [rest] for every later one. *)
Definition samplePages (first rest : IssuesResponse) (data : string)
  : result IssuesResponse :=
  if String.eqb data "0" then Ok first else Ok rest.

Definition sampleDiscord (payload : DiscordWebhook) : result (Z * string) :=
  Ok (204, "").

Section Relay.

(** *** The outside world

    Decoders of [encoding/json], one per target type; the clock; the text
    functions of the standard library the program calls; the two remote
    services, each answering with a transport error or a status code and a
    response body. *)

Variable unmarshalWebhook : string -> result LinearWebhook.
Variable unmarshalIssue : string -> result LinearWebhookIssue.
Variable unmarshalComment : string -> result LinearWebhookComment.
Variable unmarshalProject : string -> result LinearWebhookProject.
Variable unmarshalGraphQLResponse : string -> result GraphQLResponse.
Variable unmarshalIssuesResponse : string -> result IssuesResponse.

(** [time.Now()], read once per request, and [t.UTC().Format(time.RFC3339)]. *)
Variable time_Now : Z.
Variable format_RFC3339 : Z -> string.

(** [strings.Title] *)
Variable strings_Title : string -> string.

(** What [http.Post] hands back for a payload: a transport error, or the
    status and body of the response it ends with. *)
Variable discord : DiscordWebhook -> result (Z * string).

(** What [client.Do] and [io.ReadAll] hand back for the [n]-th query of a
    run, which carried the given cursor variable (or none): a transport
    error, or the status of the response with its body or a read error. *)
Variable linear : nat -> option string -> result (Z * result string).

(** The process-wide configuration read at start-up. *)
Variable linearAPIKey : string.

(** ** Outbound sender *)

(** [json.Marshal] cannot fail on a [DiscordWebhook] (strings, numbers,
    booleans and slices of them), so that branch is left out. *)
Definition sendToDiscord (payload : DiscordWebhook) : M (option error) :=
  emit (DiscordPost payload) ;;
  match discord payload with
  | Err e => mret (Some ("failed to send to discord: " +:+ e))
  | Ok (status, body) =>
      if (status <? 200) || (300 <=? status)
      then mret (Some ("discord returned status " +:+ fmt_d status +:+ ": " +:+ body))
      else mret None
  end.

(** ** Webhook relay *)

Definition footer_of (actor : option User) : option DiscordFooter :=
  match actor with
  | Some a => Some {| footer_Text := "by " +:+ user_Name a; footer_IconURL := "" |}
  | None => None
  end.

Definition transformIssueWebhook (webhook : LinearWebhook)
  : outcome (option DiscordWebhook * option error) :=
  match unmarshalIssue (wh_Data webhook) with
  | Err e => Returned (None, Some ("failed to parse issue data: " +:+ e))
  | Ok issue =>
      let '(emoji, title, color) :=
        if String.eqb (wh_Action webhook) "create"
        then ("ðŸŽ¯", "New Issue Created", ColorBlue)
        else if String.eqb (wh_Action webhook) "update"
        then ("ðŸ“", "Issue Updated", ColorYellow)
        else if String.eqb (wh_Action webhook) "remove"
        then ("ðŸ—‘ï¸", "Issue Removed", ColorRed)
        else ("ðŸ“‹", "Issue " +:+ strings_Title (wh_Action webhook), ColorBlue) in
      truncated <~ truncate (wi_Description issue) 300 ;;
      let description :=
        if String.eqb truncated "" then "*No description*" else truncated in
      let fields :=
        match wi_State issue with
        | Some st =>
            [ {| field_Name := "Status";
                 field_Value := getStateEmoji (state_Type st) +:+ " " +:+ state_Name st;
                 field_Inline := true |} ]
        | None => []
        end ++
        (if String.eqb (wi_PriorityLabel issue) "" then []
         else [ {| field_Name := "Priority";
                   field_Value := getPriorityEmoji (wi_Priority issue) +:+ " "
                                  +:+ wi_PriorityLabel issue;
                   field_Inline := true |} ]) ++
        match wi_Assignee issue with
        | Some u =>
            [ {| field_Name := "Assignee";
                 field_Value := "ðŸ‘¤ " +:+ user_Name u;
                 field_Inline := true |} ]
        | None => []
        end ++
        match wi_Team issue with
        | Some t =>
            [ {| field_Name := "Team";
                 field_Value := "ðŸ‘¥ " +:+ team_Name t;
                 field_Inline := true |} ]
        | None => []
        end ++
        match wi_Labels issue with
        | [] => []
        | labels =>
            [ {| field_Name := "Labels";
                 field_Value :=
                   strings_Join
                     (List.map (fun l => "`" +:+ label_Name l +:+ "`") labels) " ";
                 field_Inline := false |} ]
        end in
      let embed :=
        {| embed_Title := emoji +:+ " " +:+ title;
           embed_Description :=
             "**[" +:+ wi_Identifier issue +:+ "](" +:+ wi_URL issue +:+ ")** - "
             +:+ wi_Title issue +:+ newline +:+ newline +:+ description;
           embed_URL := wi_URL issue;
           embed_Color := color;
           embed_Timestamp := format_RFC3339 time_Now;
           embed_Footer := footer_of (wh_Actor webhook);
           embed_Author := None;
           embed_Fields := fields |} in
      Returned
        (Some {| dw_Content := "";
                 dw_Username := "Linear";
                 dw_AvatarURL := linearAvatarURL;
                 dw_Embeds := [embed] |},
         None)
  end.

Definition transformCommentWebhook (webhook : LinearWebhook)
  : outcome (option DiscordWebhook * option error) :=
  match unmarshalComment (wh_Data webhook) with
  | Err e => Returned (None, Some ("failed to parse comment data: " +:+ e))
  | Ok comment =>
      let '(emoji, title) :=
        if String.eqb (wh_Action webhook) "create"
        then ("ðŸ’¬", "New Comment")
        else if String.eqb (wh_Action webhook) "update"
        then ("âœï¸", "Comment Updated")
        else if String.eqb (wh_Action webhook) "remove"
        then ("ðŸ—‘ï¸", "Comment Removed")
        else ("ðŸ’¬", "Comment " +:+ strings_Title (wh_Action webhook)) in
      let issueInfo :=
        match wc_Issue comment with
        | Some i =>
            "**[" +:+ wi_Identifier i +:+ "](" +:+ wi_URL i +:+ ")** - " +:+ wi_Title i
        | None => ""
        end in
      body <~ truncate (wc_Body comment) 500 ;;
      let embed :=
        {| embed_Title := emoji +:+ " " +:+ title;
           embed_Description :=
             issueInfo +:+ newline +:+ newline +:+ ">>> " +:+ body;
           embed_URL := wc_URL comment;
           embed_Color := ColorPurple;
           embed_Timestamp := format_RFC3339 time_Now;
           embed_Footer := footer_of (wh_Actor webhook);
           embed_Author :=
             match wc_User comment with
             | Some u =>
                 Some {| author_Name := user_Name u; author_URL := "";
                         author_IconURL := "" |}
             | None => None
             end;
           embed_Fields := [] |} in
      Returned
        (Some {| dw_Content := "";
                 dw_Username := "Linear";
                 dw_AvatarURL := linearAvatarURL;
                 dw_Embeds := [embed] |},
         None)
  end.

Definition transformProjectWebhook (webhook : LinearWebhook)
  : outcome (option DiscordWebhook * option error) :=
  match unmarshalProject (wh_Data webhook) with
  | Err e => Returned (None, Some ("failed to parse project data: " +:+ e))
  | Ok project =>
      let '(emoji, title, color) :=
        if String.eqb (wh_Action webhook) "create"
        then ("ðŸš€", "New Project Created", ColorGreen)
        else if String.eqb (wh_Action webhook) "update"
        then ("ðŸ“Š", "Project Updated", ColorYellow)
        else if String.eqb (wh_Action webhook) "remove"
        then ("ðŸ—‘ï¸", "Project Removed", ColorRed)
        else ("ðŸ“", "Project " +:+ strings_Title (wh_Action webhook), ColorBlue) in
      truncated <~ truncate (wp_Description project) 300 ;;
      let description :=
        if String.eqb truncated "" then "*No description*" else truncated in
      let fields :=
        if String.eqb (wp_State project) "" then []
        else [ {| field_Name := "State";
                  field_Value := wp_State project;
                  field_Inline := true |} ] in
      let embed :=
        {| embed_Title := emoji +:+ " " +:+ title;
           embed_Description :=
             "**" +:+ wp_Name project +:+ "**" +:+ newline +:+ newline +:+ description;
           embed_URL := wp_URL project;
           embed_Color := color;
           embed_Timestamp := format_RFC3339 time_Now;
           embed_Footer := footer_of (wh_Actor webhook);
           embed_Author := None;
           embed_Fields := fields |} in
      Returned
        (Some {| dw_Content := "";
                 dw_Username := "Linear";
                 dw_AvatarURL := linearAvatarURL;
                 dw_Embeds := [embed] |},
         None)
  end.

Definition transformWebhookToDiscord (webhook : LinearWebhook)
  : outcome (option DiscordWebhook * option error) :=
  if String.eqb (wh_Type webhook) "Issue" then transformIssueWebhook webhook
  else if String.eqb (wh_Type webhook) "Comment" then transformCommentWebhook webhook
  else if String.eqb (wh_Type webhook) "Project" then transformProjectWebhook webhook
  else Returned (None, None).

Definition handleLinearWebhook (r : Request) : M Response :=
  if negb (String.eqb (req_Method r) "POST")
  then mret (http_Error "Method not allowed" StatusMethodNotAllowed)
  else
    match req_Body r with
    | Err _ => mret (http_Error "Error reading request" StatusBadRequest)
    | Ok body =>
        match unmarshalWebhook body with
        | Err _ => mret (http_Error "Invalid JSON" StatusBadRequest)
        | Ok webhook =>
            transformed <- lift (transformWebhookToDiscord webhook) ;
            match transformed with
            | (_, Some _) =>
                mret (http_Error "Error processing webhook" StatusInternalServerError)
            | (None, None) =>
                mret {| resp_Status := StatusOK; resp_Body := NoBody |}
            | (Some discordPayload, None) =>
                sent <- sendToDiscord discordPayload ;
                match sent with
                | Some _ =>
                    mret (http_Error "Error forwarding to Discord"
                            StatusInternalServerError)
                | None => mret (json_Encode [("status", "forwarded")])
                end
            end
        end
    end.

(** ** Daily digest: fetching *)

(** [json.Marshal] of the request and [http.NewRequest] with the constant
    URL cannot fail; the request is sent with [linearAPIKey] as its
    authorization header.  [n] counts the queries of the run. *)
Definition executeGraphQL (n : nat) (cursor : option string) : M (result string) :=
  emit (LinearQuery cursor) ;;
  match linear n cursor with
  | Err e => mret (Err ("failed to execute request: " +:+ e))
  | Ok (_, Err e) => mret (Err ("failed to read response: " +:+ e))
  | Ok (status, Ok body) =>
      if negb (status =? StatusOK)
      then mret (Err ("linear API returned status " +:+ fmt_d status +:+ ": " +:+ body))
      else
        match unmarshalGraphQLResponse body with
        | Err e => mret (Err ("failed to parse response: " +:+ e))
        | Ok graphResp =>
            if 0 <? Z.of_nat (length (gql_Errors graphResp))
            then mret (Err ("GraphQL errors: ["
                            +:+ strings_Join
                                  (List.map (fun m => "{" +:+ m +:+ "}")
                                     (gql_Errors graphResp)) " "
                            +:+ "]"))
            else mret (Ok (gql_Data graphResp))
        end
  end.

(** The [variables] of a query: the cursor is passed only when it is set. *)
Definition cursorVariables (cursor : string) : option string :=
  if String.eqb cursor "" then None else Some cursor.

(** The [for] loop of [fetchAllOpenIssues]: [n] iterations were done,
    [cursor] and [allIssues] are the loop's variables. *)
Fixpoint fetchAllOpenIssues_loop (fuel n : nat) (cursor : string)
    (allIssues : list Issue) : M (result (list Issue)) :=
  match fuel with
  | O => OutOfFuel
  | S fuel' =>
      let variables := cursorVariables cursor in
      resp <- executeGraphQL n variables ;
      match resp with
      | Err e => mret (Err e)
      | Ok data =>
          match unmarshalIssuesResponse data with
          | Err e => mret (Err ("failed to parse issues response: " +:+ e))
          | Ok issuesResp =>
              let allIssues := allIssues ++ issues_Nodes issuesResp in
              if negb (HasNextPage (issues_PageInfo issuesResp))
              then mret (Ok allIssues)
              else fetchAllOpenIssues_loop fuel' (S n)
                     (EndCursor (issues_PageInfo issuesResp)) allIssues
          end
      end
  end.

Definition fetchAllOpenIssues (fuel : nat) : M (result (list Issue)) :=
  fetchAllOpenIssues_loop fuel 0%nat "" [].

(** ** Daily digest: grouping *)

(** Go's [range] over a map visits the entries in an unspecified order. *)
Variable range_map : forall A : Type, gmap string A -> list (string * A).
Hypothesis range_map_perm :
  forall (A : Type) (m : gmap string A), range_map A m ≡ₚ map_to_list m.

(** [sort.Slice]: it reorders the slice, and the result is in order when
    [less] is a strict weak ordering, as the package asks of it. *)
Variable sort_Slice : forall A : Type, (A -> A -> bool) -> list A -> list A.
Hypothesis sort_Slice_perm :
  forall (A : Type) (less : A -> A -> bool) (l : list A),
    sort_Slice A less l ≡ₚ l.
Hypothesis sort_Slice_sorted :
  forall (A : Type) (less : A -> A -> bool) (l : list A),
    strict_weak_order less ->
    StronglySorted (fun a b => less b a = false) (sort_Slice A less l).

(** The map update both groupings make for an issue:
    [if groups[key] == nil { groups[key] = &fresh }] and then
    [groups[key].Issues = append(groups[key].Issues, issue)]. *)
Definition appendTo {G : Type} (key : string) (fresh : G) (push : G -> G)
    (groups : gmap string G) : gmap string G :=
  let groups :=
    match groups !! key with
    | None => <[key := fresh]> groups
    | Some _ => groups
    end in
  alter push key groups.

Definition groupByStatus_add (groups : gmap string StatusGroup) (issue : Issue)
  : gmap string StatusGroup :=
  appendTo (state_Name (issue_State issue))
    {| sg_Name := state_Name (issue_State issue);
       sg_Type := state_Type (issue_State issue);
       sg_Color := state_Color (issue_State issue);
       sg_Issues := [] |}
    (fun g => {| sg_Name := sg_Name g; sg_Type := sg_Type g;
                 sg_Color := sg_Color g;
                 sg_Issues := sg_Issues g ++ [issue] |})
    groups.

Definition statusLess (a b : StatusGroup) : bool :=
  getStatusPriority (sg_Type a) <? getStatusPriority (sg_Type b).

Definition groupByStatus (issues : list Issue) : list StatusGroup :=
  let groups := fold_left groupByStatus_add issues ∅ in
  let result := snd <$> range_map _ groups in
  sort_Slice _ statusLess result.

Definition assigneeKey (issue : Issue) : string :=
  match issue_Assignee issue with
  | Some a =>
      if String.eqb (user_DisplayName a) "" then user_Name a
      else user_DisplayName a
  | None => "Unassigned"
  end.

Definition groupByAssignee_add (groups : gmap string AssigneeGroup) (issue : Issue)
  : gmap string AssigneeGroup :=
  appendTo (assigneeKey issue)
    {| ag_Name := assigneeKey issue; ag_Issues := [] |}
    (fun g => {| ag_Name := ag_Name g; ag_Issues := ag_Issues g ++ [issue] |})
    groups.

Definition assigneeLess (a b : AssigneeGroup) : bool :=
  if String.eqb (ag_Name a) "Unassigned" then false
  else if String.eqb (ag_Name b) "Unassigned" then true
  else Z.of_nat (length (ag_Issues b)) <? Z.of_nat (length (ag_Issues a)).

Definition groupByAssignee (issues : list Issue) : list AssigneeGroup :=
  let groups := fold_left groupByAssignee_add issues ∅ in
  let result := snd <$> range_map _ groups in
  sort_Slice _ assigneeLess result.

(** ** Daily digest: rendering *)

Definition sendNoIssuesReport : M (option error) :=
  let embed :=
    {| embed_Title := "ðŸ“Š Linear Daily Digest";
       embed_Description :=
         "No open issues found. Great job keeping the backlog clean! ðŸŽ‰";
       embed_URL := "";
       embed_Color := ColorGreen;
       embed_Timestamp := format_RFC3339 time_Now;
       embed_Footer :=
         Some {| footer_Text := "Linear Daily Digest"; footer_IconURL := "" |};
       embed_Author := None;
       embed_Fields := [] |} in
  sendToDiscord {| dw_Content := "";
                   dw_Username := "Linear Daily Digest";
                   dw_AvatarURL := linearAvatarURL;
                   dw_Embeds := [embed] |}.

Definition countPriorities (issues : list Issue) : Z * Z :=
  fold_left
    (fun '(urgentCount, highCount) issue =>
       if issue_Priority issue =? 1 then (urgentCount + 1, highCount)
       else if issue_Priority issue =? 2 then (urgentCount, highCount + 1)
       else (urgentCount, highCount))
    issues (0, 0).

Fixpoint priorityIssues_loop (issues : list Issue) (priorityIssues : list string)
    (count : Z) : outcome (list string) :=
  match issues with
  | [] => Returned priorityIssues
  | issue :: rest =>
      if (issue_Priority issue <=? 2) && (count <? 10)
      then
        let emoji := if issue_Priority issue =? 2 then "ðŸŸ " else "ðŸ”´" in
        let assignee :=
          match issue_Assignee issue with
          | Some a => user_Name a
          | None => "Unassigned"
          end in
        title <~ truncate (issue_Title issue) 40 ;;
        priorityIssues_loop rest
          (priorityIssues ++
             [emoji +:+ " [**" +:+ issue_Identifier issue +:+ "**]("
              +:+ issue_URL issue +:+ ") - " +:+ title +:+ " (" +:+ assignee +:+ ")"])
          (count + 1)
      else priorityIssues_loop rest priorityIssues count
  end.

(** [t.Truncate(d)] rounds the instant down to a multiple of [d]. *)
Definition time_Truncate (t d : Z) : Z := t - t mod d.

Definition day : Z := 24 * 3600 * 1000000000.

Fixpoint recentIssues_loop (today : Z) (issues : list Issue)
    (recentIssues : list string) : outcome (list string) :=
  match issues with
  | [] => Returned recentIssues
  | issue :: rest =>
      if (today <? issue_UpdatedAt issue)
         && (Z.of_nat (length recentIssues) <? 5)
      then
        title <~ truncate (issue_Title issue) 50 ;;
        recentIssues_loop today rest
          (recentIssues ++
             ["â€¢ [**" +:+ issue_Identifier issue +:+ "**]("
              +:+ issue_URL issue +:+ ") - " +:+ title])
      else recentIssues_loop today rest recentIssues
  end.

Definition plainEmbed (title description : string) (color : Z) : DiscordEmbed :=
  {| embed_Title := title;
     embed_Description := description;
     embed_URL := "";
     embed_Color := color;
     embed_Timestamp := "";
     embed_Footer := None;
     embed_Author := None;
     embed_Fields := [] |}.

Definition sendReport (issues : list Issue) (byStatus : list StatusGroup)
    (byAssignee : list AssigneeGroup) : M (option error) :=
  let '(urgentCount, highCount) := countPriorities issues in
  let statusLines :=
    List.map
      (fun group =>
         getStateEmoji (sg_Type group) +:+ " **" +:+ sg_Name group +:+ "**: "
         +:+ fmt_d (Z.of_nat (length (sg_Issues group))))
      byStatus in
  let assigneeLines :=
    List.map
      (fun group =>
         let emoji :=
           if String.eqb (ag_Name group) "Unassigned" then "â“" else "ðŸ‘¤" in
         emoji +:+ " **" +:+ ag_Name group +:+ "**: "
         +:+ fmt_d (Z.of_nat (length (ag_Issues group))))
      byAssignee in
  let priorityAlerts :=
    (if 0 <? urgentCount then ["ðŸ”´ **" +:+ fmt_d urgentCount +:+ " Urgent**"] else [])
    ++ (if 0 <? highCount
        then ["ðŸŸ  **" +:+ fmt_d highCount +:+ " High Priority**"] else []) in
  let summaryParts :=
    ["**" +:+ fmt_d (Z.of_nat (length issues)) +:+ "** open issues across your workspace"]
    ++ match priorityAlerts with
       | [] => []
       | _ => [strings_Join priorityAlerts " | "]
       end in
  let mainEmbed :=
    {| embed_Title := "ðŸ“Š Linear Daily Digest";
       embed_Description := strings_Join summaryParts newline;
       embed_URL := "";
       embed_Color := ColorBlue;
       embed_Timestamp := format_RFC3339 time_Now;
       embed_Footer :=
         Some {| footer_Text :=
                   "Total: " +:+ fmt_d (Z.of_nat (length issues))
                   +:+ " open issues â€¢ Generated at";
                 footer_IconURL := "" |};
       embed_Author := None;
       embed_Fields :=
         [ {| field_Name := "ðŸ“‹ By Status";
              field_Value := strings_Join statusLines newline;
              field_Inline := true |};
           {| field_Name := "ðŸ‘¥ By Assignee";
              field_Value := strings_Join assigneeLines newline;
              field_Inline := true |} ] |} in
  priorityIssues <-
    lift (if (0 <? urgentCount) || (0 <? highCount)
          then priorityIssues_loop issues [] 0
          else Returned []) ;
  let priorityEmbeds :=
    match priorityIssues with
    | [] => []
    | _ => [plainEmbed "ðŸš¨ Priority Issues"
              (strings_Join priorityIssues newline) ColorRed]
    end in
  let today := time_Truncate time_Now day in
  recentIssues <- lift (recentIssues_loop today issues []) ;
  let recentEmbeds :=
    match recentIssues with
    | [] => []
    | _ => [plainEmbed "ðŸ”„ Recently Updated"
              (strings_Join recentIssues newline) ColorYellow]
    end in
  sendToDiscord {| dw_Content := "";
                   dw_Username := "Linear Daily Digest";
                   dw_AvatarURL := linearAvatarURL;
                   dw_Embeds := [mainEmbed] ++ priorityEmbeds ++ recentEmbeds |}.

Definition generateAndSendReport (fuel : nat) : M (option error) :=
  fetched <- fetchAllOpenIssues fuel ;
  match fetched with
  | Err e => mret (Some ("failed to fetch issues: " +:+ e))
  | Ok issues =>
      if Z.of_nat (length issues) =? 0 then sendNoIssuesReport
      else sendReport issues (groupByStatus issues) (groupByAssignee issues)
  end.

Definition handleReport (fuel : nat) : M Response :=
  if String.eqb linearAPIKey ""
  then mret (http_Error "LINEAR_API_KEY not configured" StatusServiceUnavailable)
  else
    failed <- generateAndSendReport fuel ;
    match failed with
    | Some e => mret (http_Error e StatusInternalServerError)
    | None => mret (json_Encode [("status", "report_sent")])
    end.

(** ** Per-user report *)

(** The line of one task in a user's embed. *)
Definition taskLine (issue : Issue) : outcome string :=
  title <~ truncate (issue_Title issue) 50 ;;
  Returned
    (getPriorityEmoji (issue_Priority issue) +:+ " [" +:+ issue_Identifier issue
     +:+ "](" +:+ issue_URL issue +:+ ") - " +:+ title).

(** The line that stands for the tasks past the fifteenth. *)
Definition moreLine (n : Z) : string :=
  "*... and " +:+ fmt_d (int_sub n 15) +:+ " more*".

(** The inner loop over [group.Issues]: [n] is [len(group.Issues)], [i] the
    index of the head of [issues]. *)
Fixpoint taskLines_loop (n i : Z) (issues : list Issue) (taskLines : list string)
  : outcome (list string) :=
  match issues with
  | [] => Returned taskLines
  | issue :: rest =>
      if 15 <=? i
      then Returned (taskLines ++ [moreLine n])
      else
        line <~ taskLine issue ;;
        taskLines_loop n (i + 1) rest (taskLines ++ [line])
  end.

Definition taskLines (group : AssigneeGroup) : outcome (list string) :=
  taskLines_loop (Z.of_nat (length (ag_Issues group))) 0 (ag_Issues group) [].

Definition userEmbed (group : AssigneeGroup) : outcome DiscordEmbed :=
  lines <~ taskLines group ;;
  let emoji := if String.eqb (ag_Name group) "Unassigned" then "â“" else "ðŸ‘¤" in
  Returned
    (plainEmbed
       (emoji +:+ " " +:+ ag_Name group +:+ " ("
        +:+ fmt_d (Z.of_nat (length (ag_Issues group))) +:+ " tasks)")
       (strings_Join lines newline) ColorGray).

Definition taskReport (embeds : list DiscordEmbed) : DiscordWebhook :=
  {| dw_Content := "";
     dw_Username := "Linear Task Report";
     dw_AvatarURL := linearAvatarURL;
     dw_Embeds := embeds |}.

(** The outer loop over [byAssignee]; [embeds] is the batch collected so
    far.  [Err] is the early [return err], [Ok] the batch left at the end. *)
Fixpoint userEmbeds_loop (groups : list AssigneeGroup) (embeds : list DiscordEmbed)
  : M (result (list DiscordEmbed)) :=
  match groups with
  | [] => mret (Ok embeds)
  | group :: rest =>
      embed <- lift (userEmbed group) ;
      let embeds := embeds ++ [embed] in
      if 10 <=? Z.of_nat (length embeds)
      then
        failed <- sendToDiscord (taskReport embeds) ;
        match failed with
        | Some e => mret (Err e)
        | None => emit (Sleep 500) ;; userEmbeds_loop rest []
        end
      else userEmbeds_loop rest embeds
  end.

Definition generateUserTasksReport (fuel : nat) : M (option error) :=
  fetched <- fetchAllOpenIssues fuel ;
  match fetched with
  | Err e => mret (Some ("failed to fetch issues: " +:+ e))
  | Ok issues =>
      if Z.of_nat (length issues) =? 0 then sendNoIssuesReport
      else
        let byAssignee := groupByAssignee issues in
        let header :=
          {| embed_Title := "ðŸ“‹ Open Tasks by User";
             embed_Description :=
               "**" +:+ fmt_d (Z.of_nat (length issues)) +:+ "** open tasks across **"
               +:+ fmt_d (Z.of_nat (length byAssignee)) +:+ "** assignees";
             embed_URL := "";
             embed_Color := ColorBlue;
             embed_Timestamp := format_RFC3339 time_Now;
             embed_Footer := None;
             embed_Author := None;
             embed_Fields := [] |} in
        looped <- userEmbeds_loop byAssignee [header] ;
        match looped with
        | Err e => mret (Some e)
        | Ok [] => mret None
        | Ok embeds => sendToDiscord (taskReport embeds)
        end
  end.

Definition handleReportByUser (fuel : nat) : M Response :=
  if String.eqb linearAPIKey ""
  then mret (http_Error "LINEAR_API_KEY not configured" StatusServiceUnavailable)
  else
    failed <- generateUserTasksReport fuel ;
    match failed with
    | Some e => mret (http_Error e StatusInternalServerError)
    | None => mret (json_Encode [("status", "user_report_sent")])
    end.

(** ** Observations used in the statements *)

(** The code ran without a run-time panic (it returned, or is still running
    when the fuel is spent). *)
Definition no_panic {A : Type} (o : outcome A) : Prop := o <> Panicked.

(** The colors of the embeds of the payload a transformer returned. *)
Definition embedColors (o : outcome (option DiscordWebhook * option error))
  : option (list Z) :=
  match o with
  | Returned (Some payload, None) => Some (List.map embed_Color (dw_Embeds payload))
  | _ => None
  end.

(** [groups], keyed by [key], holds exactly the issues [seen], each in the
    group of its key and in the order seen. *)
Definition grouped {G : Type} (key : Issue -> string) (name : G -> string)
    (members : G -> list Issue) (groups : gmap string G) (seen : list Issue) : Prop :=
  (forall k g, groups !! k = Some g ->
     name g = k /\ members g = filter (fun x => key x = k) seen /\ members g <> [])
  /\ (forall k, groups !! k = None -> filter (fun x => key x = k) seen = [])
  /\ mjoin (members <$> (snd <$> map_to_list groups)) ≡ₚ seen.

(** The list of groups [r] partitions [issues] by [key]. *)
Definition partitions {G : Type} (key : Issue -> string) (name : G -> string)
    (members : G -> list Issue) (r : list G) (issues : list Issue) : Prop :=
  NoDup (name <$> r)
  /\ (forall g, g ∈ r ->
       members g = filter (fun x => key x = name g) issues /\ members g <> [])
  /\ mjoin (members <$> r) ≡ₚ issues.

(** The Linear API answers the [n]-th query, sent with [cursor], with a page. *)
Definition answers (n : nat) (cursor : option string) (page : IssuesResponse) : Prop :=
  exists data,
    executeGraphQL n cursor = Returned (Ok data, [LinearQuery cursor])
    /\ unmarshalIssuesResponse data = Ok page.

(** The call of [http.Post] with [payload] gives a response with a 2xx
    status. *)
Definition accepted (payload : DiscordWebhook) : Prop :=
  exists status body,
    discord payload = Ok (status, body) /\ 200 <= status < 300.

(** The event is a query to the Linear API. *)
Definition isQuery (e : Event) : Prop :=
  match e with
  | LinearQuery _ => True
  | _ => False
  end.

(** The event is not a post that Discord turned down. *)
Definition acceptedPost (e : Event) : Prop :=
  match e with
  | DiscordPost payload => accepted payload
  | _ => True
  end.

(** * Properties *)

(** ** Strings and integers *)

Lemma length_substring_0 (n : nat) (s : string) :
  (n <= String.length s)%nat -> String.length (substring 0 n s) = n.
Proof.
  revert n. induction s as [|c s IH]; intros [|n] Hn; simpl in *; try lia.
  rewrite IH; lia.
Qed.

Lemma length_append (s t : string) :
  String.length (s +:+ t) = (String.length s + String.length t)%nat.
Proof.
  induction s as [|c s IH]; [reflexivity |].
  change (S (String.length (s +:+ t)) = S (String.length s + String.length t)).
  now rewrite IH.
Qed.

Lemma wrap64_id (z : Z) : is_int z -> wrap64 z = z.
Proof.
  unfold is_int, MinInt, MaxInt, wrap64. intros H.
  rewrite Z.mod_small; lia.
Qed.

Lemma truncate_short (s : string) (maxLen : Z) :
  len s <= maxLen -> truncate s maxLen = Returned s.
Proof.
  intros H. unfold truncate.
  destruct (Z.leb_spec (len s) maxLen); [reflexivity | lia].
Qed.

Lemma truncate_long (s : string) (maxLen : Z) :
  3 <= maxLen <= MaxInt -> maxLen < len s ->
  truncate s maxLen =
    Returned (substring 0 (Z.to_nat (maxLen - 3)) s +:+ "...").
Proof.
  intros Hb Hl. unfold truncate, int_sub, slice_to.
  destruct (Z.leb_spec (len s) maxLen); [lia |].
  rewrite wrap64_id by (unfold is_int, MinInt, MaxInt in *; lia).
  destruct (Z.leb_spec 0 (maxLen - 3)); [| lia].
  destruct (Z.leb_spec (maxLen - 3) (len s)); [| lia].
  reflexivity.
Qed.

Lemma truncate_long_len (s : string) (maxLen : Z) :
  3 <= maxLen <= MaxInt -> maxLen < len s ->
  exists t, truncate s maxLen = Returned t /\ len t = maxLen.
Proof.
  intros Hb Hl. eexists. split; [apply truncate_long; assumption |].
  unfold len in *. rewrite length_append, length_substring_0 by lia.
  simpl. lia.
Qed.
(** ** Outcomes that are not panics *)

Lemma no_panic_Returned {A : Type} (a : A) : no_panic (Returned a).
Proof. discriminate. Qed.

Lemma no_panic_OutOfFuel {A : Type} : no_panic (@OutOfFuel A).
Proof. discriminate. Qed.

Lemma no_panic_obind {A B : Type} (m : outcome A) (k : A -> outcome B) :
  no_panic m -> (forall a, no_panic (k a)) -> no_panic (obind m k).
Proof. unfold no_panic. destruct m; simpl; intros Hm Hk; auto. Qed.

Lemma no_panic_mbind {A B : Type} (m : M A) (k : A -> M B) :
  no_panic m -> (forall a, no_panic (k a)) -> no_panic (mbind m k).
Proof.
  unfold no_panic. intros Hm Hk. destruct m as [[a t]| |]; simpl; auto.
  specialize (Hk a). destruct (k a) as [[b t']| |]; congruence.
Qed.

Lemma no_panic_lift {A : Type} (o : outcome A) : no_panic o -> no_panic (lift o).
Proof. unfold no_panic, lift, mret. destruct o; simpl; congruence. Qed.

Lemma no_panic_mret {A : Type} (a : A) : no_panic (mret a).
Proof. discriminate. Qed.

(** ** Truncation *)

Lemma truncate_returns (s : string) (maxLen : Z) :
  3 <= maxLen <= MaxInt ->
  exists t, truncate s maxLen = Returned t /\ len t = Z.min (len s) maxLen.
Proof.
  intros Hb. destruct (Z.le_gt_cases (len s) maxLen) as [Hle | Hgt].
  - exists s. split; [apply truncate_short; assumption | lia].
  - destruct (truncate_long_len s maxLen Hb) as (t & Ht & Hlen); [lia |].
    exists t. split; [assumption | lia].
Qed.

Lemma truncate_no_panic (s : string) (maxLen : Z) :
  3 <= maxLen <= MaxInt -> no_panic (truncate s maxLen).
Proof.
  intros Hb. destruct (truncate_returns s maxLen Hb) as (t & -> & _).
  apply no_panic_Returned.
Qed.

Lemma truncate_panics (s : string) (maxLen : Z) :
  is_int maxLen -> len s < MaxInt - 2 ->
  maxLen < len s -> maxLen < 3 -> truncate s maxLen = Panicked.
Proof.
  unfold is_int, MinInt, MaxInt. intros Hint Hs Hl H3.
  unfold truncate, int_sub, slice_to.
  destruct (Z.leb_spec (len s) maxLen); [lia |].
  destruct (Z.le_gt_cases (- 2 ^ 63) (maxLen - 3)) as [Hin | Hout].
  - rewrite wrap64_id by (unfold is_int, MinInt, MaxInt; lia).
    destruct (Z.leb_spec 0 (maxLen - 3)); [lia | reflexivity].
  - assert (Hw : wrap64 (maxLen - 3) = maxLen - 3 + 2 ^ 64).
    { unfold wrap64.
      replace (maxLen - 3 + 2 ^ 63) with (maxLen - 3 + 2 ^ 64 + 2 ^ 63 + -1 * 2 ^ 64) by lia.
      rewrite Z.mod_add by lia. rewrite Z.mod_small; lia. }
    rewrite Hw.
    destruct (Z.leb_spec 0 (maxLen - 3 + 2 ^ 64)); simpl; [| reflexivity].
    destruct (Z.leb_spec (maxLen - 3 + 2 ^ 64) (len s)); [lia | reflexivity].
Qed.

(** C1.  For every budget from 3 up (the program uses 40, 50, 300 and 500)
    and every string: a string at or under the budget is returned unchanged;
    a longer one becomes its first [maxLen - 3] bytes followed by the
    ellipsis marker; and truncating the result again with the same budget
    changes nothing. *)
Theorem truncate_idempotent (s : string) (maxLen : Z) :
  3 <= maxLen <= MaxInt ->
  (len s <= maxLen -> truncate s maxLen = Returned s) /\
  (maxLen < len s ->
   truncate s maxLen =
     Returned (substring 0 (Z.to_nat (maxLen - 3)) s +:+ "...")) /\
  (exists t, truncate s maxLen = Returned t /\ truncate t maxLen = Returned t).
Proof.
  intros Hb. split; [| split].
  - apply truncate_short.
  - apply truncate_long. assumption.
  - destruct (truncate_returns s maxLen Hb) as (t & Ht & Hlen).
    exists t. split; [assumption |]. apply truncate_short. lia.
Qed.

(** ** No caller of [truncate] panics *)

Lemma budget_ok (n : Z) : In n [40; 50; 300; 500] -> 3 <= n <= MaxInt.
Proof. unfold MaxInt. simpl. intros [<- | [<- | [<- | [<- | []]]]]; lia. Qed.

Ltac in_budgets := simpl; repeat (first [left; reflexivity | right]).

Ltac truncate_call :=
  apply no_panic_obind;
  [ apply truncate_no_panic, budget_ok; in_budgets | intros ].

Ltac split_lets :=
  repeat match goal with
         | |- no_panic (match ?x with pair _ _ => _ end) => destruct x
         end.

Lemma transformIssueWebhook_no_panic (webhook : LinearWebhook) :
  no_panic (transformIssueWebhook webhook).
Proof.
  unfold transformIssueWebhook.
  destruct (unmarshalIssue (wh_Data webhook)); [| apply no_panic_Returned].
  split_lets. truncate_call. apply no_panic_Returned.
Qed.

Lemma transformCommentWebhook_no_panic (webhook : LinearWebhook) :
  no_panic (transformCommentWebhook webhook).
Proof.
  unfold transformCommentWebhook.
  destruct (unmarshalComment (wh_Data webhook)); [| apply no_panic_Returned].
  split_lets. truncate_call. apply no_panic_Returned.
Qed.

Lemma transformProjectWebhook_no_panic (webhook : LinearWebhook) :
  no_panic (transformProjectWebhook webhook).
Proof.
  unfold transformProjectWebhook.
  destruct (unmarshalProject (wh_Data webhook)); [| apply no_panic_Returned].
  split_lets. truncate_call. apply no_panic_Returned.
Qed.

Lemma transformWebhookToDiscord_no_panic (webhook : LinearWebhook) :
  no_panic (transformWebhookToDiscord webhook).
Proof.
  unfold transformWebhookToDiscord. repeat case_match;
    auto using transformIssueWebhook_no_panic, transformCommentWebhook_no_panic,
      transformProjectWebhook_no_panic, no_panic_Returned.
Qed.

Lemma sendToDiscord_returns (payload : DiscordWebhook) :
  exists failed, sendToDiscord payload = Returned (failed, [DiscordPost payload]).
Proof.
  unfold sendToDiscord, emit, mbind, mret.
  destruct (discord payload) as [[status body] | e]; [| eauto].
  destruct ((status <? 200) || (300 <=? status)); eauto.
Qed.

Lemma sendToDiscord_no_panic (payload : DiscordWebhook) :
  no_panic (sendToDiscord payload).
Proof.
  destruct (sendToDiscord_returns payload) as [failed ->]. apply no_panic_Returned.
Qed.

Lemma handleLinearWebhook_no_panic (r : Request) : no_panic (handleLinearWebhook r).
Proof.
  unfold handleLinearWebhook.
  repeat (case_match; try apply no_panic_mret).
  apply no_panic_mbind.
  - apply no_panic_lift, transformWebhookToDiscord_no_panic.
  - intros [[payload |] [e |]]; try apply no_panic_mret.
    apply no_panic_mbind; [apply sendToDiscord_no_panic |].
    intros [e |]; apply no_panic_mret.
Qed.

Lemma priorityIssues_loop_no_panic (issues : list Issue) :
  forall priorityIssues count,
    no_panic (priorityIssues_loop issues priorityIssues count).
Proof.
  induction issues as [| issue rest IH]; intros acc count; simpl.
  - apply no_panic_Returned.
  - case_match; [| apply IH]. truncate_call. apply IH.
Qed.

Lemma recentIssues_loop_no_panic (today : Z) (issues : list Issue) :
  forall recentIssues, no_panic (recentIssues_loop today issues recentIssues).
Proof.
  induction issues as [| issue rest IH]; intros acc; simpl.
  - apply no_panic_Returned.
  - case_match; [| apply IH]. truncate_call. apply IH.
Qed.

Lemma taskLine_no_panic (issue : Issue) : no_panic (taskLine issue).
Proof. unfold taskLine. truncate_call. apply no_panic_Returned. Qed.

Lemma taskLines_loop_no_panic (n : Z) (issues : list Issue) :
  forall i taskLines, no_panic (taskLines_loop n i issues taskLines).
Proof.
  induction issues as [| issue rest IH]; intros i acc; simpl.
  - apply no_panic_Returned.
  - case_match; [apply no_panic_Returned |].
    apply no_panic_obind; [apply taskLine_no_panic | intros; apply IH].
Qed.

Lemma userEmbed_no_panic (group : AssigneeGroup) : no_panic (userEmbed group).
Proof.
  unfold userEmbed, taskLines. apply no_panic_obind.
  - apply taskLines_loop_no_panic.
  - intros. apply no_panic_Returned.
Qed.

Lemma executeGraphQL_returns (n : nat) (cursor : option string) :
  exists resp, executeGraphQL n cursor = Returned (resp, [LinearQuery cursor]).
Proof.
  unfold executeGraphQL, emit, mbind, mret.
  destruct (linear n cursor) as [[status [body | e]] | e]; eauto.
  destruct (negb (status =? StatusOK)); eauto.
  destruct (unmarshalGraphQLResponse body) as [graphResp | e]; eauto.
  destruct (0 <? Z.of_nat (length (gql_Errors graphResp))); eauto.
Qed.

Lemma fetchAllOpenIssues_loop_no_panic (fuel : nat) :
  forall n cursor allIssues,
    no_panic (fetchAllOpenIssues_loop fuel n cursor allIssues).
Proof.
  induction fuel as [| fuel IH]; intros n cursor allIssues; simpl.
  - apply no_panic_OutOfFuel.
  - apply no_panic_mbind.
    + destruct (executeGraphQL_returns n (cursorVariables cursor)) as [r ->].
      apply no_panic_Returned.
    + intros [data | e]; [| apply no_panic_mret].
      repeat (case_match; try apply no_panic_mret). apply IH.
Qed.

Lemma sendReport_no_panic issues byStatus byAssignee :
  no_panic (sendReport issues byStatus byAssignee).
Proof.
  unfold sendReport. destruct (countPriorities issues) as [urgentCount highCount].
  apply no_panic_mbind.
  - apply no_panic_lift. case_match;
      [apply priorityIssues_loop_no_panic | apply no_panic_Returned].
  - intros priorityIssues. apply no_panic_mbind.
    + apply no_panic_lift, recentIssues_loop_no_panic.
    + intros recentIssues. apply sendToDiscord_no_panic.
Qed.

Lemma generateAndSendReport_no_panic (fuel : nat) :
  no_panic (generateAndSendReport fuel).
Proof.
  unfold generateAndSendReport, fetchAllOpenIssues, sendNoIssuesReport.
  apply no_panic_mbind; [apply fetchAllOpenIssues_loop_no_panic |].
  intros [issues | e]; [| apply no_panic_mret].
  case_match; [apply sendToDiscord_no_panic | apply sendReport_no_panic].
Qed.

Lemma userEmbeds_loop_no_panic (groups : list AssigneeGroup) :
  forall embeds, no_panic (userEmbeds_loop groups embeds).
Proof.
  induction groups as [| group rest IH]; intros embeds; simpl.
  - apply no_panic_mret.
  - apply no_panic_mbind; [apply no_panic_lift, userEmbed_no_panic |].
    intros embed. case_match; [| apply IH].
    apply no_panic_mbind; [apply sendToDiscord_no_panic |].
    intros [e |]; [apply no_panic_mret |].
    specialize (IH []). unfold no_panic in *.
    destruct (userEmbeds_loop rest []) as [[b t'] | |]; congruence.
Qed.

Lemma generateUserTasksReport_no_panic (fuel : nat) :
  no_panic (generateUserTasksReport fuel).
Proof.
  unfold generateUserTasksReport, fetchAllOpenIssues, sendNoIssuesReport.
  apply no_panic_mbind; [apply fetchAllOpenIssues_loop_no_panic |].
  intros [issues | e]; [| apply no_panic_mret].
  case_match; [apply sendToDiscord_no_panic |].
  apply no_panic_mbind; [apply userEmbeds_loop_no_panic |].
  intros [[| e es] | e]; try apply no_panic_mret. apply sendToDiscord_no_panic.
Qed.

(** C9.  [truncate] panics when the string is longer than a budget below 3
    (the slice bound [maxLen - 3] is then out of range); with a budget of at
    least 3 it returns a string of [min(len(s), maxLen)] bytes.  The budgets
    at the call sites are 40, 50, 300 and 500, so no transformer, report or
    handler of the program panics.  Strings are shorter than [2^63 - 3]
    bytes, as every string held in memory is. *)
Theorem truncate_total_from_three (s : string) (maxLen : Z) :
  is_int maxLen -> len s < MaxInt - 2 ->
  (maxLen < len s -> maxLen < 3 -> truncate s maxLen = Panicked) /\
  (3 <= maxLen ->
   exists t, truncate s maxLen = Returned t /\ len t = Z.min (len s) maxLen) /\
  (In maxLen [40; 50; 300; 500] -> no_panic (truncate s maxLen)) /\
  (forall webhook, no_panic (transformIssueWebhook webhook)) /\
  (forall webhook, no_panic (transformCommentWebhook webhook)) /\
  (forall webhook, no_panic (transformProjectWebhook webhook)) /\
  (forall issues byStatus byAssignee,
     no_panic (sendReport issues byStatus byAssignee)) /\
  (forall group, no_panic (userEmbed group)) /\
  (forall r, no_panic (handleLinearWebhook r)) /\
  (forall fuel, no_panic (handleReport fuel)) /\
  (forall fuel, no_panic (handleReportByUser fuel)).
Proof.
  intros Hint Hs. repeat split.
  - apply truncate_panics; assumption.
  - intros H3. apply truncate_returns. unfold is_int in Hint. lia.
  - intros Hin. apply truncate_no_panic, budget_ok, Hin.
  - apply transformIssueWebhook_no_panic.
  - apply transformCommentWebhook_no_panic.
  - apply transformProjectWebhook_no_panic.
  - apply sendReport_no_panic.
  - apply userEmbed_no_panic.
  - apply handleLinearWebhook_no_panic.
  - intros fuel. unfold handleReport. case_match; [apply no_panic_mret |].
    apply no_panic_mbind; [apply generateAndSendReport_no_panic |].
    intros [e |]; apply no_panic_mret.
  - intros fuel. unfold handleReportByUser. case_match; [apply no_panic_mret |].
    apply no_panic_mbind; [apply generateUserTasksReport_no_panic |].
    intros [e |]; apply no_panic_mret.
Qed.

(** ** Webhook relay *)

Lemma truncate_budget_returns (s : string) (maxLen : Z) :
  In maxLen [40; 50; 300; 500] -> exists t, truncate s maxLen = Returned t.
Proof.
  intros Hin. destruct (truncate_returns s maxLen (budget_ok _ Hin)) as (t & Ht & _).
  eauto.
Qed.

Ltac truncate_result s n t :=
  let H := fresh "Htr" in
  destruct (truncate_budget_returns s n) as [t H];
  [in_budgets | rewrite H; simpl].

Lemma issue_colors (webhook : LinearWebhook) (issue : LinearWebhookIssue) :
  unmarshalIssue (wh_Data webhook) = Ok issue ->
  embedColors (transformIssueWebhook webhook) =
    Some [if String.eqb (wh_Action webhook) "create" then ColorBlue
          else if String.eqb (wh_Action webhook) "update" then ColorYellow
          else if String.eqb (wh_Action webhook) "remove" then ColorRed
          else ColorBlue].
Proof.
  intros Hparse. unfold transformIssueWebhook. rewrite Hparse.
  truncate_result (wi_Description issue) 300 t.
  repeat (destruct (String.eqb (wh_Action webhook) _); [reflexivity |]).
  reflexivity.
Qed.

Lemma project_colors (webhook : LinearWebhook) (project : LinearWebhookProject) :
  unmarshalProject (wh_Data webhook) = Ok project ->
  embedColors (transformProjectWebhook webhook) =
    Some [if String.eqb (wh_Action webhook) "create" then ColorGreen
          else if String.eqb (wh_Action webhook) "update" then ColorYellow
          else if String.eqb (wh_Action webhook) "remove" then ColorRed
          else ColorBlue].
Proof.
  intros Hparse. unfold transformProjectWebhook. rewrite Hparse.
  truncate_result (wp_Description project) 300 t.
  repeat (destruct (String.eqb (wh_Action webhook) _); [reflexivity |]).
  reflexivity.
Qed.

Lemma comment_colors (webhook : LinearWebhook) (comment : LinearWebhookComment) :
  unmarshalComment (wh_Data webhook) = Ok comment ->
  embedColors (transformCommentWebhook webhook) = Some [ColorPurple].
Proof.
  intros Hparse. unfold transformCommentWebhook. rewrite Hparse.
  truncate_result (wc_Body comment) 500 t.
  repeat (destruct (String.eqb (wh_Action webhook) _); [reflexivity |]).
  reflexivity.
Qed.

(** C4, as the code has it.  For an Issue event whose data decodes, the
    embed color is the brand color (blue) on "create", the caution color
    (yellow) on "update" and the danger color (red) on "remove".  For a
    Project event it is the positive color (green) on "create", yellow on
    "update" and red on "remove".  For a Comment event it is the accent
    color (purple) whatever the action. *)
Theorem embed_color_by_action (webhook : LinearWebhook) :
  (forall issue,
     wh_Type webhook = "Issue" -> unmarshalIssue (wh_Data webhook) = Ok issue ->
     (wh_Action webhook = "create" ->
      embedColors (transformWebhookToDiscord webhook) = Some [ColorBlue]) /\
     (wh_Action webhook = "update" ->
      embedColors (transformWebhookToDiscord webhook) = Some [ColorYellow]) /\
     (wh_Action webhook = "remove" ->
      embedColors (transformWebhookToDiscord webhook) = Some [ColorRed])) /\
  (forall project,
     wh_Type webhook = "Project" -> unmarshalProject (wh_Data webhook) = Ok project ->
     (wh_Action webhook = "create" ->
      embedColors (transformWebhookToDiscord webhook) = Some [ColorGreen]) /\
     (wh_Action webhook = "update" ->
      embedColors (transformWebhookToDiscord webhook) = Some [ColorYellow]) /\
     (wh_Action webhook = "remove" ->
      embedColors (transformWebhookToDiscord webhook) = Some [ColorRed])) /\
  (forall comment,
     wh_Type webhook = "Comment" -> unmarshalComment (wh_Data webhook) = Ok comment ->
     embedColors (transformWebhookToDiscord webhook) = Some [ColorPurple]).
Proof.
  split; [| split].
  - intros issue Hty Hparse. unfold transformWebhookToDiscord. rewrite Hty. simpl.
    rewrite (issue_colors _ _ Hparse).
    repeat split; intros ->; reflexivity.
  - intros project Hty Hparse. unfold transformWebhookToDiscord. rewrite Hty. simpl.
    rewrite (project_colors _ _ Hparse).
    repeat split; intros ->; reflexivity.
  - intros comment Hty Hparse. unfold transformWebhookToDiscord. rewrite Hty. simpl.
    apply (comment_colors _ _ Hparse).
Qed.

(** C5.  An envelope whose type is none of "Issue", "Comment" and "Project"
    is transformed into no payload and no error; the handler of a POST
    carrying it answers 200 and nothing is posted to Discord. *)
Theorem unknown_type_is_dropped (webhook : LinearWebhook) :
  wh_Type webhook <> "Issue" ->
  wh_Type webhook <> "Comment" ->
  wh_Type webhook <> "Project" ->
  transformWebhookToDiscord webhook = Returned (None, None) /\
  forall r body,
    req_Method r = "POST" -> req_Body r = Ok body ->
    unmarshalWebhook body = Ok webhook ->
    handleLinearWebhook r =
      Returned ({| resp_Status := 200; resp_Body := NoBody |}, []).
Proof.
  intros Hi Hc Hp.
  assert (Hdrop : transformWebhookToDiscord webhook = Returned (None, None)).
  { unfold transformWebhookToDiscord.
    apply String.eqb_neq in Hi, Hc, Hp. rewrite Hi, Hc, Hp. reflexivity. }
  split; [exact Hdrop |].
  intros r body Hm Hb Hw. unfold handleLinearWebhook.
  rewrite Hm, Hb, Hw, Hdrop. reflexivity.
Qed.

(** ** Per-user report: the task lines *)

Lemma append_assoc (s t u : string) : (s +:+ t) +:+ u = s +:+ (t +:+ u).
Proof.
  induction s as [| c s IH]; [reflexivity |].
  change (String c ((s +:+ t) +:+ u) = String c (s +:+ (t +:+ u))).
  now rewrite IH.
Qed.

Lemma taskLine_returns (issue : Issue) : exists line, taskLine issue = Returned line.
Proof.
  unfold taskLine. truncate_result (issue_Title issue) 50 t. eauto.
Qed.

Lemma taskLines_loop_spec (n : Z) (issues : list Issue) :
  forall (i : Z) (taskLines : list string),
    0 <= i <= 15 ->
    exists lines,
      Forall2 (fun issue line => taskLine issue = Returned line)
        (take (Z.to_nat (15 - i)) issues) lines
      /\ taskLines_loop n i issues taskLines =
           Returned (taskLines ++ lines ++
                     if 15 - i <? Z.of_nat (length issues) then [moreLine n] else []).
Proof.
  induction issues as [| issue rest IH]; intros i acc Hi.
  - exists []. split.
    + rewrite take_nil. constructor.
    + simpl. change (Z.of_nat 0) with 0.
      destruct (Z.ltb_spec (15 - i) 0); [lia |].
      rewrite app_nil_r. reflexivity.
  - cbn [taskLines_loop]. destruct (Z.leb_spec 15 i) as [Hge | Hlt].
    + exists []. assert (i = 15) as -> by lia. split; [constructor |].
      reflexivity.
    + destruct (taskLine_returns issue) as [line Hline]. rewrite Hline. simpl.
      destruct (IH (i + 1) (acc ++ [line])) as (lines & Hall & Hloop); [lia |].
      exists (line :: lines). split.
      * replace (Z.to_nat (15 - i)) with (S (Z.to_nat (15 - (i + 1)))) by lia.
        simpl. constructor; assumption.
      * rewrite Hloop. rewrite <- app_assoc. simpl.
        replace (15 - (i + 1) <? Z.of_nat (length rest))
          with (15 - i <? Z.pos (Pos.of_succ_nat (length rest))); [reflexivity |].
        destruct (Z.ltb_spec (15 - i) (Z.pos (Pos.of_succ_nat (length rest))));
          destruct (Z.ltb_spec (15 - (i + 1)) (Z.of_nat (length rest))); lia.
Qed.

(** ** Grouping: the map built by the loops *)

Lemma appendTo_insert {G : Type} (key : string) (fresh : G) (push : G -> G)
    (groups : gmap string G) :
  appendTo key fresh push groups
  = <[key := push (default fresh (groups !! key))]> groups.
Proof.
  unfold appendTo. destruct (groups !! key) as [g |] eqn:Hg; simpl.
  - rewrite alter_alt, Hg. reflexivity.
  - rewrite alter_insert_eq. reflexivity.
Qed.

Lemma appendTo_to_list {G : Type} (key : string) (fresh : G) (push : G -> G)
    (groups : gmap string G) :
  map_to_list (appendTo key fresh push groups)
  ≡ₚ (key, push (default fresh (groups !! key))) :: map_to_list (delete key groups).
Proof.
  rewrite appendTo_insert, <- insert_delete_eq.
  apply map_to_list_insert, lookup_delete_eq.
Qed.

Lemma to_list_delete {G : Type} (key : string) (groups : gmap string G) :
  map_to_list groups
  ≡ₚ match groups !! key with
     | Some g => (key, g) :: map_to_list (delete key groups)
     | None => map_to_list (delete key groups)
     end.
Proof.
  destruct (groups !! key) as [g |] eqn:Hg.
  - symmetry. apply map_to_list_delete, Hg.
  - rewrite delete_id by assumption. reflexivity.
Qed.

Section GroupBy.

Context {G : Type}.
Variable key : Issue -> string.
Variable fresh : Issue -> G.
Variable push : Issue -> G -> G.
Variable name : G -> string.
Variable members : G -> list Issue.

Hypothesis name_fresh : forall x, name (fresh x) = key x.
Hypothesis members_fresh : forall x, members (fresh x) = [].
Hypothesis name_push : forall x g, name (push x g) = name g.
Hypothesis members_push : forall x g, members (push x g) = members g ++ [x].

Lemma grouped_empty : grouped key name members ∅ [].
Proof.
  split; [| split].
  - intros k g Hk. rewrite lookup_empty in Hk. discriminate.
  - reflexivity.
  - rewrite map_to_list_empty. reflexivity.
Qed.

Lemma grouped_step (groups : gmap string G) (seen : list Issue) (x : Issue) :
  grouped key name members groups seen ->
  grouped key name members
    (appendTo (key x) (fresh x) (push x) groups) (seen ++ [x]).
Proof using name_fresh members_fresh name_push members_push.
  intros (Hsome & Hnone & Hperm).
  assert (Hnew : name (push x (default (fresh x) (groups !! key x))) = key x
                 /\ members (push x (default (fresh x) (groups !! key x)))
                    = filter (fun y => key y = key x) seen ++ [x]).
  { rewrite name_push, members_push.
    destruct (groups !! key x) as [g |] eqn:Hg; simpl.
    - destruct (Hsome _ _ Hg) as (Hn & Hm & _). rewrite Hn, Hm. auto.
    - rewrite name_fresh, members_fresh, (Hnone _ Hg). auto. }
  destruct Hnew as [Hname Hmem].
  split; [| split].
  - intros k g. rewrite appendTo_insert.
    destruct (decide (key x = k)) as [<- | Hne].
    + rewrite lookup_insert_eq. intros [= <-].
      rewrite Hname, Hmem, filter_app, filter_cons_True, filter_nil by reflexivity.
      repeat split. intros Hnil. apply app_eq_nil in Hnil as [_ Hnil]. discriminate.
    + rewrite lookup_insert_ne by assumption. intros Hg.
      destruct (Hsome _ _ Hg) as (Hn & Hm & Hnil).
      rewrite filter_app, filter_cons_False, filter_nil, app_nil_r by assumption.
      auto.
  - intros k. rewrite appendTo_insert.
    destruct (decide (key x = k)) as [<- | Hne].
    + rewrite lookup_insert_eq. discriminate.
    + rewrite lookup_insert_ne by assumption. intros Hg.
      rewrite filter_app, filter_cons_False, filter_nil, app_nil_r by assumption.
      apply Hnone, Hg.
  - rewrite appendTo_to_list. rewrite (to_list_delete (key x) groups) in Hperm.
    rewrite !fmap_cons. cbn [snd mjoin list_join]. rewrite Hmem.
    destruct (groups !! key x) as [g |] eqn:Hg.
    + destruct (Hsome _ _ Hg) as (_ & Hm & _).
      rewrite !fmap_cons in Hperm. cbn [snd mjoin list_join] in Hperm.
      rewrite <- Hm, <- Hperm.
      rewrite <- !app_assoc. apply Permutation_app_head, Permutation_app_comm.
    + rewrite (Hnone _ Hg). cbn [app].
      rewrite <- Hperm. apply Permutation_cons_append.
Qed.

Lemma grouped_fold (issues : list Issue) :
  forall (groups : gmap string G) (seen : list Issue),
    grouped key name members groups seen ->
    grouped key name members
      (fold_left (fun m x => appendTo (key x) (fresh x) (push x) m) issues groups)
      (seen ++ issues).
Proof using name_fresh members_fresh name_push members_push.
  induction issues as [| x rest IH]; intros groups seen Hg; simpl.
  - rewrite app_nil_r. exact Hg.
  - replace (seen ++ x :: rest) with ((seen ++ [x]) ++ rest)
      by (rewrite <- app_assoc; reflexivity).
    apply IH, grouped_step, Hg.
Qed.

Lemma grouped_partitions (groups : gmap string G) (issues : list Issue) (r : list G) :
  grouped key name members groups issues ->
  r ≡ₚ snd <$> map_to_list groups ->
  partitions key name members r issues.
Proof.
  intros (Hsome & _ & Hperm) Hr.
  assert (Hin : forall g, g ∈ r -> groups !! name g = Some g).
  { intros g Hg. rewrite Hr in Hg.
    apply list_elem_of_fmap in Hg as ([k g'] & -> & Hkg). simpl.
    apply elem_of_map_to_list in Hkg.
    destruct (Hsome _ _ Hkg) as (-> & _). exact Hkg. }
  split; [| split].
  - rewrite Hr, <- list_fmap_compose.
    rewrite (list_fmap_ext (name ∘ snd) fst (map_to_list groups)).
    + apply NoDup_fst_map_to_list.
    + intros i [k g] Hi. simpl.
      apply list_elem_of_lookup_2, elem_of_map_to_list in Hi.
      destruct (Hsome _ _ Hi) as (-> & _). reflexivity.
  - intros g Hg. destruct (Hsome _ _ (Hin g Hg)) as (_ & Hm & Hnil). auto.
  - rewrite Hr. exact Hperm.
Qed.

Lemma partitions_key (r : list G) (issues : list Issue) (g : G) (x : Issue) :
  partitions key name members r issues -> g ∈ r -> x ∈ members g -> key x = name g.
Proof.
  intros (_ & Hmem & _) Hg Hx. destruct (Hmem g Hg) as [Hm _].
  rewrite Hm in Hx. apply list_elem_of_filter in Hx as [Hk _]. exact Hk.
Qed.

Lemma partitions_length (r : list G) (issues : list Issue) :
  partitions key name members r issues ->
  sum_list ((fun g => length (members g)) <$> r) = length issues.
Proof.
  intros (_ & _ & Hperm). rewrite <- Hperm, length_join, <- list_fmap_compose.
  reflexivity.
Qed.

Lemma partitions_unique (r : list G) (issues : list Issue) (x : Issue) :
  partitions key name members r issues -> x ∈ issues ->
  exists i, (exists g, r !! i = Some g /\ x ∈ members g)
            /\ forall j, (exists g, r !! j = Some g /\ x ∈ members g) -> j = i.
Proof.
  intros Hp Hx. pose proof Hp as (Hnd & Hmem & Hperm).
  rewrite <- Hperm in Hx. apply list_elem_of_join in Hx as (l & Hxl & Hl).
  apply list_elem_of_fmap in Hl as (g & -> & Hg).
  apply list_elem_of_lookup in Hg as [i Hi].
  exists i. split; [eauto |].
  intros j (g' & Hj & Hx').
  apply (NoDup_lookup _ _ _ (name g) Hnd).
  - rewrite list_lookup_fmap, Hj. simpl. f_equal.
    rewrite <- (partitions_key r issues g' x Hp), <- (partitions_key r issues g x Hp);
      eauto using list_elem_of_lookup_2.
  - rewrite list_lookup_fmap, Hi. reflexivity.
Qed.

End GroupBy.

(** ** Grouping: what [groupByStatus] and [groupByAssignee] return *)

Lemma groupByStatus_partitions (issues : list Issue) :
  partitions (fun x => state_Name (issue_State x)) sg_Name sg_Issues
    (groupByStatus issues) issues.
Proof using range_map_perm sort_Slice_perm.
  apply (grouped_partitions _ _ _ (fold_left groupByStatus_add issues ∅)).
  - apply (grouped_fold (fun x => state_Name (issue_State x))
             (fun x => {| sg_Name := state_Name (issue_State x);
                          sg_Type := state_Type (issue_State x);
                          sg_Color := state_Color (issue_State x);
                          sg_Issues := [] |})
             (fun x g => {| sg_Name := sg_Name g; sg_Type := sg_Type g;
                            sg_Color := sg_Color g;
                            sg_Issues := sg_Issues g ++ [x] |})
             sg_Name sg_Issues) with (seen := []); try reflexivity.
    apply grouped_empty.
  - unfold groupByStatus. rewrite sort_Slice_perm, range_map_perm. reflexivity.
Qed.

Lemma groupByAssignee_partitions (issues : list Issue) :
  partitions assigneeKey ag_Name ag_Issues (groupByAssignee issues) issues.
Proof using range_map_perm sort_Slice_perm.
  apply (grouped_partitions _ _ _ (fold_left groupByAssignee_add issues ∅)).
  - apply (grouped_fold assigneeKey
             (fun x => {| ag_Name := assigneeKey x; ag_Issues := [] |})
             (fun x g => {| ag_Name := ag_Name g; ag_Issues := ag_Issues g ++ [x] |})
             ag_Name ag_Issues) with (seen := []); try reflexivity.
    apply grouped_empty.
  - unfold groupByAssignee. rewrite sort_Slice_perm, range_map_perm. reflexivity.
Qed.

(** ** Grouping: the order of the groups *)

Lemma StronglySorted_lookup {A : Type} (R : A -> A -> Prop) (l : list A) :
  StronglySorted R l ->
  forall (i j : nat) (a b : A),
    (i < j)%nat -> l !! i = Some a -> l !! j = Some b -> R a b.
Proof.
  induction 1 as [| x l Hs IH Hall]; intros i j a b Hij Hi Hj.
  - rewrite lookup_nil in Hi. discriminate.
  - destruct j as [| j]; [lia |]. simpl in Hj. destruct i as [| i]; simpl in Hi.
    + injection Hi as <-. rewrite Forall_forall in Hall.
      apply Hall. eapply list_elem_of_lookup_2, Hj.
    + apply (IH i j); [lia | assumption | assumption].
Qed.

Lemma statusLess_swo : strict_weak_order statusLess.
Proof.
  unfold statusLess. split.
  - intros a. apply Z.ltb_irrefl.
  - intros a b c. rewrite !Z.ltb_lt. lia.
  - intros a b c. rewrite !Z.ltb_ge. lia.
Qed.

Lemma assigneeLess_swo : strict_weak_order assigneeLess.
Proof.
  unfold assigneeLess. split.
  - intros a. destruct (String.eqb (ag_Name a) "Unassigned"); [reflexivity |].
    apply Z.ltb_irrefl.
  - intros a b c.
    destruct (String.eqb (ag_Name a) "Unassigned"),
             (String.eqb (ag_Name b) "Unassigned"),
             (String.eqb (ag_Name c) "Unassigned");
      try discriminate; try reflexivity.
    rewrite !Z.ltb_lt. lia.
  - intros a b c.
    destruct (String.eqb (ag_Name a) "Unassigned"),
             (String.eqb (ag_Name b) "Unassigned"),
             (String.eqb (ag_Name c) "Unassigned");
      try discriminate; try reflexivity.
    rewrite !Z.ltb_ge. lia.
Qed.

Lemma groupByStatus_sorted (issues : list Issue) :
  StronglySorted (fun a b => statusLess b a = false) (groupByStatus issues).
Proof using sort_Slice_sorted. apply sort_Slice_sorted, statusLess_swo. Qed.

Lemma groupByAssignee_sorted (issues : list Issue) :
  StronglySorted (fun a b => assigneeLess b a = false) (groupByAssignee issues).
Proof using sort_Slice_sorted. apply sort_Slice_sorted, assigneeLess_swo. Qed.

(** C3.  In the list [groupByStatus] returns, a group whose state type has
    the smaller rank stands before every group whose state type has a larger
    one, where "started" has rank 1, "unstarted" 2, "backlog" 3 and every
    other type 4: started groups, then unstarted, then backlog, then the
    rest.  Groups of equal rank stand in no stated order. *)
Theorem groupByStatus_order (issues : list Issue) :
  (forall (i j : nat) (g1 g2 : StatusGroup),
     groupByStatus issues !! i = Some g1 ->
     groupByStatus issues !! j = Some g2 ->
     getStatusPriority (sg_Type g1) < getStatusPriority (sg_Type g2) ->
     (i < j)%nat)
  /\ getStatusPriority "started" = 1
  /\ getStatusPriority "unstarted" = 2
  /\ getStatusPriority "backlog" = 3
  /\ (forall t, t <> "started" -> t <> "unstarted" -> t <> "backlog" ->
      getStatusPriority t = 4).
Proof using sort_Slice_sorted.
  split; [| repeat split].
  - intros i j g1 g2 Hi Hj Hlt.
    destruct (Nat.lt_total i j) as [Hij | [-> | Hji]]; [assumption | |].
    + rewrite Hi in Hj. injection Hj as <-. lia.
    + pose proof (StronglySorted_lookup _ _ (groupByStatus_sorted issues)
                    j i g2 g1 Hji Hj Hi) as Hnot.
      unfold statusLess in Hnot. apply Z.ltb_ge in Hnot. lia.
  - intros t H1 H2 H3. unfold getStatusPriority.
    apply String.eqb_neq in H1, H2, H3. rewrite H1, H2, H3. reflexivity.
Qed.

(** C2.  In the list [groupByAssignee] returns, the group named
    "Unassigned" is the last one whatever its number of issues, and any two
    other groups stand in descending order of their number of issues.  The
    name of a group is, for each of its issues, the assignee's display
    name, or the assignee's name when the display name is empty, or
    "Unassigned" when the issue has no assignee. *)
Theorem groupByAssignee_order (issues : list Issue) :
  (forall g, g ∈ groupByAssignee issues -> ag_Name g = "Unassigned" ->
     last (groupByAssignee issues) = Some g)
  /\ (forall (i j : nat) (g1 g2 : AssigneeGroup),
        (i < j)%nat ->
        groupByAssignee issues !! i = Some g1 ->
        groupByAssignee issues !! j = Some g2 ->
        ag_Name g1 <> "Unassigned" -> ag_Name g2 <> "Unassigned" ->
        (length (ag_Issues g2) <= length (ag_Issues g1))%nat)
  /\ (forall g x, g ∈ groupByAssignee issues -> x ∈ ag_Issues g ->
        ag_Name g =
          match issue_Assignee x with
          | Some a =>
              if String.eqb (user_DisplayName a) "" then user_Name a
              else user_DisplayName a
          | None => "Unassigned"
          end).
Proof using range_map_perm sort_Slice_perm sort_Slice_sorted.
  pose proof (groupByAssignee_partitions issues) as Hp.
  pose proof (groupByAssignee_sorted issues) as Hs.
  split; [| split].
  - intros g Hg Hname. apply list_elem_of_lookup in Hg as [i Hi].
    rewrite last_lookup.
    destruct (decide (i = pred (length (groupByAssignee issues)))) as [<- | Hne];
      [assumption | exfalso].
    pose proof (lookup_lt_Some _ _ _ Hi) as Hlt.
    destruct (lookup_lt_is_Some_2 (groupByAssignee issues) (S i)) as [g' Hi'];
      [lia |].
    pose proof (StronglySorted_lookup _ _ Hs i (S i) g g' ltac:(lia) Hi Hi') as Hnot.
    unfold assigneeLess in Hnot.
    destruct (String.eqb_spec (ag_Name g') "Unassigned") as [Hname' | Hname'].
    + destruct Hp as (Hnd & _).
      assert (i = S i); [| lia].
      apply (NoDup_lookup _ _ _ "Unassigned" Hnd);
        rewrite list_lookup_fmap; [rewrite Hi | rewrite Hi']; simpl; congruence.
    + apply String.eqb_eq in Hname. rewrite Hname in Hnot. discriminate.
  - intros i j g1 g2 Hij Hi Hj H1 H2.
    pose proof (StronglySorted_lookup _ _ Hs i j g1 g2 Hij Hi Hj) as Hnot.
    unfold assigneeLess in Hnot.
    apply String.eqb_neq in H1, H2. rewrite H1, H2 in Hnot.
    apply Z.ltb_ge in Hnot. lia.
  - intros g x Hg Hx.
    rewrite <- (partitions_key _ _ _ _ _ _ _ Hp Hg Hx). reflexivity.
Qed.

(** C10.  [groupByStatus] and [groupByAssignee] each partition their input:
    the groups together hold exactly the input issues, every input issue is
    in exactly one group, the member counts add up to the length of the
    input, the members of a status group have the group's state name, and
    the members of an assignee group have the group's key (display name,
    else name, else "Unassigned"). *)
Theorem grouping_partitions (issues : list Issue) :
  (mjoin (sg_Issues <$> groupByStatus issues) ≡ₚ issues
   /\ sum_list ((fun g => length (sg_Issues g)) <$> groupByStatus issues)
      = length issues
   /\ (forall x, x ∈ issues ->
       exists i,
         (exists g, groupByStatus issues !! i = Some g /\ x ∈ sg_Issues g)
         /\ forall j,
              (exists g, groupByStatus issues !! j = Some g /\ x ∈ sg_Issues g) ->
              j = i)
   /\ (forall g x, g ∈ groupByStatus issues -> x ∈ sg_Issues g ->
       state_Name (issue_State x) = sg_Name g))
  /\
  (mjoin (ag_Issues <$> groupByAssignee issues) ≡ₚ issues
   /\ sum_list ((fun g => length (ag_Issues g)) <$> groupByAssignee issues)
      = length issues
   /\ (forall x, x ∈ issues ->
       exists i,
         (exists g, groupByAssignee issues !! i = Some g /\ x ∈ ag_Issues g)
         /\ forall j,
              (exists g, groupByAssignee issues !! j = Some g /\ x ∈ ag_Issues g) ->
              j = i)
   /\ (forall g x, g ∈ groupByAssignee issues -> x ∈ ag_Issues g ->
       ag_Name g =
         match issue_Assignee x with
         | Some a =>
             if String.eqb (user_DisplayName a) "" then user_Name a
             else user_DisplayName a
         | None => "Unassigned"
         end)).
Proof using range_map_perm sort_Slice_perm.
  pose proof (groupByStatus_partitions issues) as Hs.
  pose proof (groupByAssignee_partitions issues) as Ha.
  split; repeat split.
  - apply Hs.
  - apply (partitions_length _ _ _ _ _ Hs).
  - intros x Hx. apply (partitions_unique _ _ _ _ _ x Hs Hx).
  - intros g x Hg Hx. apply (partitions_key _ _ _ _ _ _ _ Hs Hg Hx).
  - apply Ha.
  - apply (partitions_length _ _ _ _ _ Ha).
  - intros x Hx. apply (partitions_unique _ _ _ _ _ x Ha Hx).
  - intros g x Hg Hx.
    rewrite <- (partitions_key _ _ _ _ _ _ _ Ha Hg Hx). reflexivity.
Qed.

(** ** Per-user report: embeds *)

Lemma mbind_mret {A B : Type} (a : A) (k : A -> M B) : mbind (mret a) k = k a.
Proof. unfold mbind, mret. destruct (k a) as [[b t] | |]; reflexivity. Qed.

Lemma userEmbed_returns (group : AssigneeGroup) :
  exists embed, userEmbed group = Returned embed.
Proof.
  unfold userEmbed, taskLines.
  destruct (taskLines_loop_spec (Z.of_nat (length (ag_Issues group)))
              (ag_Issues group) 0 []) as (lines & _ & ->); [lia |].
  simpl. eauto.
Qed.

Lemma groupByAssignee_nil : groupByAssignee [] = [].
Proof using range_map_perm sort_Slice_perm.
  apply Permutation_nil_r. unfold groupByAssignee. simpl.
  rewrite sort_Slice_perm, range_map_perm, map_to_list_empty. reflexivity.
Qed.

(** ** Pagination *)

Lemma fetchAllOpenIssues_loop_pages (pages : list IssuesResponse)
    (final : IssuesResponse) :
  forall (fuel n : nat) (cursor : string) (allIssues : list Issue),
    (forall k c page,
        (cursorVariables cursor ::
           ((fun p => cursorVariables (EndCursor (issues_PageInfo p))) <$> pages))
          !! k = Some c ->
        (pages ++ [final]) !! k = Some page ->
        answers (n + k) c page) ->
    Forall (fun p => HasNextPage (issues_PageInfo p) = true) pages ->
    HasNextPage (issues_PageInfo final) = false ->
    (length pages < fuel)%nat ->
    fetchAllOpenIssues_loop fuel n cursor allIssues =
      Returned
        (Ok (allIssues ++ mjoin (issues_Nodes <$> pages ++ [final])),
         LinearQuery <$>
           (cursorVariables cursor ::
              ((fun p => cursorVariables (EndCursor (issues_PageInfo p))) <$> pages))).
Proof.
  induction pages as [| p pages IH]; intros fuel n cursor acc Hans Hall Hfin Hfuel.
  - destruct fuel as [| fuel]; [simpl in Hfuel; lia |].
    destruct (Hans 0%nat (cursorVariables cursor) final eq_refl eq_refl)
      as (data & Hq & Hp).
    rewrite Nat.add_0_r in Hq. cbn [fetchAllOpenIssues_loop]. rewrite Hq.
    cbn [mbind]. rewrite Hp, Hfin. simpl. rewrite app_nil_r. reflexivity.
  - destruct fuel as [| fuel]; [simpl in Hfuel; lia |].
    destruct (Hans 0%nat (cursorVariables cursor) p eq_refl eq_refl)
      as (data & Hq & Hp).
    rewrite Nat.add_0_r in Hq. cbn [fetchAllOpenIssues_loop]. rewrite Hq.
    cbn [mbind]. rewrite Hp. inversion Hall as [| ? ? Hnext Hall']; subst.
    rewrite Hnext. cbn [negb].
    rewrite (IH fuel (S n) (EndCursor (issues_PageInfo p)) (acc ++ issues_Nodes p)).
    + simpl. rewrite <- app_assoc. reflexivity.
    + intros k c page Hc Hk. replace (S n + k)%nat with (n + S k)%nat by lia.
      exact (Hans (S k) c page Hc Hk).
    + assumption.
    + assumption.
    + simpl in Hfuel. lia.
Qed.

Lemma fetchAllOpenIssues_loop_diverges (pages : nat -> IssuesResponse) :
  (forall k,
      answers (S k) (cursorVariables (EndCursor (issues_PageInfo (pages k))))
        (pages (S k))) ->
  (forall k, HasNextPage (issues_PageInfo (pages k)) = true) ->
  forall (fuel n : nat) (cursor : string) (allIssues : list Issue),
    answers n (cursorVariables cursor) (pages n) ->
    fetchAllOpenIssues_loop fuel n cursor allIssues = OutOfFuel.
Proof.
  intros Hans Hmore. induction fuel as [| fuel IH]; intros n cursor acc Hfirst.
  - reflexivity.
  - destruct Hfirst as (data & Hq & Hp).
    cbn [fetchAllOpenIssues_loop]. rewrite Hq. cbn [mbind].
    rewrite Hp, Hmore. cbn [negb]. rewrite IH; [reflexivity | apply Hans].
Qed.

(** C8, as the code has it.  When the Linear API answers the queries of a
    run, each with the cursor the run sends, with a sequence of pages of
    which the last is the first to report [hasNextPage = false],
    [fetchAllOpenIssues] returns, given enough fuel and with any more, the
    nodes of these pages in order; the first query carries no cursor and
    each later one carries the [endCursor] of the page before it, except
    that an empty [endCursor] is not passed: the query then carries no
    cursor, like the first.  Only the answers to the queries made are
    assumed: what the API would answer to another cursor plays no part.
    When the API answers the queries made with an endless sequence of pages
    that all report [hasNextPage = true], no amount of fuel suffices: the
    loop has no cap. *)
Theorem fetchAllOpenIssues_pagination :
  (forall (pages : list IssuesResponse) (final : IssuesResponse) (fuel : nat),
     (forall k c page,
         (None ::
            ((fun p => cursorVariables (EndCursor (issues_PageInfo p))) <$> pages))
           !! k = Some c ->
         (pages ++ [final]) !! k = Some page ->
         answers k c page) ->
     Forall (fun p => HasNextPage (issues_PageInfo p) = true) pages ->
     HasNextPage (issues_PageInfo final) = false ->
     (length pages < fuel)%nat ->
     fetchAllOpenIssues fuel =
       Returned
         (Ok (mjoin (issues_Nodes <$> pages ++ [final])),
          LinearQuery <$>
            (None ::
               ((fun p => cursorVariables (EndCursor (issues_PageInfo p))) <$> pages))))
  /\ cursorVariables "" = None
  /\ (forall c, c <> "" -> cursorVariables c = Some c)
  /\ (forall pages : nat -> IssuesResponse,
        answers 0 None (pages 0%nat) ->
        (forall k,
            answers (S k) (cursorVariables (EndCursor (issues_PageInfo (pages k))))
              (pages (S k))) ->
        (forall k, HasNextPage (issues_PageInfo (pages k)) = true) ->
        forall fuel, fetchAllOpenIssues fuel = OutOfFuel).
Proof.
  split; [| split; [| split]].
  - intros pages final fuel Hans Hall Hfin Hfuel. unfold fetchAllOpenIssues.
    rewrite (fetchAllOpenIssues_loop_pages pages final fuel 0 "" []); auto.
  - reflexivity.
  - intros c Hc. unfold cursorVariables. apply String.eqb_neq in Hc.
    rewrite Hc. reflexivity.
  - intros pages Hfirst Hans Hmore fuel.
    apply (fetchAllOpenIssues_loop_diverges pages Hans Hmore fuel 0 "" []).
    exact Hfirst.
Qed.

(** * Further properties of the code *)

(** ** The two remote calls *)

(** X1.  What [sendToDiscord] returns, once its call of [http.Post] has
    come back: nil exactly when the call gave a response with a 2xx status;
    the error "failed to send to discord: ..." when the call gave a
    transport error; and the error "discord returned status ..." with the
    status and the response body for every status below 200 or from 300
    up. *)
Theorem sendToDiscord_outcome (payload : DiscordWebhook) (failed : option error)
    (trace : list Event) :
  sendToDiscord payload = Returned (failed, trace) ->
  (failed = None <-> accepted payload)
  /\ (forall e, discord payload = Err e ->
      failed = Some ("failed to send to discord: " +:+ e))
  /\ (forall status body, discord payload = Ok (status, body) ->
      status < 200 \/ 300 <= status ->
      failed = Some ("discord returned status " +:+ fmt_d status +:+ ": " +:+ body)).
Proof.
  unfold sendToDiscord, accepted, emit, mbind, mret.
  destruct (discord payload) as [[status body] | e].
  - destruct (Z.ltb_spec status 200) as [Hlo | Hlo]; cbn [orb].
    + intros [= <- <-]. split; [| split].
      * split; [discriminate |]. intros (s & b & [= <- <-] & Hs). lia.
      * intros e [=].
      * intros s b [= <- <-] _. reflexivity.
    + destruct (Z.leb_spec 300 status) as [Hhi | Hhi].
      * intros [= <- <-]. split; [| split].
        -- split; [discriminate |]. intros (s & b & [= <- <-] & Hs). lia.
        -- intros e [=].
        -- intros s b [= <- <-] _. reflexivity.
      * intros [= <- <-]. split; [| split].
        -- split; [| reflexivity].
           intros _. exists status, body. split; [reflexivity | lia].
        -- intros e [=].
        -- intros s b [= <- <-] [Hs | Hs]; lia.
  - intros [= <- <-]. split; [| split].
    + split; [discriminate |]. intros (s & b & Hd & _). discriminate.
    + intros e' [= <-]. reflexivity.
    + intros s b [=].
Qed.

(** X2.  [executeGraphQL] returns the data exactly when its call of
    [client.Do] gave a response with status 200 (no other 2xx), the body
    could be read and decodes, and the response lists no GraphQL error; in
    every other case it returns an error. *)
Theorem executeGraphQL_outcome (n : nat) (cursor : option string) :
  exists resp trace,
    executeGraphQL n cursor = Returned (resp, trace)
    /\ forall data,
         resp = Ok data <->
         exists body graphResp,
           linear n cursor = Ok (200, Ok body)
           /\ unmarshalGraphQLResponse body = Ok graphResp
           /\ gql_Errors graphResp = []
           /\ gql_Data graphResp = data.
Proof.
  unfold executeGraphQL, emit, mbind, mret.
  destruct (linear n cursor) as [[status [body | e]] | e].
  - destruct (Z.eqb_spec status StatusOK) as [-> | Hne]; cbn [negb].
    + destruct (unmarshalGraphQLResponse body) as [graphResp | e] eqn:Hdec.
      * destruct (gql_Errors graphResp) as [| m ms] eqn:Herr; simpl.
        -- eexists _, _. split; [reflexivity |]. intros data. split.
           ++ intros [= <-]. exists body, graphResp. auto.
           ++ intros (b & g & [= <-] & Hg & _ & Hd).
              rewrite Hdec in Hg. injection Hg as <-. congruence.
        -- eexists _, _. split; [reflexivity |]. intros data.
           split; [discriminate |].
           intros (b & g & [= <-] & Hg & He & _).
           rewrite Hdec in Hg. injection Hg as <-. congruence.
      * eexists _, _. split; [reflexivity |]. intros data. split; [discriminate |].
        intros (b & g & [= <-] & Hg & _). congruence.
    + eexists _, _. split; [reflexivity |]. intros data. split; [discriminate |].
      intros (b & g & [= Hs _] & _). unfold StatusOK in Hne. congruence.
  - eexists _, _. split; [reflexivity |]. intros data. split; [discriminate |].
    intros (b & g & Hl & _). discriminate.
  - eexists _, _. split; [reflexivity |]. intros data. split; [discriminate |].
    intros (b & g & Hl & _). discriminate.
Qed.

(** ** Pagination: fuel, queries and failures *)

Lemma fetchAllOpenIssues_loop_step (fuel n : nat) (cursor : string)
    (allIssues : list Issue) :
  exists resp,
    executeGraphQL n (cursorVariables cursor)
    = Returned (resp, [LinearQuery (cursorVariables cursor)])
    /\ fetchAllOpenIssues_loop (S fuel) n cursor allIssues =
         match resp with
         | Err e => Returned (Err e, [LinearQuery (cursorVariables cursor)])
         | Ok data =>
             match unmarshalIssuesResponse data with
             | Err e =>
                 Returned (Err ("failed to parse issues response: " +:+ e),
                           [LinearQuery (cursorVariables cursor)])
             | Ok issuesResp =>
                 if HasNextPage (issues_PageInfo issuesResp)
                 then
                   match fetchAllOpenIssues_loop fuel (S n)
                           (EndCursor (issues_PageInfo issuesResp))
                           (allIssues ++ issues_Nodes issuesResp) with
                   | Returned (r, t) =>
                       Returned (r, LinearQuery (cursorVariables cursor) :: t)
                   | Panicked => Panicked
                   | OutOfFuel => OutOfFuel
                   end
                 else
                   Returned (Ok (allIssues ++ issues_Nodes issuesResp),
                             [LinearQuery (cursorVariables cursor)])
             end
         end.
Proof.
  destruct (executeGraphQL_returns n (cursorVariables cursor)) as [resp Hq].
  exists resp. split; [exact Hq |].
  cbn [fetchAllOpenIssues_loop]. rewrite Hq. cbn [mbind].
  destruct resp as [data | e]; [| reflexivity].
  destruct (unmarshalIssuesResponse data) as [issuesResp | e]; [| reflexivity].
  destruct (HasNextPage (issues_PageInfo issuesResp)); cbn [negb]; [| reflexivity].
  destruct (fetchAllOpenIssues_loop fuel (S n) _ _) as [[r t] | |]; reflexivity.
Qed.

Lemma fetchAllOpenIssues_loop_mono (fuel : nat) :
  forall (n : nat) (cursor : string) (allIssues : list Issue) x,
    fetchAllOpenIssues_loop fuel n cursor allIssues = Returned x ->
    forall fuel', (fuel <= fuel')%nat ->
      fetchAllOpenIssues_loop fuel' n cursor allIssues = Returned x.
Proof.
  induction fuel as [| fuel IH]; intros n cursor acc x Hrun fuel' Hle.
  - discriminate.
  - destruct fuel' as [| fuel']; [lia |].
    destruct (fetchAllOpenIssues_loop_step fuel n cursor acc) as (resp & Hq & Hs).
    destruct (fetchAllOpenIssues_loop_step fuel' n cursor acc) as (resp' & Hq' & Hs').
    rewrite Hq in Hq'. injection Hq' as <-.
    rewrite Hs in Hrun. rewrite Hs'.
    destruct resp as [data | e]; [| exact Hrun].
    destruct (unmarshalIssuesResponse data) as [issuesResp | e]; [| exact Hrun].
    destruct (HasNextPage (issues_PageInfo issuesResp)); [| exact Hrun].
    destruct (fetchAllOpenIssues_loop fuel (S n) _ _) as [[r t] | |] eqn:Hrec;
      try discriminate.
    rewrite (IH _ _ _ _ Hrec fuel') by lia. exact Hrun.
Qed.

Lemma fetchAllOpenIssues_loop_trace (fuel : nat) :
  forall (n : nat) (cursor : string) (allIssues : list Issue) r t,
    fetchAllOpenIssues_loop fuel n cursor allIssues = Returned (r, t) ->
    (exists cursors, t = LinearQuery <$> (cursorVariables cursor :: cursors))
    /\ (length t <= fuel)%nat.
Proof.
  induction fuel as [| fuel IH]; intros n cursor acc r t Hrun.
  - discriminate.
  - destruct (fetchAllOpenIssues_loop_step fuel n cursor acc) as (resp & _ & Hs).
    rewrite Hs in Hrun. clear Hs.
    assert (Hone : forall r0,
               Returned (r0, [LinearQuery (cursorVariables cursor)])
               = Returned (r, t) ->
               (exists cursors, t = LinearQuery <$> (cursorVariables cursor :: cursors))
               /\ (length t <= S fuel)%nat).
    { intros r0 [= _ <-]. split; [exists []; reflexivity | simpl; lia]. }
    destruct resp as [data | e]; [| eapply Hone, Hrun].
    destruct (unmarshalIssuesResponse data) as [issuesResp | e];
      [| eapply Hone, Hrun].
    destruct (HasNextPage (issues_PageInfo issuesResp)); [| eapply Hone, Hrun].
    destruct (fetchAllOpenIssues_loop fuel (S n) _ _) as [[r' t'] | |] eqn:Hrec;
      try discriminate.
    injection Hrun as <- <-.
    destruct (IH _ _ _ _ _ Hrec) as [[cursors ->] Hlen].
    split.
    + eexists (_ :: cursors). reflexivity.
    + simpl in *. lia.
Qed.

Lemma fetchAllOpenIssues_queries (fuel : nat) r (t : list Event) :
  fetchAllOpenIssues fuel = Returned (r, t) -> Forall isQuery t.
Proof.
  intros Hrun. destruct (fetchAllOpenIssues_loop_trace _ _ _ _ _ _ Hrun) as [[cs ->] _].
  apply Forall_fmap, Forall_forall. intros c _. exact I.
Qed.

(** X3.  A fetch that returns with some fuel returns the same result and
    makes the same queries with any more fuel; its events are queries to the
    Linear API only, the first without a cursor, and it makes at most as
    many queries as it has fuel. *)
Theorem fetchAllOpenIssues_fuel (fuel : nat) (r : result (list Issue))
    (trace : list Event) :
  fetchAllOpenIssues fuel = Returned (r, trace) ->
  (forall fuel', (fuel <= fuel')%nat ->
     fetchAllOpenIssues fuel' = Returned (r, trace))
  /\ (exists cursors, trace = LinearQuery <$> (None :: cursors))
  /\ (length trace <= fuel)%nat.
Proof.
  intros Hrun. split.
  - intros fuel' Hle.
    apply (fetchAllOpenIssues_loop_mono fuel 0 "" [] _ Hrun fuel' Hle).
  - apply (fetchAllOpenIssues_loop_trace fuel 0 "" [] r trace Hrun).
Qed.

Lemma fetchAllOpenIssues_loop_fails (pages : list IssuesResponse) (e : error) :
  forall (fuel n : nat) (cursor : string) (allIssues : list Issue),
    (forall k c page,
        (cursorVariables cursor ::
           ((fun p => cursorVariables (EndCursor (issues_PageInfo p))) <$> pages))
          !! k = Some c ->
        pages !! k = Some page ->
        answers (n + k) c page) ->
    Forall (fun p => HasNextPage (issues_PageInfo p) = true) pages ->
    (forall c,
        (cursorVariables cursor ::
           ((fun p => cursorVariables (EndCursor (issues_PageInfo p))) <$> pages))
          !! length pages = Some c ->
        executeGraphQL (n + length pages) c = Returned (Err e, [LinearQuery c])) ->
    (length pages < fuel)%nat ->
    fetchAllOpenIssues_loop fuel n cursor allIssues =
      Returned
        (Err e,
         LinearQuery <$>
           (cursorVariables cursor ::
              ((fun p => cursorVariables (EndCursor (issues_PageInfo p))) <$> pages))).
Proof.
  induction pages as [| p pages IH]; intros fuel n cursor acc Hans Hall Hfail Hfuel.
  - destruct fuel as [| fuel]; [simpl in Hfuel; lia |].
    specialize (Hfail (cursorVariables cursor) eq_refl). simpl in Hfail.
    rewrite Nat.add_0_r in Hfail.
    cbn [fetchAllOpenIssues_loop]. rewrite Hfail. reflexivity.
  - destruct fuel as [| fuel]; [simpl in Hfuel; lia |].
    destruct (Hans 0%nat (cursorVariables cursor) p eq_refl eq_refl)
      as (data & Hq & Hp).
    rewrite Nat.add_0_r in Hq. cbn [fetchAllOpenIssues_loop]. rewrite Hq.
    cbn [mbind]. rewrite Hp. inversion Hall as [| ? ? Hnext Hall']; subst.
    rewrite Hnext. cbn [negb].
    rewrite (IH fuel (S n) (EndCursor (issues_PageInfo p)) (acc ++ issues_Nodes p)).
    + reflexivity.
    + intros k c page Hc Hk. replace (S n + k)%nat with (n + S k)%nat by lia.
      exact (Hans (S k) c page Hc Hk).
    + assumption.
    + intros c Hc. replace (S n + length pages)%nat with (n + length (p :: pages))%nat
        by (simpl; lia). apply Hfail. exact Hc.
    + simpl in Hfuel. lia.
Qed.

(** X4.  When the query that follows some fetched pages fails, the fetch
    returns that error and none of the issues of the earlier pages: a
    report is made from all open issues or not at all.  It makes no further
    call of [executeGraphQL] after the failed one.  Only the answers to the
    queries made, each with the cursor the run sends, are assumed. *)
Theorem fetchAllOpenIssues_failure (pages : list IssuesResponse) (e : error)
    (fuel : nat) :
  (forall k c page,
      (None ::
         ((fun p => cursorVariables (EndCursor (issues_PageInfo p))) <$> pages))
        !! k = Some c ->
      pages !! k = Some page ->
      answers k c page) ->
  Forall (fun p => HasNextPage (issues_PageInfo p) = true) pages ->
  (forall c,
      (None ::
         ((fun p => cursorVariables (EndCursor (issues_PageInfo p))) <$> pages))
        !! length pages = Some c ->
      executeGraphQL (length pages) c = Returned (Err e, [LinearQuery c])) ->
  (length pages < fuel)%nat ->
  fetchAllOpenIssues fuel =
    Returned
      (Err e,
       LinearQuery <$>
         (None ::
            ((fun p => cursorVariables (EndCursor (issues_PageInfo p))) <$> pages))).
Proof.
  intros Hans Hall Hfail Hfuel. unfold fetchAllOpenIssues.
  apply (fetchAllOpenIssues_loop_fails pages e fuel 0 "" []); auto.
Qed.

(** ** Webhook relay: what is forwarded *)

Ltac by_action webhook :=
  destruct (String.eqb (wh_Action webhook) "create");
  [| destruct (String.eqb (wh_Action webhook) "update");
     [| destruct (String.eqb (wh_Action webhook) "remove")]].

Lemma transformIssueWebhook_cases (webhook : LinearWebhook) :
  match unmarshalIssue (wh_Data webhook) with
  | Err e =>
      transformIssueWebhook webhook
      = Returned (None, Some ("failed to parse issue data: " +:+ e))
  | Ok issue =>
      exists embed,
        transformIssueWebhook webhook
        = Returned (Some {| dw_Content := ""; dw_Username := "Linear";
                            dw_AvatarURL := linearAvatarURL;
                            dw_Embeds := [embed] |}, None)
        /\ embed_Footer embed = footer_of (wh_Actor webhook)
        /\ embed_Timestamp embed = format_RFC3339 time_Now
  end.
Proof.
  unfold transformIssueWebhook.
  destruct (unmarshalIssue (wh_Data webhook)) as [issue | e]; [| reflexivity].
  truncate_result (wi_Description issue) 300 t.
  by_action webhook; eexists; (split; [reflexivity | split; reflexivity]).
Qed.

Lemma transformCommentWebhook_cases (webhook : LinearWebhook) :
  match unmarshalComment (wh_Data webhook) with
  | Err e =>
      transformCommentWebhook webhook
      = Returned (None, Some ("failed to parse comment data: " +:+ e))
  | Ok comment =>
      exists embed,
        transformCommentWebhook webhook
        = Returned (Some {| dw_Content := ""; dw_Username := "Linear";
                            dw_AvatarURL := linearAvatarURL;
                            dw_Embeds := [embed] |}, None)
        /\ embed_Footer embed = footer_of (wh_Actor webhook)
        /\ embed_Timestamp embed = format_RFC3339 time_Now
  end.
Proof.
  unfold transformCommentWebhook.
  destruct (unmarshalComment (wh_Data webhook)) as [comment | e]; [| reflexivity].
  truncate_result (wc_Body comment) 500 t.
  by_action webhook; eexists; (split; [reflexivity | split; reflexivity]).
Qed.

Lemma transformProjectWebhook_cases (webhook : LinearWebhook) :
  match unmarshalProject (wh_Data webhook) with
  | Err e =>
      transformProjectWebhook webhook
      = Returned (None, Some ("failed to parse project data: " +:+ e))
  | Ok project =>
      exists embed,
        transformProjectWebhook webhook
        = Returned (Some {| dw_Content := ""; dw_Username := "Linear";
                            dw_AvatarURL := linearAvatarURL;
                            dw_Embeds := [embed] |}, None)
        /\ embed_Footer embed = footer_of (wh_Actor webhook)
        /\ embed_Timestamp embed = format_RFC3339 time_Now
  end.
Proof.
  unfold transformProjectWebhook.
  destruct (unmarshalProject (wh_Data webhook)) as [project | e]; [| reflexivity].
  truncate_result (wp_Description project) 300 t.
  by_action webhook; eexists; (split; [reflexivity | split; reflexivity]).
Qed.

(** The three ways [transformWebhookToDiscord] ends. *)
Lemma transformWebhookToDiscord_cases (webhook : LinearWebhook) :
  (exists embed,
     transformWebhookToDiscord webhook
     = Returned (Some {| dw_Content := ""; dw_Username := "Linear";
                         dw_AvatarURL := linearAvatarURL;
                         dw_Embeds := [embed] |}, None)
     /\ embed_Footer embed = footer_of (wh_Actor webhook)
     /\ embed_Timestamp embed = format_RFC3339 time_Now
     /\ ((wh_Type webhook = "Issue"
          /\ exists issue, unmarshalIssue (wh_Data webhook) = Ok issue)
         \/ (wh_Type webhook = "Comment"
             /\ exists comment, unmarshalComment (wh_Data webhook) = Ok comment)
         \/ (wh_Type webhook = "Project"
             /\ exists project, unmarshalProject (wh_Data webhook) = Ok project)))
  \/ (exists e,
        transformWebhookToDiscord webhook = Returned (None, Some e)
        /\ ((wh_Type webhook = "Issue"
             /\ exists e', unmarshalIssue (wh_Data webhook) = Err e')
            \/ (wh_Type webhook = "Comment"
                /\ exists e', unmarshalComment (wh_Data webhook) = Err e')
            \/ (wh_Type webhook = "Project"
                /\ exists e', unmarshalProject (wh_Data webhook) = Err e')))
  \/ (transformWebhookToDiscord webhook = Returned (None, None)
      /\ wh_Type webhook <> "Issue" /\ wh_Type webhook <> "Comment"
      /\ wh_Type webhook <> "Project").
Proof.
  unfold transformWebhookToDiscord.
  destruct (String.eqb_spec (wh_Type webhook) "Issue") as [Hi | Hi].
  { pose proof (transformIssueWebhook_cases webhook) as H.
    destruct (unmarshalIssue (wh_Data webhook)) as [issue | e].
    - destruct H as (embed & -> & Hf & Ht). left. exists embed. eauto 10.
    - rewrite H. right. left. eexists. eauto 10. }
  destruct (String.eqb_spec (wh_Type webhook) "Comment") as [Hc | Hc].
  { pose proof (transformCommentWebhook_cases webhook) as H.
    destruct (unmarshalComment (wh_Data webhook)) as [comment | e].
    - destruct H as (embed & -> & Hf & Ht). left. exists embed. eauto 10.
    - rewrite H. right. left. eexists. eauto 10. }
  destruct (String.eqb_spec (wh_Type webhook) "Project") as [Hp | Hp].
  { pose proof (transformProjectWebhook_cases webhook) as H.
    destruct (unmarshalProject (wh_Data webhook)) as [project | e].
    - destruct H as (embed & -> & Hf & Ht). left. exists embed. eauto 10.
    - rewrite H. right. left. eexists. eauto 10. }
  right. right. auto.
Qed.

(** X5.  [transformWebhookToDiscord] always returns, in one of three ways.
    For a known type whose data decodes: a payload named "Linear" with the
    Linear avatar and exactly one embed, stamped with the current time,
    whose footer is "by" and the actor's name (the name, not the display
    name) and is absent without an actor; and no error.  For a known type
    whose data does not decode: an error and no payload.  For any other
    type: neither.  It never returns a payload together with an error. *)
Theorem transform_outcomes (webhook : LinearWebhook) :
  (exists embed,
     transformWebhookToDiscord webhook
     = Returned (Some {| dw_Content := ""; dw_Username := "Linear";
                         dw_AvatarURL := linearAvatarURL;
                         dw_Embeds := [embed] |}, None)
     /\ embed_Footer embed
        = match wh_Actor webhook with
          | Some actor =>
              Some {| footer_Text := "by " +:+ user_Name actor;
                      footer_IconURL := "" |}
          | None => None
          end
     /\ embed_Timestamp embed = format_RFC3339 time_Now
     /\ ((wh_Type webhook = "Issue"
          /\ exists issue, unmarshalIssue (wh_Data webhook) = Ok issue)
         \/ (wh_Type webhook = "Comment"
             /\ exists comment, unmarshalComment (wh_Data webhook) = Ok comment)
         \/ (wh_Type webhook = "Project"
             /\ exists project, unmarshalProject (wh_Data webhook) = Ok project)))
  \/ (exists e,
        transformWebhookToDiscord webhook = Returned (None, Some e)
        /\ ((wh_Type webhook = "Issue"
             /\ exists e', unmarshalIssue (wh_Data webhook) = Err e')
            \/ (wh_Type webhook = "Comment"
                /\ exists e', unmarshalComment (wh_Data webhook) = Err e')
            \/ (wh_Type webhook = "Project"
                /\ exists e', unmarshalProject (wh_Data webhook) = Err e')))
  \/ (transformWebhookToDiscord webhook = Returned (None, None)
      /\ wh_Type webhook <> "Issue" /\ wh_Type webhook <> "Comment"
      /\ wh_Type webhook <> "Project").
Proof. exact (transformWebhookToDiscord_cases webhook). Qed.

Lemma sendToDiscord_cases (payload : DiscordWebhook) :
  (accepted payload
   /\ sendToDiscord payload = Returned (None, [DiscordPost payload]))
  \/ (~ accepted payload
      /\ exists e, sendToDiscord payload = Returned (Some e, [DiscordPost payload])).
Proof.
  unfold sendToDiscord, accepted, emit, mbind, mret.
  destruct (discord payload) as [[status body] | e].
  - destruct (Z.ltb_spec status 200) as [Hlo | Hlo]; cbn [orb].
    + right. split; [| eauto]. intros (s & b & [= <- <-] & Hs). lia.
    + destruct (Z.leb_spec 300 status) as [Hhi | Hhi].
      * right. split; [| eauto]. intros (s & b & [= <- <-] & Hs). lia.
      * left. split; [| reflexivity]. exists status, body. split; [reflexivity | lia].
  - right. split; [| eauto]. intros (s & b & Hd & _). discriminate.
Qed.

(** X6.  Every answer of the webhook handler has one of the statuses 200,
    400, 405 and 500.  The handler calls [sendToDiscord] at most once, with
    a payload of one embed: the payload the transformer gave for the
    decoded body of a POST, and it makes no call without one.  It answers
    "forwarded" exactly when it made the call and the call came back with a
    2xx status. *)
Theorem webhook_handler_outcomes (r : Request) (resp : Response)
    (trace : list Event) :
  handleLinearWebhook r = Returned (resp, trace) ->
  In (resp_Status resp) [200; 400; 405; 500]
  /\ (trace = []
      \/ exists payload embed body webhook,
           trace = [DiscordPost payload]
           /\ dw_Embeds payload = [embed]
           /\ req_Method r = "POST"
           /\ req_Body r = Ok body
           /\ unmarshalWebhook body = Ok webhook
           /\ transformWebhookToDiscord webhook = Returned (Some payload, None))
  /\ (resp = json_Encode [("status", "forwarded")]
      <-> exists payload, trace = [DiscordPost payload] /\ accepted payload).
Proof.
  assert (Hquiet : forall resp0 : Response,
             In (resp_Status resp0) [200; 400; 405; 500] ->
             resp0 <> json_Encode [("status", "forwarded")] ->
             Returned (resp0, []) = Returned (resp, trace) ->
             In (resp_Status resp) [200; 400; 405; 500]
             /\ (trace = []
                 \/ exists payload embed body webhook,
                      trace = [DiscordPost payload]
                      /\ dw_Embeds payload = [embed]
                      /\ req_Method r = "POST"
                      /\ req_Body r = Ok body
                      /\ unmarshalWebhook body = Ok webhook
                      /\ transformWebhookToDiscord webhook
                         = Returned (Some payload, None))
             /\ (resp = json_Encode [("status", "forwarded")]
                 <-> exists payload,
                       trace = [DiscordPost payload] /\ accepted payload)).
  { intros resp0 Hst Hne [= <- <-].
    split; [exact Hst |]. split; [left; reflexivity |].
    split; [contradiction |]. intros (p & Hp & _). discriminate. }
  unfold handleLinearWebhook.
  destruct (String.eqb_spec (req_Method r) "POST") as [Hm | Hm]; cbn [negb];
    [| apply Hquiet; [simpl; auto | discriminate]].
  destruct (req_Body r) as [body | e] eqn:Hb;
    [| apply Hquiet; [simpl; auto | discriminate]].
  destruct (unmarshalWebhook body) as [webhook | e] eqn:Hw;
    [| apply Hquiet; [simpl; auto | discriminate]].
  destruct (transformWebhookToDiscord_cases webhook)
    as [(embed & Ht & _) | [(e & Ht & _) | (Ht & _)]]; rewrite Ht;
    change (lift (Returned ?x)) with (mret x); rewrite mbind_mret;
    [| apply Hquiet; [simpl; auto | discriminate]
     | apply Hquiet; [simpl; auto | discriminate]].
  destruct (sendToDiscord_cases
              {| dw_Content := ""; dw_Username := "Linear";
                 dw_AvatarURL := linearAvatarURL; dw_Embeds := [embed] |})
    as [[Hacc ->] | [Hrej [e ->]]]; cbn [mbind mret app]; intros [= <- <-].
  - split; [simpl; auto |].
    split; [right; eauto 10 |]. split; [eauto |]. reflexivity.
  - split; [simpl; auto |].
    split; [right; eauto 10 |]. split; [discriminate |].
    intros (p & [= <-] & Hacc). contradiction.
Qed.

(** X7.  What the webhook handler turns down, before any outbound call: a
    method other than POST with 405, an unreadable body or an envelope that
    is not valid JSON with 400, and a known type whose data does not decode
    with 500 (not 400). *)
Theorem webhook_handler_rejects (r : Request) :
  (req_Method r <> "POST" ->
   handleLinearWebhook r = Returned (http_Error "Method not allowed" 405, []))
  /\ (forall e, req_Method r = "POST" -> req_Body r = Err e ->
      handleLinearWebhook r = Returned (http_Error "Error reading request" 400, []))
  /\ (forall body e, req_Method r = "POST" -> req_Body r = Ok body ->
      unmarshalWebhook body = Err e ->
      handleLinearWebhook r = Returned (http_Error "Invalid JSON" 400, []))
  /\ (forall body webhook, req_Method r = "POST" -> req_Body r = Ok body ->
      unmarshalWebhook body = Ok webhook ->
      (wh_Type webhook = "Issue"
       /\ exists e, unmarshalIssue (wh_Data webhook) = Err e)
      \/ (wh_Type webhook = "Comment"
          /\ exists e, unmarshalComment (wh_Data webhook) = Err e)
      \/ (wh_Type webhook = "Project"
          /\ exists e, unmarshalProject (wh_Data webhook) = Err e) ->
      handleLinearWebhook r
      = Returned (http_Error "Error processing webhook" 500, [])).
Proof.
  unfold handleLinearWebhook. repeat split.
  - intros Hm. apply String.eqb_neq in Hm. rewrite Hm. reflexivity.
  - intros e Hm Hb. rewrite Hm, Hb. reflexivity.
  - intros body e Hm Hb Hw. rewrite Hm, Hb, Hw. reflexivity.
  - intros body webhook Hm Hb Hw Hbad. rewrite Hm, Hb, Hw. cbn [String.eqb negb].
    destruct (transformWebhookToDiscord_cases webhook)
      as [(embed & _ & _ & _ & Hok) | [(e & Ht & _) | (_ & Hi & Hc & Hp)]].
    + exfalso.
      destruct Hbad as [(Hty & e & He) | [(Hty & e & He) | (Hty & e & He)]];
        destruct Hok as [(Hty' & x & Hx) | [(Hty' & x & Hx) | (Hty' & x & Hx)]];
        congruence.
    + rewrite Ht. reflexivity.
    + exfalso. destruct Hbad as [(Hty & _) | [(Hty & _) | (Hty & _)]]; congruence.
Qed.

(** ** Daily digest: counts and sections *)

Lemma countPriorities_spec (issues : list Issue) :
  countPriorities issues
  = (Z.of_nat (length (filter (fun i => issue_Priority i = 1) issues)),
     Z.of_nat (length (filter (fun i => issue_Priority i = 2) issues))).
Proof.
  unfold countPriorities.
  assert (Hgen : forall l u h,
             fold_left
               (fun '(urgentCount, highCount) issue =>
                  if issue_Priority issue =? 1 then (urgentCount + 1, highCount)
                  else if issue_Priority issue =? 2
                       then (urgentCount, highCount + 1)
                       else (urgentCount, highCount))
               l (u, h)
             = (u + Z.of_nat (length (filter (fun i => issue_Priority i = 1) l)),
                h + Z.of_nat (length (filter (fun i => issue_Priority i = 2) l)))).
  { induction l as [| x l IH]; intros u h; cbn [fold_left].
    - simpl. f_equal; lia.
    - destruct (Z.eqb_spec (issue_Priority x) 1) as [H1 | H1].
      + rewrite IH, filter_cons_True, filter_cons_False by lia.
        simpl. f_equal; lia.
      + destruct (Z.eqb_spec (issue_Priority x) 2) as [H2 | H2].
        * rewrite IH, filter_cons_False, filter_cons_True by lia.
          simpl. f_equal; lia.
        * rewrite IH, !filter_cons_False by lia. reflexivity. }
  rewrite Hgen. reflexivity.
Qed.

(** X8.  The two counters of the digest: the urgent count is the number of
    issues of priority 1 and the high count the number of issues of
    priority 2; every other priority counts for neither. *)
Theorem countPriorities_counts (issues : list Issue) :
  countPriorities issues
  = (Z.of_nat (length (filter (fun i => issue_Priority i = 1) issues)),
     Z.of_nat (length (filter (fun i => issue_Priority i = 2) issues))).
Proof. exact (countPriorities_spec issues). Qed.

Lemma priorityIssues_loop_length (issues : list Issue) :
  forall (priorityIssues : list string) (count : Z),
    exists lines,
      priorityIssues_loop issues priorityIssues count
      = Returned (priorityIssues ++ lines)
      /\ length lines
         = Nat.min (Z.to_nat (10 - count))
             (length (filter (fun i => issue_Priority i <= 2) issues)).
Proof.
  induction issues as [| x rest IH]; intros acc count.
  - exists []. rewrite app_nil_r. split; [reflexivity |]. simpl. lia.
  - cbn [priorityIssues_loop].
    destruct (Z.leb_spec (issue_Priority x) 2) as [Hp | Hp].
    + rewrite filter_cons_True by assumption.
      destruct (Z.ltb_spec count 10) as [Hc | Hc]; cbn [andb].
      * destruct (truncate_budget_returns (issue_Title x) 40) as [t Ht];
          [in_budgets |].
        rewrite Ht. cbn [obind].
        match goal with
        | |- context [priorityIssues_loop rest (acc ++ [?line]) (count + 1)] =>
            destruct (IH (acc ++ [line]) (count + 1)) as (lines & -> & Hlen);
            exists (line :: lines)
        end.
        rewrite <- app_assoc. split; [reflexivity |].
        cbn [length]. rewrite Hlen. lia.
      * destruct (IH acc count) as (lines & -> & Hlen). exists lines.
        split; [reflexivity |]. rewrite Hlen. cbn [length]. lia.
    + rewrite filter_cons_False by lia. cbn [andb]. apply IH.
Qed.

Lemma recentIssues_loop_length (today : Z) (issues : list Issue) :
  forall recentIssues : list string,
    exists lines,
      recentIssues_loop today issues recentIssues = Returned (recentIssues ++ lines)
      /\ length lines
         = Nat.min (5 - length recentIssues)
             (length (filter (fun i => today < issue_UpdatedAt i) issues)).
Proof.
  induction issues as [| x rest IH]; intros acc.
  - exists []. rewrite app_nil_r. split; [reflexivity |]. simpl. lia.
  - cbn [recentIssues_loop].
    destruct (Z.ltb_spec today (issue_UpdatedAt x)) as [Hp | Hp].
    + rewrite filter_cons_True by assumption.
      destruct (Z.ltb_spec (Z.of_nat (length acc)) 5) as [Hc | Hc]; cbn [andb].
      * destruct (truncate_budget_returns (issue_Title x) 50) as [t Ht];
          [in_budgets |].
        rewrite Ht. cbn [obind].
        match goal with
        | |- context [recentIssues_loop today rest (acc ++ [?line])] =>
            destruct (IH (acc ++ [line])) as (lines & -> & Hlen);
            exists (line :: lines)
        end.
        rewrite <- app_assoc. split; [reflexivity |].
        cbn [length]. rewrite Hlen, length_app. cbn [length]. lia.
      * destruct (IH acc) as (lines & -> & Hlen). exists lines.
        split; [reflexivity |]. rewrite Hlen. cbn [length]. lia.
    + rewrite filter_cons_False by lia. cbn [andb]. apply IH.
Qed.

Lemma has_urgent_or_high (issues : list Issue) :
  (0 <? Z.of_nat (length (filter (fun i => issue_Priority i = 1) issues)))
  || (0 <? Z.of_nat (length (filter (fun i => issue_Priority i = 2) issues)))
  = existsb (fun i => (issue_Priority i =? 1) || (issue_Priority i =? 2)) issues.
Proof.
  induction issues as [| x l IH]; [reflexivity |]. cbn [existsb]. rewrite <- IH.
  destruct (Z.eqb_spec (issue_Priority x) 1) as [H1 | H1].
  - rewrite filter_cons_True by assumption. cbn [length orb].
    destruct (Z.ltb_spec 0 (Z.of_nat (S (length (filter (fun i => issue_Priority i = 1) l)))));
      [reflexivity | lia].
  - rewrite (filter_cons_False (fun i => issue_Priority i = 1)) by assumption.
    destruct (Z.eqb_spec (issue_Priority x) 2) as [H2 | H2].
    + rewrite filter_cons_True by assumption. cbn [length orb].
      destruct (Z.ltb_spec 0 (Z.of_nat (S (length (filter (fun i => issue_Priority i = 2) l)))));
        [apply orb_true_r | lia].
    + rewrite filter_cons_False by assumption. reflexivity.
Qed.

Lemma existsb_filter_length {A : Type} (P : A -> Prop) `{forall x, Decision (P x)}
    (p : A -> bool) (l : list A) :
  (forall x, p x = true <-> P x) ->
  existsb p l = negb (Nat.eqb (length (filter P l)) 0).
Proof.
  intros Hp. induction l as [| x l IH]; [reflexivity |]. cbn [existsb].
  destruct (p x) eqn:Hx.
  - rewrite filter_cons_True by (apply Hp; assumption). reflexivity.
  - rewrite filter_cons_False; [exact IH |].
    intros HP. apply Hp in HP. congruence.
Qed.

Lemma sendReport_shape (issues : list Issue) (byStatus : list StatusGroup)
    (byAssignee : list AssigneeGroup) :
  exists failed payload,
    sendReport issues byStatus byAssignee
    = Returned (failed, [DiscordPost payload])
    /\ (failed = None <-> accepted payload)
    /\ dw_Username payload = "Linear Daily Digest"
    /\ embed_Color <$> dw_Embeds payload
       = [ColorBlue]
         ++ (if existsb (fun i => (issue_Priority i =? 1) || (issue_Priority i =? 2))
                  issues
             then [ColorRed] else [])
         ++ (if existsb (fun i => time_Truncate time_Now day <? issue_UpdatedAt i)
                  issues
             then [ColorYellow] else []).
Proof.
  unfold sendReport. rewrite countPriorities_spec, has_urgent_or_high.
  set (urgentOrHigh :=
         existsb (fun i => (issue_Priority i =? 1) || (issue_Priority i =? 2)) issues).
  set (today := time_Truncate time_Now day).
  assert (Hprio : exists lines,
             (if urgentOrHigh then priorityIssues_loop issues [] 0 else Returned [])
             = Returned lines
             /\ (lines = [] <-> urgentOrHigh = false)).
  { destruct urgentOrHigh eqn:Hu.
    - destruct (priorityIssues_loop_length issues [] 0) as (lines & Hrun & Hlen).
      exists lines. split; [exact Hrun |]. split; [| discriminate].
      intros ->. exfalso. subst urgentOrHigh.
      apply existsb_exists in Hu as (x & Hx & Hp).
      assert (Hin : x ∈ filter (fun i => issue_Priority i <= 2) issues).
      { apply list_elem_of_filter. split.
        - apply orb_true_iff in Hp as [Hp | Hp]; apply Z.eqb_eq in Hp; lia.
        - apply list_elem_of_In, Hx. }
      destruct (filter (fun i => issue_Priority i <= 2) issues);
        [inversion Hin | simpl in Hlen; lia].
    - exists []. split; [reflexivity | split; intros; reflexivity]. }
  destruct Hprio as (plines & -> & Hplines).
  change (lift (Returned ?x)) with (mret x). rewrite mbind_mret.
  destruct (recentIssues_loop_length today issues []) as (rlines & Hrrun & Hrlen).
  rewrite Hrrun.
  change (lift (Returned ?x)) with (mret x). rewrite mbind_mret.
  assert (Hrecent : rlines = []
                    <-> existsb (fun i => today <? issue_UpdatedAt i) issues = false).
  { rewrite (existsb_filter_length (fun i => today < issue_UpdatedAt i))
      by (intros x; apply Z.ltb_lt).
    simpl in Hrlen.
    destruct (filter (fun i => today < issue_UpdatedAt i) issues) as [| y l];
      destruct rlines; simpl in *; split; intros; try reflexivity;
      try discriminate; lia. }
  match goal with
  | |- context [sendToDiscord ?p] =>
      destruct (sendToDiscord_cases p) as [[Hacc ->] | [Hrej [e ->]]];
      [exists None, p | exists (Some e), p]
  end.
  - split; [reflexivity |]. split; [split; [intros; assumption | reflexivity] |].
    split; [reflexivity |].
    cbn [dw_Embeds]. rewrite !fmap_app. f_equal.
    destruct urgentOrHigh, plines as [| pl pls];
      destruct (existsb (fun i => today <? issue_UpdatedAt i) issues),
               rlines as [| rl rls];
      try reflexivity;
      try (destruct Hplines as [Hp1 Hp2]; (discriminate Hp1 || discriminate Hp2);
           reflexivity);
      try (destruct Hrecent as [Hr1 Hr2]; (discriminate Hr1 || discriminate Hr2);
           reflexivity).
  - split; [reflexivity |]. split; [split; [discriminate | contradiction] |].
    split; [reflexivity |].
    cbn [dw_Embeds]. rewrite !fmap_app. f_equal.
    destruct urgentOrHigh, plines as [| pl pls];
      destruct (existsb (fun i => today <? issue_UpdatedAt i) issues),
               rlines as [| rl rls];
      try reflexivity;
      try (destruct Hplines as [Hp1 Hp2]; (discriminate Hp1 || discriminate Hp2);
           reflexivity);
      try (destruct Hrecent as [Hr1 Hr2]; (discriminate Hr1 || discriminate Hr2);
           reflexivity).
Qed.

(** X11.  [sendReport] makes one post, named "Linear Daily Digest", of one
    to three embeds: the summary (blue), then the priority section (red)
    exactly when some issue has priority 1 or 2, then the recent section
    (yellow) exactly when some issue was updated after the start of the
    current 24-hour period.  An empty section is left out, not sent empty.
    The post is reported as failed exactly when Discord did not accept
    it. *)
Theorem sendReport_sections (issues : list Issue) (byStatus : list StatusGroup)
    (byAssignee : list AssigneeGroup) :
  exists failed payload,
    sendReport issues byStatus byAssignee
    = Returned (failed, [DiscordPost payload])
    /\ (failed = None <-> accepted payload)
    /\ dw_Username payload = "Linear Daily Digest"
    /\ embed_Color <$> dw_Embeds payload
       = [ColorBlue]
         ++ (if existsb (fun i => (issue_Priority i =? 1) || (issue_Priority i =? 2))
                  issues
             then [ColorRed] else [])
         ++ (if existsb (fun i => time_Truncate time_Now day <? issue_UpdatedAt i)
                  issues
             then [ColorYellow] else []).
Proof. exact (sendReport_shape issues byStatus byAssignee). Qed.

Lemma priorityIssues_loop_lines (issues : list Issue) :
  forall (priorityIssues : list string) (count : Z),
    exists lines,
      priorityIssues_loop issues priorityIssues count
      = Returned (priorityIssues ++ lines)
      /\ Forall2
           (fun issue line =>
              exists title,
                truncate (issue_Title issue) 40 = Returned title
                /\ line
                   = (if issue_Priority issue =? 2 then "ðŸŸ " else "ðŸ”´")
                     +:+ " [**" +:+ issue_Identifier issue +:+ "**]("
                     +:+ issue_URL issue +:+ ") - " +:+ title +:+ " ("
                     +:+ match issue_Assignee issue with
                         | Some a => user_Name a
                         | None => "Unassigned"
                         end
                     +:+ ")")
           (take (Z.to_nat (10 - count))
              (filter (fun i => issue_Priority i <= 2) issues))
           lines.
Proof.
  induction issues as [| x rest IH]; intros acc count.
  - exists []. rewrite app_nil_r. split; [reflexivity |].
    rewrite filter_nil, take_nil. constructor.
  - cbn [priorityIssues_loop].
    destruct (Z.leb_spec (issue_Priority x) 2) as [Hp | Hp].
    + rewrite filter_cons_True by assumption.
      destruct (Z.ltb_spec count 10) as [Hc | Hc]; cbn [andb].
      * destruct (truncate_budget_returns (issue_Title x) 40) as [t Ht];
          [in_budgets |].
        rewrite Ht. cbn [obind].
        match goal with
        | |- context [priorityIssues_loop rest (acc ++ [?line]) (count + 1)] =>
            destruct (IH (acc ++ [line]) (count + 1)) as (lines & -> & Hall);
            exists (line :: lines)
        end.
        rewrite <- app_assoc. split; [reflexivity |].
        replace (Z.to_nat (10 - count)) with (S (Z.to_nat (10 - (count + 1))))
          by lia.
        cbn [take]. constructor; [| exact Hall].
        exists t. split; [exact Ht | reflexivity].
      * destruct (IH acc count) as (lines & -> & Hall). exists lines.
        split; [reflexivity |].
        replace (Z.to_nat (10 - count)) with 0%nat in * by lia.
        rewrite take_0 in *. exact Hall.
    + rewrite filter_cons_False by lia. cbn [andb]. apply IH.
Qed.

Lemma recentIssues_loop_lines (today : Z) (issues : list Issue) :
  forall recentIssues : list string,
    exists lines,
      recentIssues_loop today issues recentIssues = Returned (recentIssues ++ lines)
      /\ Forall2
           (fun issue line =>
              exists title,
                truncate (issue_Title issue) 50 = Returned title
                /\ line
                   = "â€¢ [**" +:+ issue_Identifier issue +:+ "**]("
                     +:+ issue_URL issue +:+ ") - " +:+ title)
           (take (5 - length recentIssues)
              (filter (fun i => today < issue_UpdatedAt i) issues))
           lines.
Proof.
  induction issues as [| x rest IH]; intros acc.
  - exists []. rewrite app_nil_r. split; [reflexivity |].
    rewrite filter_nil, take_nil. constructor.
  - cbn [recentIssues_loop].
    destruct (Z.ltb_spec today (issue_UpdatedAt x)) as [Hp | Hp].
    + rewrite filter_cons_True by assumption.
      destruct (Z.ltb_spec (Z.of_nat (length acc)) 5) as [Hc | Hc]; cbn [andb].
      * destruct (truncate_budget_returns (issue_Title x) 50) as [t Ht];
          [in_budgets |].
        rewrite Ht. cbn [obind].
        match goal with
        | |- context [recentIssues_loop today rest (acc ++ [?line])] =>
            destruct (IH (acc ++ [line])) as (lines & -> & Hall);
            exists (line :: lines)
        end.
        rewrite <- app_assoc. split; [reflexivity |].
        rewrite length_app in Hall. cbn [length] in Hall.
        replace (5 - length acc)%nat with (S (5 - (length acc + 1)))%nat by lia.
        cbn [take]. constructor; [| exact Hall].
        exists t. split; [exact Ht | reflexivity].
      * destruct (IH acc) as (lines & -> & Hall). exists lines.
        split; [reflexivity |].
        replace (5 - length acc)%nat with 0%nat in * by lia.
        rewrite take_0 in *. exact Hall.
    + rewrite filter_cons_False by lia. cbn [andb]. apply IH.
Qed.

Lemma sendReport_payload (issues : list Issue) (byStatus : list StatusGroup)
    (byAssignee : list AssigneeGroup) :
  exists failed main plines rlines,
    priorityIssues_loop issues [] 0 = Returned plines
    /\ recentIssues_loop (time_Truncate time_Now day) issues [] = Returned rlines
    /\ sendReport issues byStatus byAssignee
       = Returned
           (failed,
            [DiscordPost
               {| dw_Content := "";
                  dw_Username := "Linear Daily Digest";
                  dw_AvatarURL := linearAvatarURL;
                  dw_Embeds :=
                    [main]
                    ++ (if existsb
                             (fun i => (issue_Priority i =? 1) || (issue_Priority i =? 2))
                             issues
                        then [plainEmbed "ðŸš¨ Priority Issues"
                                (strings_Join plines newline) ColorRed]
                        else [])
                    ++ (if existsb
                             (fun i => time_Truncate time_Now day <? issue_UpdatedAt i)
                             issues
                        then [plainEmbed "ðŸ”„ Recently Updated"
                                (strings_Join rlines newline) ColorYellow]
                        else []) |}]).
Proof.
  unfold sendReport. rewrite countPriorities_spec, has_urgent_or_high.
  set (urgentOrHigh :=
         existsb (fun i => (issue_Priority i =? 1) || (issue_Priority i =? 2)) issues).
  set (today := time_Truncate time_Now day).
  destruct (priorityIssues_loop_length issues [] 0) as (plines & Hprun & Hplen).
  destruct (recentIssues_loop_length today issues []) as (rlines & Hrrun & Hrlen).
  cbn [app] in Hprun, Hrrun.
  assert (Hprio : urgentOrHigh = true -> plines <> []).
  { intros Hu ->. subst urgentOrHigh.
    apply existsb_exists in Hu as (x & Hx & Hp).
    assert (Hin : x ∈ filter (fun i => issue_Priority i <= 2) issues).
    { apply list_elem_of_filter. split.
      - apply orb_true_iff in Hp as [Hp | Hp]; apply Z.eqb_eq in Hp; lia.
      - apply list_elem_of_In, Hx. }
    destruct (filter (fun i => issue_Priority i <= 2) issues);
      [inversion Hin | simpl in Hplen; lia]. }
  assert (Hrecent : rlines = []
                    <-> existsb (fun i => today <? issue_UpdatedAt i) issues = false).
  { rewrite (existsb_filter_length (fun i => today < issue_UpdatedAt i))
      by (intros x; apply Z.ltb_lt).
    simpl in Hrlen.
    destruct (filter (fun i => today < issue_UpdatedAt i) issues) as [| y l];
      destruct rlines; simpl in *; split; intros; try reflexivity;
      try discriminate; lia. }
  assert (Hpm : (if urgentOrHigh then priorityIssues_loop issues [] 0 else Returned [])
                = Returned (if urgentOrHigh then plines else [])).
  { destruct urgentOrHigh; [exact Hprun | reflexivity]. }
  rewrite Hpm, Hrrun.
  change (lift (Returned ?x)) with (mret x). rewrite !mbind_mret.
  match goal with
  | |- context [sendToDiscord ?p] =>
      destruct (sendToDiscord_returns p) as [failed ->]
  end.
  eexists failed, _, plines, rlines.
  split; [first [exact Hprun | reflexivity] |].
  split; [first [exact Hrrun | reflexivity] |].
  destruct urgentOrHigh.
  - destruct plines as [| pl pls]; [exfalso; apply Hprio; reflexivity |].
    destruct (existsb (fun i => today <? issue_UpdatedAt i) issues).
    + destruct rlines as [| rl rls]; [| reflexivity].
      destruct Hrecent as [Hr _]. discriminate Hr. reflexivity.
    + destruct rlines as [| rl rls]; [reflexivity |].
      destruct Hrecent as [_ Hr]. discriminate Hr. reflexivity.
  - destruct (existsb (fun i => today <? issue_UpdatedAt i) issues).
    + destruct rlines as [| rl rls]; [| reflexivity].
      destruct Hrecent as [Hr _]. discriminate Hr. reflexivity.
    + destruct rlines as [| rl rls]; [reflexivity |].
      destruct Hrecent as [_ Hr]. discriminate Hr. reflexivity.
Qed.

(** X9.  The "Priority Issues" section of the digest.  When some issue has
    priority 1 or 2, the second embed of the payload handed to
    [sendToDiscord] is the red embed titled "Priority Issues", and its
    description joins one line for each of the first ten issues, in input
    order, whose priority is at most 2: a red or (for priority 2) orange
    mark, the identifier linked to the URL, the title cut at 40 bytes and
    the assignee's name, or "Unassigned".  The test is [<= 2], so an issue
    of priority 0 (no priority) is listed too, with the red mark. *)
Theorem priorityIssues_first_ten (issues : list Issue) (byStatus : list StatusGroup)
    (byAssignee : list AssigneeGroup) :
  existsb (fun i => (issue_Priority i =? 1) || (issue_Priority i =? 2)) issues = true ->
  exists failed payload lines,
    sendReport issues byStatus byAssignee = Returned (failed, [DiscordPost payload])
    /\ dw_Embeds payload !! 1%nat
       = Some {| embed_Title := "ðŸš¨ Priority Issues";
                 embed_Description := strings_Join lines newline;
                 embed_URL := "";
                 embed_Color := ColorRed;
                 embed_Timestamp := "";
                 embed_Footer := None;
                 embed_Author := None;
                 embed_Fields := [] |}
    /\ Forall2
         (fun issue line =>
            exists title,
              truncate (issue_Title issue) 40 = Returned title
              /\ line
                 = (if issue_Priority issue =? 2 then "ðŸŸ " else "ðŸ”´")
                   +:+ " [**" +:+ issue_Identifier issue +:+ "**]("
                   +:+ issue_URL issue +:+ ") - " +:+ title +:+ " ("
                   +:+ match issue_Assignee issue with
                       | Some a => user_Name a
                       | None => "Unassigned"
                       end
                   +:+ ")")
         (take 10 (filter (fun i => issue_Priority i <= 2) issues))
         lines.
Proof.
  intros Hsome.
  destruct (sendReport_payload issues byStatus byAssignee)
    as (failed & main & plines & rlines & Hprun & _ & Hrun).
  rewrite Hsome in Hrun.
  destruct (priorityIssues_loop_lines issues [] 0) as (lines & Hlines & Hall).
  cbn [app] in Hlines. rewrite Hprun in Hlines. injection Hlines as ->.
  eexists failed, _, lines. split; [exact Hrun |].
  split; [reflexivity | exact Hall].
Qed.

(** X10.  The "Recently Updated" section of the digest.  When some issue
    was updated after the current time truncated to 24 hours, the last embed
    of the payload handed to [sendToDiscord] is the yellow embed titled
    "Recently Updated", and its description joins one line for each of the
    first five such issues, in input order: the identifier linked to the URL
    and the title cut at 50 bytes. *)
Theorem recentIssues_first_five (issues : list Issue) (byStatus : list StatusGroup)
    (byAssignee : list AssigneeGroup) :
  existsb (fun i => time_Truncate time_Now day <? issue_UpdatedAt i) issues = true ->
  exists failed payload lines,
    sendReport issues byStatus byAssignee = Returned (failed, [DiscordPost payload])
    /\ last (dw_Embeds payload)
       = Some {| embed_Title := "ðŸ”„ Recently Updated";
                 embed_Description := strings_Join lines newline;
                 embed_URL := "";
                 embed_Color := ColorYellow;
                 embed_Timestamp := "";
                 embed_Footer := None;
                 embed_Author := None;
                 embed_Fields := [] |}
    /\ Forall2
         (fun issue line =>
            exists title,
              truncate (issue_Title issue) 50 = Returned title
              /\ line
                 = "â€¢ [**" +:+ issue_Identifier issue +:+ "**]("
                   +:+ issue_URL issue +:+ ") - " +:+ title)
         (take 5
            (filter (fun i => time_Truncate time_Now day < issue_UpdatedAt i) issues))
         lines.
Proof.
  intros Hsome.
  destruct (sendReport_payload issues byStatus byAssignee)
    as (failed & main & plines & rlines & _ & Hrrun & Hrun).
  rewrite Hsome in Hrun.
  destruct (recentIssues_loop_lines (time_Truncate time_Now day) issues [])
    as (lines & Hlines & Hall).
  cbn [app] in Hlines. rewrite Hrrun in Hlines. injection Hlines as ->.
  eexists failed, _, lines. split; [exact Hrun |].
  split; [| exact Hall].
  cbn [dw_Embeds]. rewrite app_assoc. apply last_snoc.
Qed.

(** ** Daily digest and per-user report: the run as a whole *)

Lemma generateAndSendReport_fetched (fuel : nat) (issues : list Issue)
    (queries : list Event) :
  fetchAllOpenIssues fuel = Returned (Ok issues, queries) ->
  exists failed payload,
    generateAndSendReport fuel
    = Returned (failed, queries ++ [DiscordPost payload])
    /\ (failed = None <-> accepted payload)
    /\ dw_Username payload = "Linear Daily Digest"
    /\ (1 <= length (dw_Embeds payload) <= 3)%nat.
Proof.
  intros Hfetch. unfold generateAndSendReport. rewrite Hfetch. cbn [mbind].
  destruct (Z.of_nat (length issues) =? 0).
  - unfold sendNoIssuesReport.
    match goal with
    | |- context [sendToDiscord ?p] =>
        destruct (sendToDiscord_cases p) as [[Hacc ->] | [Hrej [e ->]]];
        [exists None, p | exists (Some e), p]
    end.
    + split; [reflexivity |]. split; [split; [intros; assumption | reflexivity] |].
      split; [reflexivity | simpl; lia].
    + split; [reflexivity |]. split; [split; [discriminate | contradiction] |].
      split; [reflexivity | simpl; lia].
  - destruct (sendReport_shape issues (groupByStatus issues) (groupByAssignee issues))
      as (failed & payload & -> & Hacc & Hname & Hcolors).
    exists failed, payload. split; [reflexivity |]. split; [exact Hacc |].
    split; [exact Hname |].
    apply (f_equal length) in Hcolors. rewrite length_fmap in Hcolors.
    rewrite Hcolors, !length_app.
    destruct (existsb _ issues), (existsb _ issues); simpl; lia.
Qed.

(** X12.  With no open issue, the digest and the per-user report do the
    same: one post named "Linear Daily Digest" (also for the per-user
    report) with the single green "no issues" embed, and no grouping.  The
    run fails exactly when Discord does not accept that post. *)
Theorem no_issues_report (fuel : nat) (queries : list Event) :
  fetchAllOpenIssues fuel = Returned (Ok [], queries) ->
  exists failed embed,
    generateAndSendReport fuel
    = Returned (failed,
                queries ++
                [DiscordPost {| dw_Content := "";
                                dw_Username := "Linear Daily Digest";
                                dw_AvatarURL := linearAvatarURL;
                                dw_Embeds := [embed] |}])
    /\ generateUserTasksReport fuel = generateAndSendReport fuel
    /\ (failed = None <->
        accepted {| dw_Content := ""; dw_Username := "Linear Daily Digest";
                    dw_AvatarURL := linearAvatarURL; dw_Embeds := [embed] |})
    /\ embed_Color embed = ColorGreen
    /\ embed_Description embed
       = "No open issues found. Great job keeping the backlog clean! ðŸŽ‰"
    /\ embed_Fields embed = [].
Proof.
  intros Hfetch.
  unfold generateAndSendReport, generateUserTasksReport. rewrite Hfetch.
  cbn [mbind length Z.of_nat Z.eqb]. unfold sendNoIssuesReport.
  match goal with
  | |- context [sendToDiscord ?p] =>
      destruct (sendToDiscord_cases p) as [[Hacc ->] | [Hrej [e ->]]]
  end.
  - exists None. eexists. split; [reflexivity |]. split; [reflexivity |].
    split; [split; [intros; assumption | reflexivity] |].
    split; [reflexivity |]. split; reflexivity.
  - exists (Some e). eexists. split; [reflexivity |]. split; [reflexivity |].
    split; [split; [discriminate | contradiction] |].
    split; [reflexivity |]. split; reflexivity.
Qed.

(** X13.  When the fetch fails, both reports fail with the error prefixed
    by "failed to fetch issues: " and nothing is posted to Discord: the only
    events are the queries made.  The handlers then answer 500 with that
    text. *)
Theorem fetch_failure_fails_reports (fuel : nat) (e : error) (queries : list Event) :
  fetchAllOpenIssues fuel = Returned (Err e, queries) ->
  generateAndSendReport fuel
  = Returned (Some ("failed to fetch issues: " +:+ e), queries)
  /\ generateUserTasksReport fuel
     = Returned (Some ("failed to fetch issues: " +:+ e), queries)
  /\ Forall isQuery queries
  /\ (linearAPIKey <> "" ->
      handleReport fuel
      = Returned (http_Error ("failed to fetch issues: " +:+ e) 500, queries)
      /\ handleReportByUser fuel
         = Returned (http_Error ("failed to fetch issues: " +:+ e) 500, queries)).
Proof.
  intros Hfetch.
  assert (Hd : generateAndSendReport fuel
               = Returned (Some ("failed to fetch issues: " +:+ e), queries)).
  { unfold generateAndSendReport. rewrite Hfetch. cbn [mbind mret].
    rewrite app_nil_r. reflexivity. }
  assert (Hu : generateUserTasksReport fuel
               = Returned (Some ("failed to fetch issues: " +:+ e), queries)).
  { unfold generateUserTasksReport. rewrite Hfetch. cbn [mbind mret].
    rewrite app_nil_r. reflexivity. }
  split; [exact Hd |]. split; [exact Hu |].
  split; [exact (fetchAllOpenIssues_queries _ _ _ Hfetch) |].
  intros Hkey. apply String.eqb_neq in Hkey.
  unfold handleReport, handleReportByUser. rewrite Hkey, Hd, Hu.
  cbn [mbind mret]. rewrite app_nil_r. split; reflexivity.
Qed.

(** X14.  The report handler answers 503 exactly when no API key is
    configured, and otherwise 200 or 500.  It answers 200 only after a run
    that fetched every page and made exactly one post, the last event of the
    run, which Discord accepted. *)
Theorem handleReport_outcomes (fuel : nat) (resp : Response) (trace : list Event) :
  handleReport fuel = Returned (resp, trace) ->
  In (resp_Status resp) [200; 500; 503]
  /\ (resp_Status resp = 503 <-> linearAPIKey = "")
  /\ (resp_Status resp = 200 ->
      resp = json_Encode [("status", "report_sent")]
      /\ exists issues queries payload,
           fetchAllOpenIssues fuel = Returned (Ok issues, queries)
           /\ trace = queries ++ [DiscordPost payload]
           /\ Forall isQuery queries
           /\ accepted payload).
Proof.
  unfold handleReport.
  destruct (String.eqb_spec linearAPIKey "") as [Hkey | Hkey].
  { intros [= <- <-]. split; [simpl; auto |].
    split; [split; [intros; assumption | reflexivity] |].
    intros Hst. discriminate Hst. }
  destruct (fetchAllOpenIssues fuel) as [[[issues | e] queries] | |] eqn:Hfetch.
  - destruct (generateAndSendReport_fetched fuel issues queries Hfetch)
      as (failed & payload & -> & Hacc & _).
    cbn [mbind]. destruct failed as [e |]; cbn [mret];
      intros [= <- <-]; rewrite app_nil_r.
    + split; [simpl; auto |]. split; [split; [discriminate | contradiction] |].
      intros Hst. discriminate Hst.
    + split; [simpl; auto |]. split; [split; [discriminate | contradiction] |].
      intros _. split; [reflexivity |].
      exists issues, queries, payload. split; [reflexivity |].
      split; [reflexivity |].
      split; [exact (fetchAllOpenIssues_queries _ _ _ Hfetch) |].
      apply Hacc. reflexivity.
  - unfold generateAndSendReport. rewrite Hfetch. cbn [mbind mret].
    intros [= <- <-].
    split; [simpl; auto |]. split; [split; [discriminate | contradiction] |].
    intros Hst. discriminate Hst.
  - unfold generateAndSendReport. rewrite Hfetch. discriminate.
  - unfold generateAndSendReport. rewrite Hfetch. discriminate.
Qed.

(** ** Per-user report: what is posted, in which batches *)

Lemma sendToDiscord_accepted (payload : DiscordWebhook) :
  accepted payload ->
  sendToDiscord payload = Returned (None, [DiscordPost payload]).
Proof.
  intros Hacc.
  destruct (sendToDiscord_cases payload) as [[_ Hs] | [Hrej _]];
    [exact Hs | contradiction].
Qed.

Lemma userEmbeds_loop_batches (groups : list AssigneeGroup) :
  forall embeds : list DiscordEmbed,
    (length embeds < 10)%nat ->
    exists es batches rest,
      Forall2 (fun group embed => userEmbed group = Returned embed) groups es
      /\ mjoin batches ++ rest = embeds ++ es
      /\ Forall (fun b => length b = 10%nat) batches
      /\ (length rest < 10)%nat
      /\ (Forall (fun b => accepted (taskReport b)) batches ->
          userEmbeds_loop groups embeds =
            Returned
              (Ok rest,
               mjoin ((fun b => [DiscordPost (taskReport b); Sleep 500])
                        <$> batches))).
Proof.
  induction groups as [| group groups IH]; intros embeds Hlen.
  - exists [], [], embeds. rewrite app_nil_r.
    split; [constructor |]. split; [reflexivity |]. split; [constructor |].
    split; [exact Hlen |]. intros _. reflexivity.
  - cbn [userEmbeds_loop]. destruct (userEmbed_returns group) as [e He].
    rewrite He. change (lift (Returned e)) with (mret e). rewrite mbind_mret.
    destruct (Z.leb_spec 10 (Z.of_nat (length (embeds ++ [e])))) as [Hge | Hlt].
    + assert (Hten : length (embeds ++ [e]) = 10%nat).
      { rewrite length_app in *. simpl in *. lia. }
      destruct (IH []) as (es & batches & rest & Hes & Hjoin & Hall & Hrest & Hrun);
        [simpl; lia |].
      exists (e :: es), ((embeds ++ [e]) :: batches), rest.
      split; [constructor; assumption |].
      split.
      { change (mjoin ((embeds ++ [e]) :: batches))
          with ((embeds ++ [e]) ++ mjoin batches).
        rewrite <- !app_assoc, Hjoin. reflexivity. }
      split; [constructor; assumption |]. split; [exact Hrest |].
      intros Hacc. inversion Hacc as [| ? ? Hfirst Hlater]; subst.
      rewrite (sendToDiscord_accepted _ Hfirst).
      cbn [mbind emit]. rewrite (Hrun Hlater). reflexivity.
    + destruct (IH (embeds ++ [e]))
        as (es & batches & rest & Hes & Hjoin & Hall & Hrest & Hrun).
      { rewrite length_app in *. simpl in *. lia. }
      exists (e :: es), batches, rest.
      split; [constructor; assumption |].
      split; [rewrite Hjoin, <- app_assoc; reflexivity |].
      split; [exact Hall |]. split; [exact Hrest | exact Hrun].
Qed.

Lemma full_batches_events (batches : list (list DiscordEmbed)) :
  Forall (fun b => length b = 10%nat) batches ->
  (fun b => if Nat.eqb (length b) 10
            then [DiscordPost (taskReport b); Sleep 500]
            else [DiscordPost (taskReport b)]) <$> batches
  = (fun b => [DiscordPost (taskReport b); Sleep 500]) <$> batches.
Proof.
  induction 1 as [| b batches Hb _ IH]; [reflexivity |].
  rewrite !fmap_cons, IH, Hb. reflexivity.
Qed.

Lemma user_report_run (fuel : nat) (issues : list Issue) (queries : list Event) :
  fetchAllOpenIssues fuel = Returned (Ok issues, queries) ->
  issues <> [] ->
  exists (es : list DiscordEmbed) (batches : list (list DiscordEmbed)),
    Forall2 (fun group embed => userEmbed group = Returned embed)
      (groupByAssignee issues) es
    /\ mjoin batches
       = {| embed_Title := "ðŸ“‹ Open Tasks by User";
             embed_Description :=
               "**" +:+ fmt_d (Z.of_nat (length issues))
               +:+ "** open tasks across **"
               +:+ fmt_d (Z.of_nat (length (groupByAssignee issues)))
               +:+ "** assignees";
             embed_URL := "";
             embed_Color := ColorBlue;
             embed_Timestamp := format_RFC3339 time_Now;
             embed_Footer := None;
             embed_Author := None;
             embed_Fields := [] |}
         :: es
    /\ Forall (fun b => (1 <= length b <= 10)%nat) batches
    /\ (forall i b, batches !! i = Some b -> (S i < length batches)%nat ->
        length b = 10%nat)
    /\ ((forall b, b ∈ batches -> accepted (taskReport b)) ->
        generateUserTasksReport fuel =
          Returned
            (None,
             queries ++
             mjoin ((fun b => if Nat.eqb (length b) 10
                              then [DiscordPost (taskReport b); Sleep 500]
                              else [DiscordPost (taskReport b)]) <$> batches))).
Proof.
  intros Hfetch Hne.
  unfold generateUserTasksReport. rewrite Hfetch. cbn [mbind].
  destruct issues as [| issue issues]; [congruence |].
  change (Z.of_nat (length (issue :: issues)) =? 0) with false. cbv iota.
  set (header := {| embed_Title := _ |}).
  set (groups := groupByAssignee (issue :: issues)).
  destruct (userEmbeds_loop_batches groups [header])
    as (es & batches & rest & Hes & Hjoin & Hall & Hrest & Hloop); [simpl; lia |].
  exists es.
  destruct rest as [| r rest].
  - exists batches. split; [exact Hes |].
    split; [rewrite app_nil_r in Hjoin; exact Hjoin |].
    split; [eapply Forall_impl; [exact Hall | simpl; intros; lia] |].
    split.
    { intros i b Hi _. rewrite Forall_forall in Hall.
      apply Hall. eapply list_elem_of_lookup_2, Hi. }
    intros Hacc. rewrite Hloop by (apply Forall_forall; exact Hacc).
    cbn [mbind]. rewrite full_batches_events by assumption.
    cbn [mret]. rewrite app_nil_r. reflexivity.
  - exists (batches ++ [r :: rest]). split; [exact Hes |].
    split.
    { rewrite join_app.
      change (mjoin [r :: rest]) with ((r :: rest) ++ []).
      rewrite app_nil_r. exact Hjoin. }
    split.
    { apply Forall_app. split.
      - eapply Forall_impl; [exact Hall | simpl; intros; lia].
      - constructor; [simpl in *; lia | constructor]. }
    split.
    { intros i b Hi Hlt. rewrite length_app in Hlt. simpl in Hlt.
      rewrite lookup_app_l in Hi by lia.
      rewrite Forall_forall in Hall. apply Hall.
      eapply list_elem_of_lookup_2, Hi. }
    intros Hacc. rewrite Hloop.
    2: { apply Forall_forall. intros b Hb. apply Hacc.
         apply elem_of_app. left. exact Hb. }
    cbn [mbind]. rewrite (sendToDiscord_accepted (taskReport (r :: rest))).
    2: { apply Hacc. apply elem_of_app. right. constructor. }
    rewrite fmap_app, join_app, full_batches_events by assumption.
    cbn [fmap list_fmap mjoin list_join].
    destruct (Nat.eqb_spec (length (r :: rest)) 10) as [Heq | _]; [lia |].
    rewrite app_nil_r. reflexivity.
Qed.

Lemma userEmbed_title (group : AssigneeGroup) (embed : DiscordEmbed) :
  userEmbed group = Returned embed ->
  embed_Title embed
              = (if String.eqb (ag_Name group) "Unassigned" then "â“" else "ðŸ‘¤")
                +:+ " " +:+ ag_Name group +:+ " ("
                +:+ fmt_d (Z.of_nat (length (ag_Issues group))) +:+ " tasks)"
  /\ embed_Color embed = ColorGray.
Proof.
  unfold userEmbed. destruct (taskLines group) as [lines | |]; try discriminate.
  cbn [obind]. intros [= <-]. split; reflexivity.
Qed.

Lemma taskLine_spec (issue : Issue) (line : string) :
  taskLine issue = Returned line ->
  exists title,
    truncate (issue_Title issue) 50 = Returned title
    /\ line
       = getPriorityEmoji (issue_Priority issue) +:+ " ["
         +:+ issue_Identifier issue +:+ "](" +:+ issue_URL issue
         +:+ ") - " +:+ title.
Proof.
  unfold taskLine. destruct (truncate (issue_Title issue) 50) as [t | |];
    try discriminate.
  cbn [obind]. intros [= <-]. exists t. split; reflexivity.
Qed.

Lemma userEmbed_lines (group : AssigneeGroup) (embed : DiscordEmbed) :
  Z.of_nat (length (ag_Issues group)) <= MaxInt ->
  userEmbed group = Returned embed ->
  exists lines,
    Forall2
      (fun issue line =>
         exists title,
                     truncate (issue_Title issue) 50 = Returned title
                     /\ line
                        = getPriorityEmoji (issue_Priority issue) +:+ " ["
                          +:+ issue_Identifier issue +:+ "](" +:+ issue_URL issue
                          +:+ ") - " +:+ title)
      (take 15 (ag_Issues group)) lines
    /\ embed_Description embed
       = strings_Join
           (lines ++
            if 15 <? Z.of_nat (length (ag_Issues group))
            then ["*"
                        +:+ ("... and "
                             +:+ fmt_d (Z.of_nat (length (ag_Issues group)) - 15)
                             +:+ " more")
                        +:+ "*"]
            else [])
           newline.
Proof.
  intros Hmax. unfold userEmbed, taskLines.
  destruct (taskLines_loop_spec (Z.of_nat (length (ag_Issues group)))
              (ag_Issues group) 0 []) as (lines & Hall & Hloop); [lia |].
  assert (Hmore : moreLine (Z.of_nat (length (ag_Issues group))) =
                  "*"
                  +:+ ("... and "
                       +:+ fmt_d (Z.of_nat (length (ag_Issues group)) - 15)
                       +:+ " more")
                  +:+ "*").
  { unfold moreLine, int_sub.
    rewrite wrap64_id by (unfold is_int, MinInt, MaxInt in *; lia).
    change ("*... and " +:+ ?x +:+ " more*")
      with ("*" +:+ "... and " +:+ x +:+ " more" +:+ "*").
    rewrite <- !append_assoc. reflexivity. }
  rewrite Hloop. simpl in Hall |- *. rewrite Hmore. intros [= <-].
  exists lines. split; [| reflexivity].
  eapply Forall2_impl; [exact Hall |]. intros issue line. apply taskLine_spec.
Qed.

Lemma Forall2_Forall_impl {A B : Type} (P : A -> Prop) (R R' : A -> B -> Prop)
    (l : list A) (k : list B) :
  Forall P l -> Forall2 R l k -> (forall a b, P a -> R a b -> R' a b) ->
  Forall2 R' l k.
Proof.
  intros HP HR Himpl. induction HR as [| a b l k Hab _ IH]; [constructor |].
  inversion HP; subst. constructor; auto.
Qed.

(** C6.  In the per-user report, for every assignee group of [n] issues,
    the description of the group's embed joins the lines of the group's
    first 15 issues, in order, each with the priority mark, the identifier
    linked to the URL and the title cut at 50 bytes, followed when [n > 15]
    by exactly one line "... and (n-15) more", which the format string sets
    between the asterisks of Markdown emphasis, and by nothing otherwise.
    A group of 23 issues gives 15 task lines and the line "... and 8 more".
    These embeds, after the header, are what the report hands to
    [sendToDiscord], in the order of the groups, when each post made is
    accepted. *)
Theorem taskLines_first_fifteen (fuel : nat) (issues : list Issue)
    (queries : list Event) :
  fetchAllOpenIssues fuel = Returned (Ok issues, queries) ->
  issues <> [] ->
  Z.of_nat (length issues) <= MaxInt ->
  exists (es : list DiscordEmbed) (batches : list (list DiscordEmbed)),
    Forall2
      (fun group embed =>
         exists lines,
           Forall2
             (fun issue line =>
                exists title,
                     truncate (issue_Title issue) 50 = Returned title
                     /\ line
                        = getPriorityEmoji (issue_Priority issue) +:+ " ["
                          +:+ issue_Identifier issue +:+ "](" +:+ issue_URL issue
                          +:+ ") - " +:+ title)
             (take 15 (ag_Issues group)) lines
           /\ embed_Description embed
              = strings_Join
                  (lines ++
                   if 15 <? Z.of_nat (length (ag_Issues group))
                   then ["*"
                        +:+ ("... and "
                             +:+ fmt_d (Z.of_nat (length (ag_Issues group)) - 15)
                             +:+ " more")
                        +:+ "*"]
                   else [])
                  newline
           /\ (length (ag_Issues group) = 23%nat ->
               length lines = 15%nat
               /\ embed_Description embed
                  = strings_Join (lines ++ ["*... and 8 more*"]) newline))
      (groupByAssignee issues) es
    /\ mjoin batches
       = {| embed_Title := "ðŸ“‹ Open Tasks by User";
             embed_Description :=
               "**" +:+ fmt_d (Z.of_nat (length issues))
               +:+ "** open tasks across **"
               +:+ fmt_d (Z.of_nat (length (groupByAssignee issues)))
               +:+ "** assignees";
             embed_URL := "";
             embed_Color := ColorBlue;
             embed_Timestamp := format_RFC3339 time_Now;
             embed_Footer := None;
             embed_Author := None;
             embed_Fields := [] |}
         :: es
    /\ ((forall b, b ∈ batches ->
           accepted
             {| dw_Content := "";
                  dw_Username := "Linear Task Report";
                  dw_AvatarURL := linearAvatarURL;
                  dw_Embeds := b |}) ->
        generateUserTasksReport fuel =
          Returned
            (None,
             queries ++
             mjoin
               ((fun b =>
                   if Nat.eqb (length b) 10
                   then [DiscordPost
                           {| dw_Content := "";
                  dw_Username := "Linear Task Report";
                  dw_AvatarURL := linearAvatarURL;
                  dw_Embeds := b |};
                         Sleep 500]
                   else [DiscordPost
                           {| dw_Content := "";
                  dw_Username := "Linear Task Report";
                  dw_AvatarURL := linearAvatarURL;
                  dw_Embeds := b |}])
                  <$> batches))).
Proof using range_map_perm sort_Slice_perm.
  intros Hfetch Hne Hmax.
  destruct (user_report_run fuel issues queries Hfetch Hne)
    as (es & batches & Hes & Hjoin & _ & _ & Hrun).
  exists es, batches. split; [| split; [exact Hjoin | exact Hrun]].
  apply (Forall2_Forall_impl
           (fun g => Z.of_nat (length (ag_Issues g)) <= MaxInt)
           (fun group embed => userEmbed group = Returned embed)).
  - apply Forall_forall. intros g Hg.
    destruct (groupByAssignee_partitions issues) as (_ & Hmem & _).
    destruct (Hmem g Hg) as [-> _].
    pose proof (length_filter (fun x => assigneeKey x = ag_Name g) issues). lia.
  - exact Hes.
  - intros group embed Hgmax Hembed.
    destruct (userEmbed_lines group embed Hgmax Hembed) as (lines & Hall & Hdesc).
    exists lines. split; [exact Hall |]. split; [exact Hdesc |].
    intros H23. split.
    + apply Forall2_length in Hall. rewrite <- Hall, length_take. lia.
    + rewrite Hdesc, H23. reflexivity.
Qed.

(** C7.  When the fetch returns issues that fall into 24 assignee groups,
    the per-user report hands three payloads to [sendToDiscord], each named
    "Linear Task Report": they carry 10, 10 and 5 embeds in this order,
    which together are the header followed by the embeds of the 24 groups
    in order, and the report sleeps 500 ms after each of the first two
    posts: a batch is posted exactly when it reaches 10 embeds.  Only the
    acceptance of these three posts is assumed. *)
Theorem user_report_batches (fuel : nat) (issues : list Issue) (queries : list Event) :
  fetchAllOpenIssues fuel = Returned (Ok issues, queries) ->
  length (groupByAssignee issues) = 24%nat ->
  exists (es : list DiscordEmbed) (p1 p2 p3 : DiscordWebhook),
    Forall2
      (fun group embed =>
         userEmbed group = Returned embed
         /\ embed_Title embed
              = (if String.eqb (ag_Name group) "Unassigned" then "â“" else "ðŸ‘¤")
                +:+ " " +:+ ag_Name group +:+ " ("
                +:+ fmt_d (Z.of_nat (length (ag_Issues group))) +:+ " tasks)")
      (groupByAssignee issues) es
    /\ dw_Embeds p1 ++ dw_Embeds p2 ++ dw_Embeds p3
       = {| embed_Title := "ðŸ“‹ Open Tasks by User";
             embed_Description :=
               "**" +:+ fmt_d (Z.of_nat (length issues))
               +:+ "** open tasks across **"
               +:+ fmt_d 24
               +:+ "** assignees";
             embed_URL := "";
             embed_Color := ColorBlue;
             embed_Timestamp := format_RFC3339 time_Now;
             embed_Footer := None;
             embed_Author := None;
             embed_Fields := [] |}
         :: es
    /\ length (dw_Embeds p1) = 10%nat
    /\ length (dw_Embeds p2) = 10%nat
    /\ length (dw_Embeds p3) = 5%nat
    /\ Forall
         (fun p =>
            dw_Content p = "" /\ dw_Username p = "Linear Task Report"
            /\ dw_AvatarURL p = linearAvatarURL)
         [p1; p2; p3]
    /\ (accepted p1 -> accepted p2 -> accepted p3 ->
        generateUserTasksReport fuel =
          Returned (None,
                    queries ++
                    [DiscordPost p1; Sleep 500;
                     DiscordPost p2; Sleep 500;
                     DiscordPost p3])).
Proof using range_map_perm sort_Slice_perm.
  intros Hfetch Hlen.
  assert (Hne : issues <> []).
  { intros ->. rewrite groupByAssignee_nil in Hlen. discriminate. }
  destruct (user_report_run fuel issues queries Hfetch Hne)
    as (es & batches & Hes & Hjoin & Hsz & Hfull & Hrun).
  rewrite Hlen in Hjoin.
  assert (Htot : length (mjoin batches) = 25%nat).
  { rewrite Hjoin. cbn [length]. rewrite <- (Forall2_length _ _ _ Hes), Hlen.
    reflexivity. }
  assert (Hcut : exists b1 b2 b3,
             batches = [b1; b2; b3]
             /\ length b1 = 10%nat /\ length b2 = 10%nat /\ length b3 = 5%nat).
  { destruct batches as [| b1 [| b2 [| b3 [| b4 rest]]]].
    - discriminate.
    - exfalso. inversion Hsz as [| ? ? H1 _]; subst.
      change (mjoin [b1]) with (b1 ++ []) in Htot.
      rewrite app_nil_r in Htot. lia.
    - exfalso. pose proof (Hfull 0%nat b1 eq_refl) as H1.
      inversion Hsz as [| ? ? _ Hsz']; subst.
      inversion Hsz' as [| ? ? H2 _]; subst.
      change (mjoin [b1; b2]) with (b1 ++ b2 ++ []) in Htot.
      rewrite !length_app in Htot. cbn [length] in Htot, H1. lia.
    - exists b1, b2, b3. split; [reflexivity |].
      pose proof (Hfull 0%nat b1 eq_refl) as H1.
      pose proof (Hfull 1%nat b2 eq_refl) as H2.
      change (mjoin [b1; b2; b3]) with (b1 ++ b2 ++ b3 ++ []) in Htot.
      rewrite !length_app in Htot. cbn [length] in Htot, H1, H2. lia.
    - exfalso.
      pose proof (Hfull 0%nat b1 eq_refl) as H1.
      pose proof (Hfull 1%nat b2 eq_refl) as H2.
      pose proof (Hfull 2%nat b3 eq_refl) as H3.
      change (mjoin (b1 :: b2 :: b3 :: b4 :: rest))
        with (b1 ++ b2 ++ b3 ++ b4 ++ mjoin rest) in Htot.
      rewrite !length_app in Htot. cbn [length] in Htot, H1, H2, H3. lia. }
  destruct Hcut as (b1 & b2 & b3 & -> & Hl1 & Hl2 & Hl3).
  exists es, (taskReport b1), (taskReport b2), (taskReport b3).
  split.
  { eapply Forall2_impl; [exact Hes |]. intros group embed Hembed.
    split; [exact Hembed | apply (userEmbed_title group embed Hembed)]. }
  split.
  { change (mjoin [b1; b2; b3]) with (b1 ++ b2 ++ b3 ++ []) in Hjoin.
    rewrite app_nil_r in Hjoin. exact Hjoin. }
  split; [exact Hl1 |]. split; [exact Hl2 |]. split; [exact Hl3 |].
  split; [repeat constructor |].
  intros A1 A2 A3. rewrite Hrun.
  - cbn [fmap list_fmap]. rewrite Hl1, Hl2, Hl3. reflexivity.
  - intros b Hb. apply list_elem_of_In in Hb.
    destruct Hb as [<- | [<- | [<- | []]]]; assumption.
Qed.

(** X15.  For any number of assignee groups: the header and the group
    embeds, in order, are cut into batches of ten, the last batch holding
    what is left (one to ten embeds).  When each of these batches, posted
    under the name "Linear Task Report", is accepted, the run hands exactly
    these payloads to [sendToDiscord], in order, and sleeps 500 ms after
    every post of ten embeds, also after the last one when the embeds divide
    evenly.  No payload has more than ten embeds and none is empty. *)
Theorem user_report_all_batches (fuel : nat) (issues : list Issue)
    (queries : list Event) :
  fetchAllOpenIssues fuel = Returned (Ok issues, queries) ->
  issues <> [] ->
  exists (es : list DiscordEmbed) (batches : list (list DiscordEmbed)),
    Forall2
      (fun group embed =>
         userEmbed group = Returned embed
         /\ embed_Title embed
              = (if String.eqb (ag_Name group) "Unassigned" then "â“" else "ðŸ‘¤")
                +:+ " " +:+ ag_Name group +:+ " ("
                +:+ fmt_d (Z.of_nat (length (ag_Issues group))) +:+ " tasks)")
      (groupByAssignee issues) es
    /\ mjoin batches
       = {| embed_Title := "ðŸ“‹ Open Tasks by User";
             embed_Description :=
               "**" +:+ fmt_d (Z.of_nat (length issues))
               +:+ "** open tasks across **"
               +:+ fmt_d (Z.of_nat (length (groupByAssignee issues)))
               +:+ "** assignees";
             embed_URL := "";
             embed_Color := ColorBlue;
             embed_Timestamp := format_RFC3339 time_Now;
             embed_Footer := None;
             embed_Author := None;
             embed_Fields := [] |}
         :: es
    /\ Forall (fun b => (1 <= length b <= 10)%nat) batches
    /\ (forall i b, batches !! i = Some b -> (S i < length batches)%nat ->
        length b = 10%nat)
    /\ ((forall b, b ∈ batches ->
           accepted
             {| dw_Content := "";
                  dw_Username := "Linear Task Report";
                  dw_AvatarURL := linearAvatarURL;
                  dw_Embeds := b |}) ->
        generateUserTasksReport fuel =
          Returned
            (None,
             queries ++
             mjoin
               ((fun b =>
                   if Nat.eqb (length b) 10
                   then [DiscordPost
                           {| dw_Content := "";
                  dw_Username := "Linear Task Report";
                  dw_AvatarURL := linearAvatarURL;
                  dw_Embeds := b |};
                         Sleep 500]
                   else [DiscordPost
                           {| dw_Content := "";
                  dw_Username := "Linear Task Report";
                  dw_AvatarURL := linearAvatarURL;
                  dw_Embeds := b |}])
                  <$> batches))).
Proof.
  intros Hfetch Hne.
  destruct (user_report_run fuel issues queries Hfetch Hne)
    as (es & batches & Hes & Hjoin & Hsz & Hfull & Hrun).
  exists es, batches. split.
  { eapply Forall2_impl; [exact Hes |]. intros group embed Hembed.
    split; [exact Hembed | apply (userEmbed_title group embed Hembed)]. }
  split; [exact Hjoin |]. split; [exact Hsz |]. split; [exact Hfull | exact Hrun].
Qed.

Lemma userEmbeds_loop_rejection (groups : list AssigneeGroup) :
  forall (embeds : list DiscordEmbed) r t,
    userEmbeds_loop groups embeds = Returned (r, t) ->
    match r with
    | Ok _ => Forall acceptedPost t
    | Err _ =>
        exists before payload,
          t = before ++ [DiscordPost payload]
          /\ ~ accepted payload /\ Forall acceptedPost before
    end.
Proof.
  induction groups as [| group groups IH]; intros embeds r t.
  - intros [= <- <-]. constructor.
  - cbn [userEmbeds_loop]. destruct (userEmbed_returns group) as [e He].
    rewrite He. change (lift (Returned e)) with (mret e). rewrite mbind_mret.
    destruct (10 <=? Z.of_nat (length (embeds ++ [e]))); [| apply IH].
    destruct (sendToDiscord_cases (taskReport (embeds ++ [e])))
      as [[Hacc ->] | [Hrej [err ->]]]; cbn [mbind mret emit].
    + destruct (userEmbeds_loop groups []) as [[r' t'] | |] eqn:Hrec;
        try discriminate.
      intros [= <- <-]. specialize (IH _ _ _ Hrec).
      destruct r' as [rest | err].
      * repeat constructor; assumption.
      * destruct IH as (before & payload & -> & Hrej & Hall).
        exists (DiscordPost (taskReport (embeds ++ [e])) :: Sleep 500 :: before),
          payload.
        split; [reflexivity |]. split; [exact Hrej |].
        repeat constructor; assumption.
    + intros [= <- <-]. exists [], (taskReport (embeds ++ [e])).
      split; [reflexivity |]. split; [exact Hrej | constructor].
Qed.

Lemma queries_are_not_rejections (t : list Event) :
  Forall isQuery t -> Forall acceptedPost t.
Proof.
  intros Hq. eapply Forall_impl; [exact Hq |].
  intros [c | p | ms]; simpl; intros H; [exact I | destruct H | exact I].
Qed.

(** X16.  The per-user report stops at the first post Discord does not
    accept: a run that fails after a successful fetch ends with the
    rejected post, with no sleep and no further post after it, and every
    post before it was accepted.  A run that succeeds made only accepted
    posts.  Nothing is retried. *)
Theorem user_report_stops_at_rejection (fuel : nat) (failed : option error)
    (trace : list Event) :
  generateUserTasksReport fuel = Returned (failed, trace) ->
  (failed = None -> Forall acceptedPost trace)
  /\ (failed <> None ->
      (exists e, fetchAllOpenIssues fuel = Returned (Err e, trace))
      \/ exists before payload,
           trace = before ++ [DiscordPost payload]
           /\ ~ accepted payload /\ Forall acceptedPost before).
Proof.
  unfold generateUserTasksReport.
  destruct (fetchAllOpenIssues fuel) as [[[issues | e] queries] | |] eqn:Hfetch;
    cbn [mbind]; try discriminate.
  2: { cbn [mret]. rewrite app_nil_r. intros [= <- <-].
       split; [discriminate | intros _; left; eauto]. }
  pose proof (queries_are_not_rejections _ (fetchAllOpenIssues_queries _ _ _ Hfetch))
    as Hq.
  assert (Hone : forall payload f t,
             sendToDiscord payload = Returned (f, t) ->
             (f = None -> Forall acceptedPost (queries ++ t))
             /\ (f <> None ->
                 (exists e, Returned (Ok issues, queries)
                            = Returned (Err e, queries ++ t))
                 \/ exists before p,
                      queries ++ t = before ++ [DiscordPost p]
                      /\ ~ accepted p /\ Forall acceptedPost before)).
  { intros payload f t Hsend.
    destruct (sendToDiscord_cases payload) as [[Hacc Hs] | [Hrej [err Hs]]];
      rewrite Hs in Hsend; injection Hsend as <- <-.
    - split; [| congruence]. intros _. apply Forall_app. split; [exact Hq |].
      repeat constructor. exact Hacc.
    - split; [discriminate |]. intros _. right. exists queries, payload. auto. }
  destruct (Z.of_nat (length issues) =? 0).
  { unfold sendNoIssuesReport.
    match goal with
    | |- context [sendToDiscord ?p] =>
        destruct (sendToDiscord p) as [[f t] | |] eqn:Hsend; try discriminate;
        intros [= <- <-]; exact (Hone p f t Hsend)
    end. }
  match goal with
  | |- context [userEmbeds_loop ?g ?h] =>
      destruct (userEmbeds_loop g h) as [[looped t] | |] eqn:Hloop;
      try discriminate;
      pose proof (userEmbeds_loop_rejection _ _ _ _ Hloop) as Hrej
  end.
  cbn [mbind]. destruct looped as [[| e1 rest] | err].
  - cbn [mret]. rewrite app_nil_r. intros [= <- <-].
    split; [| congruence]. intros _. apply Forall_app. auto.
  - destruct (sendToDiscord_cases (taskReport (e1 :: rest)))
      as [[Hacc ->] | [Hno [err ->]]]; intros [= <- <-].
    + split; [| congruence]. intros _. rewrite !Forall_app.
      split; [exact Hq |]. split; [exact Hrej |]. repeat constructor. exact Hacc.
    + split; [discriminate |]. intros _. right.
      exists (queries ++ t), (taskReport (e1 :: rest)).
      split; [rewrite app_assoc; reflexivity |]. split; [exact Hno |].
      apply Forall_app. auto.
  - cbn [mret]. rewrite app_nil_r. intros [= <- <-].
    split; [discriminate |]. intros _. right.
    destruct Hrej as (before & payload & -> & Hno & Hall).
    exists (queries ++ before), payload.
    split; [rewrite app_assoc; reflexivity |]. split; [exact Hno |].
    apply Forall_app. auto.
Qed.

(** ** Grouping: order, keys and number of groups *)

Lemma groupByStatus_fold_first (issues : list Issue) :
  forall groups : gmap string StatusGroup,
    (forall k g, groups !! k = Some g ->
       exists x rest,
         sg_Issues g = x :: rest
         /\ sg_Type g = state_Type (issue_State x)
         /\ sg_Color g = state_Color (issue_State x)) ->
    forall k g, fold_left groupByStatus_add issues groups !! k = Some g ->
      exists x rest,
        sg_Issues g = x :: rest
        /\ sg_Type g = state_Type (issue_State x)
        /\ sg_Color g = state_Color (issue_State x).
Proof.
  induction issues as [| issue issues IH]; intros groups Hinv; [exact Hinv |].
  cbn [fold_left]. apply IH. intros k g.
  unfold groupByStatus_add. rewrite appendTo_insert.
  destruct (decide (state_Name (issue_State issue) = k)) as [<- | Hne].
  - rewrite lookup_insert_eq. intros [= <-].
    destruct (groups !! state_Name (issue_State issue)) as [g0 |] eqn:Hg0; simpl.
    + destruct (Hinv _ _ Hg0) as (x & rest & -> & Ht & Hc).
      exists x, (rest ++ [issue]). auto.
    + exists issue, []. auto.
  - rewrite lookup_insert_ne by assumption. apply Hinv.
Qed.

(** X17.  Inside a group the issues keep the order of the input: the
    members of a status group are the input issues of that state name, in
    input order, and those of an assignee group the input issues of that
    key, in input order.  No group is empty, and a status group takes its
    type and color from its first issue, so from the first issue of that
    state name in the input. *)
Theorem groups_keep_input_order (issues : list Issue) :
  (forall g, g ∈ groupByStatus issues ->
     sg_Issues g
     = filter (fun x => state_Name (issue_State x) = sg_Name g) issues
     /\ exists x rest,
          sg_Issues g = x :: rest
          /\ sg_Type g = state_Type (issue_State x)
          /\ sg_Color g = state_Color (issue_State x))
  /\ (forall g, g ∈ groupByAssignee issues ->
        ag_Issues g = filter (fun x => assigneeKey x = ag_Name g) issues
        /\ ag_Issues g <> []).
Proof using range_map_perm sort_Slice_perm.
  split.
  - intros g Hg.
    pose proof (groupByStatus_partitions issues) as (_ & Hmem & _).
    split; [apply (Hmem g Hg) |].
    unfold groupByStatus in Hg.
    rewrite sort_Slice_perm, range_map_perm in Hg.
    apply list_elem_of_fmap in Hg as ([k g'] & -> & Hkg).
    apply elem_of_map_to_list in Hkg.
    apply (groupByStatus_fold_first issues ∅) with (k := k); [| exact Hkg].
    intros k0 g0 H0. rewrite lookup_empty in H0. discriminate.
  - intros g Hg.
    pose proof (groupByAssignee_partitions issues) as (_ & Hmem & _).
    apply (Hmem g Hg).
Qed.

Lemma partitions_together {G : Type} (key : Issue -> string) (name : G -> string)
    (members : G -> list Issue) (r : list G) (issues : list Issue) (x y : Issue) :
  partitions key name members r issues -> x ∈ issues -> y ∈ issues ->
  (key x = key y <-> exists g, g ∈ r /\ x ∈ members g /\ y ∈ members g).
Proof.
  intros Hp Hx Hy. pose proof Hp as (_ & Hmem & Hperm). split.
  - intros Hk. rewrite <- Hperm in Hx.
    apply list_elem_of_join in Hx as (l & Hxl & Hl).
    apply list_elem_of_fmap in Hl as (g & -> & Hg).
    exists g. split; [exact Hg |]. split; [exact Hxl |].
    destruct (Hmem g Hg) as [Hm _]. rewrite Hm. apply list_elem_of_filter.
    split; [| exact Hy].
    rewrite <- Hk. rewrite Hm in Hxl. apply list_elem_of_filter in Hxl as [Hkx _].
    exact Hkx.
  - intros (g & Hg & Hxg & Hyg). destruct (Hmem g Hg) as [Hm _].
    rewrite Hm in Hxg, Hyg.
    apply list_elem_of_filter in Hxg as [Hkx _].
    apply list_elem_of_filter in Hyg as [Hky _]. congruence.
Qed.

(** X18.  Issues are grouped by the name alone.  Two input issues are in
    the same status group exactly when their states have the same name,
    whatever the states' ids and types; two input issues are in the same
    assignee group exactly when they have the same key, so users with equal
    display names share a group, and a user whose key is "Unassigned"
    shares the group of the issues without assignee. *)
Theorem grouping_is_by_name (issues : list Issue) (x y : Issue) :
  x ∈ issues -> y ∈ issues ->
  (state_Name (issue_State x) = state_Name (issue_State y) <->
   exists g, g ∈ groupByStatus issues /\ x ∈ sg_Issues g /\ y ∈ sg_Issues g)
  /\ (assigneeKey x = assigneeKey y <->
      exists g, g ∈ groupByAssignee issues /\ x ∈ ag_Issues g /\ y ∈ ag_Issues g)
  /\ (issue_Assignee x = None -> assigneeKey y = "Unassigned" ->
      exists g, g ∈ groupByAssignee issues /\ ag_Name g = "Unassigned"
                /\ x ∈ ag_Issues g /\ y ∈ ag_Issues g).
Proof using range_map_perm sort_Slice_perm.
  intros Hx Hy.
  pose proof (partitions_together _ _ _ _ _ x y
                (groupByStatus_partitions issues) Hx Hy) as Hs.
  pose proof (partitions_together _ _ _ _ _ x y
                (groupByAssignee_partitions issues) Hx Hy) as Ha.
  split; [exact Hs |]. split; [exact Ha |].
  intros Hnone Hkey.
  assert (Hkx : assigneeKey x = "Unassigned").
  { unfold assigneeKey. rewrite Hnone. reflexivity. }
  destruct Ha as [Ha _]. destruct Ha as (g & Hg & Hxg & Hyg); [congruence |].
  exists g. split; [exact Hg |]. split; [| auto].
  rewrite <- Hkx. symmetry.
  apply (partitions_key _ _ _ _ _ _ _ (groupByAssignee_partitions issues) Hg Hxg).
Qed.

Lemma length_remove_dups {A : Type} `{EqDecision A} (l : list A) :
  (length (remove_dups l) <= length l)%nat.
Proof.
  induction l as [| x l IH]; [reflexivity |]. cbn [remove_dups].
  destruct (decide_rel elem_of x l); simpl; lia.
Qed.

Lemma partitions_count {G : Type} (key : Issue -> string) (name : G -> string)
    (members : G -> list Issue) (r : list G) (issues : list Issue) :
  partitions key name members r issues ->
  length r = length (remove_dups (key <$> issues)).
Proof.
  intros Hp. pose proof Hp as (Hnd & Hmem & Hperm).
  rewrite <- (length_fmap name r). apply Permutation_length.
  apply NoDup_Permutation; [exact Hnd | apply NoDup_remove_dups |].
  intros k. rewrite elem_of_remove_dups, !list_elem_of_fmap. split.
  - intros (g & -> & Hg). destruct (Hmem g Hg) as [Hm Hnil].
    destruct (members g) as [| x rest] eqn:Hmg; [congruence |].
    assert (Hx : x ∈ filter (fun y => key y = name g) issues)
      by (rewrite <- Hm; left).
    apply list_elem_of_filter in Hx as [Hk Hin]. eauto.
  - intros (x & -> & Hx). rewrite <- Hperm in Hx.
    apply list_elem_of_join in Hx as (l & Hxl & Hl).
    apply list_elem_of_fmap in Hl as (g & -> & Hg).
    exists g. split; [| exact Hg].
    apply (partitions_key _ _ _ _ _ _ _ Hp Hg Hxl).
Qed.

(** X19.  There is one group for each distinct key of the input and no
    other: as many status groups as distinct state names, as many assignee
    groups as distinct keys, and never more groups than issues; so no embed
    of the per-user report is for a user without issues. *)
Theorem one_group_per_key (issues : list Issue) :
  length (groupByStatus issues)
  = length (remove_dups ((fun x => state_Name (issue_State x)) <$> issues))
  /\ length (groupByAssignee issues)
     = length (remove_dups (assigneeKey <$> issues))
  /\ (length (groupByStatus issues) <= length issues)%nat
  /\ (length (groupByAssignee issues) <= length issues)%nat.
Proof using range_map_perm sort_Slice_perm.
  pose proof (partitions_count _ _ _ _ _ (groupByStatus_partitions issues)) as Hs.
  pose proof (partitions_count _ _ _ _ _ (groupByAssignee_partitions issues)) as Ha.
  split; [exact Hs |]. split; [exact Ha |]. rewrite Hs, Ha. split.
  - etransitivity; [apply length_remove_dups |]. rewrite length_fmap. reflexivity.
  - etransitivity; [apply length_remove_dups |]. rewrite length_fmap. reflexivity.
Qed.

(** X20.  The two comparison functions passed to [sort.Slice] are strict
    weak orderings, as the package requires of [less]: irreflexive,
    transitive, and with incomparability transitive.  The sorts are
    therefore well defined, also with several groups of one rank or one
    size. *)
Theorem less_functions_are_orderings :
  strict_weak_order statusLess /\ strict_weak_order assigneeLess.
Proof. split; [exact statusLess_swo | exact assigneeLess_swo]. Qed.

End Relay.

(** * Closed instances

    The properties above, taken at the sample data: each of their
    hypotheses holds there. *)

Lemma reference_range_perm (A : Type) (m : gmap string A) :
  reference_range A m ≡ₚ map_to_list m.
Proof. unfold reference_range. apply reverse_Permutation. Qed.

Lemma reference_sort_perm (A : Type) (less : A -> A -> bool) (l : list A) :
  reference_sort A less l ≡ₚ l.
Proof. unfold reference_sort. apply merge_sort_Permutation. Qed.

Lemma reference_sort_sorted (A : Type) (less : A -> A -> bool) (l : list A) :
  strict_weak_order less ->
  StronglySorted (fun a b => less b a = false) (reference_sort A less l).
Proof.
  intros [Hirr Htrans Hincomp]. unfold reference_sort.
  apply StronglySorted_merge_sort.
  - intros a b c Hab Hbc. exact (Hincomp c b a Hbc Hab).
  - intros a b. destruct (less b a) eqn:Hba; [| left; reflexivity].
    destruct (less a b) eqn:Hab; [| right; reflexivity].
    pose proof (Htrans a b a Hab Hba) as Haa. rewrite Hirr in Haa. discriminate.
Qed.

Lemma truncate_idempotent_witness :
  3 <= 10 <= MaxInt
  /\ truncate "Fix authentication bug" 10 = Returned "Fix aut..."
  /\ exists t,
       truncate "Fix authentication bug" 10 = Returned t
       /\ truncate t 10 = Returned t.
Proof.
  assert (Hb : 3 <= 10 <= MaxInt) by (unfold MaxInt; lia).
  split; [exact Hb |].
  destruct (truncate_idempotent "Fix authentication bug" 10 Hb) as (_ & Hlong & Hidem).
  split; [apply Hlong; reflexivity | exact Hidem].
Defined.

Lemma truncate_total_from_three_witness :
  is_int 2
  /\ len "Fix authentication bug" < MaxInt - 2
  /\ truncate "Fix authentication bug" 2 = Panicked
  /\ forall r,
       no_panic
         (handleLinearWebhook (sampleDecode (sampleWebhook "Issue" "create"))
            (sampleDecode sampleWebhookIssue) (sampleDecode sampleWebhookComment)
            (sampleDecode sampleWebhookProject) 0 (fun _ => "") (fun s => s)
            sampleDiscord r).
Proof.
  assert (Hint : is_int 2) by (unfold is_int, MinInt, MaxInt; lia).
  assert (Hlen : len "Fix authentication bug" < MaxInt - 2) by reflexivity.
  split; [exact Hint |]. split; [exact Hlen |].
  pose proof (truncate_total_from_three
                (sampleDecode (sampleWebhook "Issue" "create"))
                (sampleDecode sampleWebhookIssue) (sampleDecode sampleWebhookComment)
                (sampleDecode sampleWebhookProject) sampleGraphQL
                (sampleDecode (samplePage sampleIssues false ""))
                0 (fun _ => "") (fun s => s) sampleDiscord sampleLinear "key"
                reference_range reference_sort
                "Fix authentication bug" 2 Hint Hlen) as Hthm.
  split; [apply Hthm; reflexivity | apply Hthm].
Defined.

Lemma embed_color_by_action_witness :
  embedColors
    (transformWebhookToDiscord (sampleDecode sampleWebhookIssue)
       (sampleDecode sampleWebhookComment) (sampleDecode sampleWebhookProject)
       0 (fun _ => "") (fun s => s) (sampleWebhook "Issue" "update"))
  = Some [ColorYellow]
  /\ embedColors
       (transformWebhookToDiscord (sampleDecode sampleWebhookIssue)
          (sampleDecode sampleWebhookComment) (sampleDecode sampleWebhookProject)
          0 (fun _ => "") (fun s => s) (sampleWebhook "Project" "create"))
     = Some [ColorGreen]
  /\ embedColors
       (transformWebhookToDiscord (sampleDecode sampleWebhookIssue)
          (sampleDecode sampleWebhookComment) (sampleDecode sampleWebhookProject)
          0 (fun _ => "") (fun s => s) (sampleWebhook "Comment" "remove"))
     = Some [ColorPurple].
Proof.
  split; [| split].
  - apply (embed_color_by_action (sampleDecode sampleWebhookIssue)
             (sampleDecode sampleWebhookComment) (sampleDecode sampleWebhookProject)
             0 (fun _ => "") (fun s => s) (sampleWebhook "Issue" "update"))
      with (issue := sampleWebhookIssue); reflexivity.
  - apply (embed_color_by_action (sampleDecode sampleWebhookIssue)
             (sampleDecode sampleWebhookComment) (sampleDecode sampleWebhookProject)
             0 (fun _ => "") (fun s => s) (sampleWebhook "Project" "create"))
      with (project := sampleWebhookProject); reflexivity.
  - apply (embed_color_by_action (sampleDecode sampleWebhookIssue)
             (sampleDecode sampleWebhookComment) (sampleDecode sampleWebhookProject)
             0 (fun _ => "") (fun s => s) (sampleWebhook "Comment" "remove"))
      with (comment := sampleWebhookComment); reflexivity.
Defined.

(** C4, as the claim has it, fails on an Issue event with action "create":
    the embed is blue, not green. *)
Lemma issue_create_is_blue :
  embedColors
    (transformWebhookToDiscord (sampleDecode sampleWebhookIssue)
       (sampleDecode sampleWebhookComment) (sampleDecode sampleWebhookProject)
       0 (fun _ => "") (fun s => s) (sampleWebhook "Issue" "create"))
  = Some [ColorBlue]
  /\ ColorBlue <> ColorGreen.
Proof. split; [reflexivity | discriminate]. Qed.

Lemma unknown_type_is_dropped_witness :
  transformWebhookToDiscord (sampleDecode sampleWebhookIssue)
    (sampleDecode sampleWebhookComment) (sampleDecode sampleWebhookProject)
    0 (fun _ => "") (fun s => s) (sampleWebhook "Cycle" "create")
  = Returned (None, None)
  /\ handleLinearWebhook (sampleDecode (sampleWebhook "Cycle" "create"))
       (sampleDecode sampleWebhookIssue) (sampleDecode sampleWebhookComment)
       (sampleDecode sampleWebhookProject) 0 (fun _ => "") (fun s => s)
       sampleDiscord {| req_Method := "POST"; req_Body := Ok "{}" |}
     = Returned ({| resp_Status := 200; resp_Body := NoBody |}, []).
Proof.
  destruct (unknown_type_is_dropped (sampleDecode (sampleWebhook "Cycle" "create"))
              (sampleDecode sampleWebhookIssue) (sampleDecode sampleWebhookComment)
              (sampleDecode sampleWebhookProject) 0 (fun _ => "") (fun s => s)
              sampleDiscord (sampleWebhook "Cycle" "create"))
    as [Hdrop Hhandle]; try discriminate.
  split; [exact Hdrop |].
  apply (Hhandle {| req_Method := "POST"; req_Body := Ok "{}" |} "{}"); reflexivity.
Defined.

Lemma taskLines_first_fifteen_witness :
  exists (es : list DiscordEmbed) (batches : list (list DiscordEmbed)),
    Forall2
      (fun group embed =>
         exists lines,
           length lines = 15%nat
           /\ embed_Description embed
              = strings_Join (lines ++ ["*... and 8 more*"]) newline)
      [sampleBusy] es
    /\ mjoin batches
       = {| embed_Title := "ðŸ“‹ Open Tasks by User";
            embed_Description := "**23** open tasks across **1** assignees";
            embed_URL := "";
            embed_Color := ColorBlue;
            embed_Timestamp := "";
            embed_Footer := None;
            embed_Author := None;
            embed_Fields := [] |}
         :: es
    /\ generateUserTasksReport sampleGraphQL
         (sampleDecode (samplePage (ag_Issues sampleBusy) false "")) 0
         (fun _ => "") sampleDiscord sampleLinear reference_range reference_sort 1
       = Returned
           (None,
            [LinearQuery None] ++
            mjoin
              ((fun b =>
                  if Nat.eqb (length b) 10
                  then [DiscordPost
                          {| dw_Content := "";
                             dw_Username := "Linear Task Report";
                             dw_AvatarURL := linearAvatarURL;
                             dw_Embeds := b |};
                        Sleep 500]
                  else [DiscordPost
                          {| dw_Content := "";
                             dw_Username := "Linear Task Report";
                             dw_AvatarURL := linearAvatarURL;
                             dw_Embeds := b |}])
                 <$> batches)).
Proof.
  assert (Hgroups : groupByAssignee reference_range reference_sort
                      (ag_Issues sampleBusy) = [sampleBusy])
    by (vm_compute; reflexivity).
  destruct (taskLines_first_fifteen sampleGraphQL
              (sampleDecode (samplePage (ag_Issues sampleBusy) false "")) 0
              (fun _ => "") sampleDiscord sampleLinear
              reference_range reference_range_perm
              reference_sort reference_sort_perm
              1%nat (ag_Issues sampleBusy) [LinearQuery None])
    as (es & batches & Hes & Hjoin & Hrun).
  - vm_compute. reflexivity.
  - discriminate.
  - vm_compute. discriminate.
  - exists es, batches. rewrite Hgroups in Hes, Hjoin. split; [| split].
    + inversion Hes as [| g embed gs es' Hfirst Hrest]; subst.
      inversion Hrest; subst.
      destruct Hfirst as (lines & _ & _ & H23).
      constructor; [| constructor].
      exists lines. apply H23. reflexivity.
    + exact Hjoin.
    + apply Hrun. intros b _. exists 204, "". split; [reflexivity | lia].
Defined.

Lemma user_report_batches_witness :
  exists (es : list DiscordEmbed) (p1 p2 p3 : DiscordWebhook),
    length es = 24%nat
    /\ dw_Embeds p1 ++ dw_Embeds p2 ++ dw_Embeds p3
       = {| embed_Title := "ðŸ“‹ Open Tasks by User";
            embed_Description := "**24** open tasks across **24** assignees";
            embed_URL := "";
            embed_Color := ColorBlue;
            embed_Timestamp := "";
            embed_Footer := None;
            embed_Author := None;
            embed_Fields := [] |}
         :: es
    /\ length (dw_Embeds p1) = 10%nat
    /\ length (dw_Embeds p2) = 10%nat
    /\ length (dw_Embeds p3) = 5%nat
    /\ generateUserTasksReport sampleGraphQL
         (sampleDecode (samplePage sampleCrowd false "")) 0 (fun _ => "")
         sampleDiscord sampleLinear reference_range reference_sort 1
       = Returned (None,
                   [LinearQuery None] ++
                   [DiscordPost p1; Sleep 500;
                    DiscordPost p2; Sleep 500;
                    DiscordPost p3]).
Proof.
  destruct (user_report_batches sampleGraphQL
              (sampleDecode (samplePage sampleCrowd false "")) 0 (fun _ => "")
              sampleDiscord sampleLinear reference_range reference_range_perm
              reference_sort reference_sort_perm 1%nat sampleCrowd
              [LinearQuery None])
    as (es & p1 & p2 & p3 & Hes & Hjoin & Hl1 & Hl2 & Hl3 & _ & Hrun).
  - vm_compute. reflexivity.
  - vm_compute. reflexivity.
  - exists es, p1, p2, p3.
    split.
    { rewrite <- (Forall2_length _ _ _ Hes). vm_compute. reflexivity. }
    split; [exact Hjoin |].
    split; [exact Hl1 |]. split; [exact Hl2 |]. split; [exact Hl3 |].
    apply Hrun; exists 204, ""; (split; [reflexivity | lia]).
Defined.

Lemma fetchAllOpenIssues_pagination_witness :
  fetchAllOpenIssues sampleGraphQL
    (samplePages (samplePage (take 2 sampleIssues) true "cursor-1")
       (samplePage (drop 2 sampleIssues) false ""))
    sampleLinearByCursor 2
  = Returned (Ok sampleIssues, [LinearQuery None; LinearQuery (Some "cursor-1")])
  /\ forall fuel,
       fetchAllOpenIssues sampleGraphQL sampleEndlessPage sampleLinearEndless fuel
       = OutOfFuel.
Proof.
  split.
  - apply (proj1 (fetchAllOpenIssues_pagination sampleGraphQL
                    (samplePages (samplePage (take 2 sampleIssues) true "cursor-1")
                       (samplePage (drop 2 sampleIssues) false ""))
                    sampleLinearByCursor)
             [samplePage (take 2 sampleIssues) true "cursor-1"]
             (samplePage (drop 2 sampleIssues) false "") 2%nat).
    + intros [| [| k]] c page Hc Hk; try discriminate;
        injection Hc as <-; injection Hk as <-; eexists; split; reflexivity.
    + repeat constructor.
    + reflexivity.
    + simpl. lia.
  - apply (proj2 (proj2 (proj2
             (fetchAllOpenIssues_pagination sampleGraphQL sampleEndlessPage
                sampleLinearEndless)))
             (fun k => samplePage [] true (sampleCursor k))).
    + eexists. split; reflexivity.
    + intros k.
      assert (Hc : cursorVariables (sampleCursor k) = Some (sampleCursor k))
        by (destruct k; reflexivity).
      unfold answers. cbn [samplePage issues_PageInfo EndCursor]. rewrite Hc.
      eexists. split; reflexivity.
    + intros k. reflexivity.
Defined.

(** C8, as the claim has it, fails when a page reports [hasNextPage = true]
    with an empty [endCursor]: the next query carries no cursor, not the
    (empty) [endCursor] of that page. *)
Lemma empty_endCursor_is_not_passed :
  answers sampleGraphQL
    (samplePages (samplePage (take 2 sampleIssues) true "")
       (samplePage (drop 2 sampleIssues) false ""))
    sampleLinear 0 None (samplePage (take 2 sampleIssues) true "")
  /\ fetchAllOpenIssues sampleGraphQL
       (samplePages (samplePage (take 2 sampleIssues) true "")
          (samplePage (drop 2 sampleIssues) false ""))
       sampleLinear 2
     = Returned (Ok sampleIssues, [LinearQuery None; LinearQuery None])
  /\ LinearQuery None
     <> LinearQuery
          (Some (EndCursor (issues_PageInfo (samplePage (take 2 sampleIssues) true "")))).
Proof.
  split; [eexists; split; reflexivity |].
  split; [reflexivity | discriminate].
Qed.

Lemma groupByStatus_order_witness :
  (forall (A : Type) (less : A -> A -> bool) (l : list A),
     strict_weak_order less ->
     StronglySorted (fun a b => less b a = false) (reference_sort A less l))
  /\ sg_Name <$> groupByStatus reference_range reference_sort sampleIssues
     = ["In Progress"; "Todo"; "Backlog"; "Triage"]
  /\ forall (i j : nat) (g1 g2 : StatusGroup),
       groupByStatus reference_range reference_sort sampleIssues !! i = Some g1 ->
       groupByStatus reference_range reference_sort sampleIssues !! j = Some g2 ->
       getStatusPriority (sg_Type g1) < getStatusPriority (sg_Type g2) ->
       (i < j)%nat.
Proof.
  split; [exact reference_sort_sorted |].
  split; [vm_compute; reflexivity |].
  apply (groupByStatus_order reference_range reference_sort reference_sort_sorted
           sampleIssues).
Defined.

Lemma groupByAssignee_order_witness :
  (forall (A : Type) (m : gmap string A), reference_range A m ≡ₚ map_to_list m)
  /\ (forall (A : Type) (less : A -> A -> bool) (l : list A),
        reference_sort A less l ≡ₚ l)
  /\ (forall (A : Type) (less : A -> A -> bool) (l : list A),
        strict_weak_order less ->
        StronglySorted (fun a b => less b a = false) (reference_sort A less l))
  /\ (fun g => (ag_Name g, length (ag_Issues g)))
       <$> groupByAssignee reference_range reference_sort sampleIssues
     = [("ana", 2%nat); ("Ben", 1%nat); ("Unassigned", 3%nat)]
  /\ forall g,
       g ∈ groupByAssignee reference_range reference_sort sampleIssues ->
       ag_Name g = "Unassigned" ->
       last (groupByAssignee reference_range reference_sort sampleIssues) = Some g.
Proof.
  split; [exact reference_range_perm |].
  split; [exact reference_sort_perm |].
  split; [exact reference_sort_sorted |].
  split; [vm_compute; reflexivity |].
  apply (groupByAssignee_order reference_range reference_range_perm
           reference_sort reference_sort_perm reference_sort_sorted sampleIssues).
Defined.

Lemma grouping_partitions_witness :
  (forall (A : Type) (m : gmap string A), reference_range A m ≡ₚ map_to_list m)
  /\ (forall (A : Type) (less : A -> A -> bool) (l : list A),
        reference_sort A less l ≡ₚ l)
  /\ mjoin (sg_Issues <$> groupByStatus reference_range reference_sort sampleIssues)
     ≡ₚ sampleIssues
  /\ mjoin (ag_Issues <$> groupByAssignee reference_range reference_sort sampleIssues)
     ≡ₚ sampleIssues
  /\ sum_list ((fun g => length (ag_Issues g))
                 <$> groupByAssignee reference_range reference_sort sampleIssues)
     = 6%nat.
Proof.
  split; [exact reference_range_perm |].
  split; [exact reference_sort_perm |].
  pose proof (grouping_partitions reference_range reference_range_perm
                reference_sort reference_sort_perm sampleIssues)
    as [(Hs & _) (Ha & Hsum & _)].
  split; [exact Hs |]. split; [exact Ha | exact Hsum].
Defined.

(** * Closed instances of the further properties *)

Lemma fetchAllOpenIssues_fuel_witness :
  fetchAllOpenIssues sampleGraphQL
    (samplePages (samplePage (take 2 sampleIssues) true "cursor-1")
       (samplePage (drop 2 sampleIssues) false ""))
    sampleLinear 2
  = Returned (Ok sampleIssues, [LinearQuery None; LinearQuery (Some "cursor-1")])
  /\ forall fuel', (2 <= fuel')%nat ->
       fetchAllOpenIssues sampleGraphQL
         (samplePages (samplePage (take 2 sampleIssues) true "cursor-1")
            (samplePage (drop 2 sampleIssues) false ""))
         sampleLinear fuel'
       = Returned (Ok sampleIssues, [LinearQuery None; LinearQuery (Some "cursor-1")]).
Proof.
  assert (Hrun : fetchAllOpenIssues sampleGraphQL
                   (samplePages (samplePage (take 2 sampleIssues) true "cursor-1")
                      (samplePage (drop 2 sampleIssues) false ""))
                   sampleLinear 2
                 = Returned (Ok sampleIssues,
                             [LinearQuery None; LinearQuery (Some "cursor-1")]))
    by reflexivity.
  split; [exact Hrun |].
  apply (fetchAllOpenIssues_fuel _ _ _ 2%nat _ _ Hrun).
Defined.

Lemma fetchAllOpenIssues_failure_witness :
  fetchAllOpenIssues sampleGraphQL
    (samplePages (samplePage (take 2 sampleIssues) true "cursor-1")
       (samplePage (drop 2 sampleIssues) false ""))
    (fun n cursor =>
       match cursor with
       | None => sampleLinearByCursor n None
       | Some _ => Err "connection reset"
       end)
    5
  = Returned (Err "failed to execute request: connection reset",
              [LinearQuery None; LinearQuery (Some "cursor-1")]).
Proof.
  apply (fetchAllOpenIssues_failure sampleGraphQL
           (samplePages (samplePage (take 2 sampleIssues) true "cursor-1")
              (samplePage (drop 2 sampleIssues) false ""))
           (fun n cursor =>
              match cursor with
              | None => sampleLinearByCursor n None
              | Some _ => Err "connection reset"
              end)
           [samplePage (take 2 sampleIssues) true "cursor-1"]
           "failed to execute request: connection reset" 5%nat).
  - intros [| k] c page Hc Hk; [| discriminate].
    injection Hc as <-. injection Hk as <-. eexists. split; reflexivity.
  - repeat constructor.
  - intros c [= <-]. reflexivity.
  - simpl. lia.
Defined.

Lemma webhook_handler_rejects_witness :
  handleLinearWebhook (sampleDecode (sampleWebhook "Issue" "create"))
    (fun _ => Err "unexpected end of JSON input")
    (sampleDecode sampleWebhookComment) (sampleDecode sampleWebhookProject)
    0 (fun _ => "") (fun s => s) sampleDiscord
    {| req_Method := "POST"; req_Body := Ok "{}" |}
  = Returned (http_Error "Error processing webhook" 500, [])
  /\ handleLinearWebhook (sampleDecode (sampleWebhook "Issue" "create"))
       (fun _ => Err "unexpected end of JSON input")
       (sampleDecode sampleWebhookComment) (sampleDecode sampleWebhookProject)
       0 (fun _ => "") (fun s => s) sampleDiscord
       {| req_Method := "GET"; req_Body := Ok "{}" |}
     = Returned (http_Error "Method not allowed" 405, []).
Proof.
  split.
  - apply (webhook_handler_rejects (sampleDecode (sampleWebhook "Issue" "create"))
             (fun _ => Err "unexpected end of JSON input")
             (sampleDecode sampleWebhookComment) (sampleDecode sampleWebhookProject)
             0 (fun _ => "") (fun s => s) sampleDiscord
             {| req_Method := "POST"; req_Body := Ok "{}" |})
      with (body := "{}") (webhook := sampleWebhook "Issue" "create");
      try reflexivity.
    left. split; [reflexivity |]. eexists. reflexivity.
  - apply (webhook_handler_rejects (sampleDecode (sampleWebhook "Issue" "create"))
             (fun _ => Err "unexpected end of JSON input")
             (sampleDecode sampleWebhookComment) (sampleDecode sampleWebhookProject)
             0 (fun _ => "") (fun s => s) sampleDiscord
             {| req_Method := "GET"; req_Body := Ok "{}" |}).
    discriminate.
Defined.

Lemma no_issues_report_witness :
  exists failed embed,
    generateUserTasksReport sampleGraphQL (sampleDecode (samplePage [] false ""))
      0 (fun _ => "") sampleDiscord sampleLinear reference_range reference_sort 1
    = Returned (failed,
                [LinearQuery None] ++
                [DiscordPost {| dw_Content := "";
                                dw_Username := "Linear Daily Digest";
                                dw_AvatarURL := linearAvatarURL;
                                dw_Embeds := [embed] |}])
    /\ embed_Color embed = ColorGreen.
Proof.
  destruct (no_issues_report sampleGraphQL (sampleDecode (samplePage [] false ""))
              0 (fun _ => "") sampleDiscord sampleLinear reference_range
              reference_sort 1%nat [LinearQuery None] eq_refl)
    as (failed & embed & Hd & Hu & _ & Hc & _).
  exists failed, embed. rewrite Hu. split; [exact Hd | exact Hc].
Defined.

Lemma fetch_failure_fails_reports_witness :
  fetchAllOpenIssues sampleGraphQL (sampleDecode (samplePage sampleIssues false ""))
    (fun _ _ => Err "connection reset") 1
  = Returned (Err "failed to execute request: connection reset", [LinearQuery None])
  /\ handleReport sampleGraphQL (sampleDecode (samplePage sampleIssues false ""))
       0 (fun _ => "") sampleDiscord (fun _ _ => Err "connection reset") "key"
       reference_range reference_sort 1
     = Returned
         (http_Error
            "failed to fetch issues: failed to execute request: connection reset"
            500,
          [LinearQuery None]).
Proof.
  assert (Hfetch : fetchAllOpenIssues sampleGraphQL
                     (sampleDecode (samplePage sampleIssues false ""))
                     (fun _ _ => Err "connection reset") 1
                   = Returned (Err "failed to execute request: connection reset",
                               [LinearQuery None]))
    by reflexivity.
  split; [exact Hfetch |].
  apply (fetch_failure_fails_reports sampleGraphQL
           (sampleDecode (samplePage sampleIssues false "")) 0 (fun _ => "")
           sampleDiscord (fun _ _ => Err "connection reset") "key"
           reference_range reference_sort 1%nat _ _ Hfetch).
  discriminate.
Defined.

Lemma handleReport_outcomes_witness :
  exists resp trace,
    handleReport sampleGraphQL (sampleDecode (samplePage sampleIssues false ""))
      0 (fun _ => "") sampleDiscord sampleLinear "key"
      reference_range reference_sort 1
    = Returned (resp, trace)
    /\ resp_Status resp = 200
    /\ resp = json_Encode [("status", "report_sent")]
    /\ exists issues queries payload,
         fetchAllOpenIssues sampleGraphQL
           (sampleDecode (samplePage sampleIssues false "")) sampleLinear 1
         = Returned (Ok issues, queries)
         /\ trace = queries ++ [DiscordPost payload]
         /\ Forall isQuery queries
         /\ accepted sampleDiscord payload.
Proof.
  assert (Hrun : exists resp trace,
             handleReport sampleGraphQL
               (sampleDecode (samplePage sampleIssues false ""))
               0 (fun _ => "") sampleDiscord sampleLinear "key"
               reference_range reference_sort 1
             = Returned (resp, trace)
             /\ resp_Status resp = 200).
  { eexists. eexists. split; [vm_compute; reflexivity | reflexivity]. }
  destruct Hrun as (resp & trace & Hrun & Hst).
  exists resp, trace. split; [exact Hrun |]. split; [exact Hst |].
  apply (handleReport_outcomes _ _ _ _ _ _ _ _ _ _ _ _ Hrun). exact Hst.
Defined.

Lemma user_report_all_batches_witness :
  exists (es : list DiscordEmbed) (batches : list (list DiscordEmbed)),
    length es = 19%nat
    /\ mjoin batches
       = {| embed_Title := "ðŸ“‹ Open Tasks by User";
            embed_Description := "**19** open tasks across **19** assignees";
            embed_URL := "";
            embed_Color := ColorBlue;
            embed_Timestamp := "";
            embed_Footer := None;
            embed_Author := None;
            embed_Fields := [] |}
         :: es
    /\ Forall (fun b => (1 <= length b <= 10)%nat) batches
    /\ generateUserTasksReport sampleGraphQL
         (sampleDecode (samplePage (take 19 sampleCrowd) false ""))
         0 (fun _ => "") sampleDiscord sampleLinear reference_range
         reference_sort 1
       = Returned
           (None,
            [LinearQuery None] ++
            mjoin
              ((fun b =>
                  if Nat.eqb (length b) 10
                  then [DiscordPost
                          {| dw_Content := "";
                             dw_Username := "Linear Task Report";
                             dw_AvatarURL := linearAvatarURL;
                             dw_Embeds := b |};
                        Sleep 500]
                  else [DiscordPost
                          {| dw_Content := "";
                             dw_Username := "Linear Task Report";
                             dw_AvatarURL := linearAvatarURL;
                             dw_Embeds := b |}])
                 <$> batches)).
Proof.
  assert (Hcount : length (groupByAssignee reference_range reference_sort
                             (take 19 sampleCrowd)) = 19%nat)
    by (vm_compute; reflexivity).
  destruct (user_report_all_batches sampleGraphQL
              (sampleDecode (samplePage (take 19 sampleCrowd) false ""))
              0 (fun _ => "") sampleDiscord sampleLinear reference_range
              reference_sort 1%nat (take 19 sampleCrowd) [LinearQuery None])
    as (es & batches & Hes & Hjoin & Hsz & _ & Hrun).
  - vm_compute. reflexivity.
  - discriminate.
  - exists es, batches. rewrite Hcount in Hjoin.
    split; [rewrite <- (Forall2_length _ _ _ Hes); exact Hcount |].
    split; [exact Hjoin |]. split; [exact Hsz |].
    apply Hrun. intros b _. exists 204, "". split; [reflexivity | lia].
Defined.

Lemma user_report_stops_at_rejection_witness :
  exists failed trace,
    generateUserTasksReport sampleGraphQL
      (sampleDecode (samplePage sampleCrowd false ""))
      0 (fun _ => "") (fun _ => Ok (429, "rate limited")) sampleLinear
      reference_range reference_sort 1
    = Returned (failed, trace)
    /\ failed <> None
    /\ length trace = 2%nat
    /\ ((exists e,
           fetchAllOpenIssues sampleGraphQL
             (sampleDecode (samplePage sampleCrowd false "")) sampleLinear 1
           = Returned (Err e, trace))
        \/ exists before payload,
             trace = before ++ [DiscordPost payload]
             /\ ~ accepted (fun _ => Ok (429, "rate limited")) payload
             /\ Forall (acceptedPost (fun _ => Ok (429, "rate limited"))) before).
Proof.
  assert (Hrun : exists failed trace,
             generateUserTasksReport sampleGraphQL
               (sampleDecode (samplePage sampleCrowd false ""))
               0 (fun _ => "") (fun _ => Ok (429, "rate limited")) sampleLinear
               reference_range reference_sort 1
             = Returned (failed, trace)
             /\ failed <> None /\ length trace = 2%nat).
  { eexists. eexists. split; [vm_compute; reflexivity |].
    split; [discriminate | reflexivity]. }
  destruct Hrun as (failed & trace & Hrun & Hne & Hlen).
  exists failed, trace. split; [exact Hrun |]. split; [exact Hne |].
  split; [exact Hlen |].
  apply (user_report_stops_at_rejection _ _ _ _ _ _ _ _ _ _ _ Hrun). exact Hne.
Defined.

Lemma groups_keep_input_order_witness :
  (forall (A : Type) (m : gmap string A), reference_range A m ≡ₚ map_to_list m)
  /\ (forall (A : Type) (less : A -> A -> bool) (l : list A),
        reference_sort A less l ≡ₚ l)
  /\ (fun g => issue_Identifier <$> sg_Issues g)
       <$> groupByStatus reference_range reference_sort sampleIssues
     = [["SCE-2"; "SCE-6"]; ["SCE-4"; "SCE-5"]; ["SCE-3"]; ["SCE-1"]]
  /\ forall g, g ∈ groupByAssignee reference_range reference_sort sampleIssues ->
       ag_Issues g = filter (fun x => assigneeKey x = ag_Name g) sampleIssues
       /\ ag_Issues g <> [].
Proof.
  split; [exact reference_range_perm |].
  split; [exact reference_sort_perm |].
  split; [vm_compute; reflexivity |].
  apply (groups_keep_input_order reference_range reference_range_perm
           reference_sort reference_sort_perm sampleIssues).
Defined.

Lemma grouping_is_by_name_witness :
  exists x y g,
    x ∈ sampleIssues /\ y ∈ sampleIssues
    /\ issue_Identifier x = "SCE-1" /\ issue_Identifier y = "SCE-3"
    /\ g ∈ groupByAssignee reference_range reference_sort sampleIssues
    /\ ag_Name g = "Unassigned" /\ x ∈ ag_Issues g /\ y ∈ ag_Issues g.
Proof.
  exists (sampleIssue "SCE-1" "Triage the crash reports" 0
            (sampleState "Triage" "triage") None),
         (sampleIssue "SCE-3" "Update API docs" 2
            (sampleState "Backlog" "backlog") None).
  assert (Hx : sampleIssue "SCE-1" "Triage the crash reports" 0
                 (sampleState "Triage" "triage") None ∈ sampleIssues)
    by (apply list_elem_of_In; simpl; auto).
  assert (Hy : sampleIssue "SCE-3" "Update API docs" 2
                 (sampleState "Backlog" "backlog") None ∈ sampleIssues)
    by (apply list_elem_of_In; simpl; auto).
  destruct (grouping_is_by_name reference_range reference_range_perm
              reference_sort reference_sort_perm sampleIssues _ _ Hx Hy)
    as (_ & _ & Hun).
  destruct Hun as (g & Hg & Hname & Hxg & Hyg); [reflexivity | reflexivity |].
  exists g. repeat split; assumption.
Defined.

Lemma one_group_per_key_witness :
  (forall (A : Type) (m : gmap string A), reference_range A m ≡ₚ map_to_list m)
  /\ (forall (A : Type) (less : A -> A -> bool) (l : list A),
        reference_sort A less l ≡ₚ l)
  /\ length (groupByStatus reference_range reference_sort sampleIssues)
     = length (remove_dups
                 ((fun x => state_Name (issue_State x)) <$> sampleIssues))
  /\ length (groupByAssignee reference_range reference_sort sampleIssues)
     = length (remove_dups (assigneeKey <$> sampleIssues)).
Proof.
  split; [exact reference_range_perm |].
  split; [exact reference_sort_perm |].
  destruct (one_group_per_key reference_range reference_range_perm
              reference_sort reference_sort_perm sampleIssues)
    as (Hs & Ha & _).
  split; [exact Hs | exact Ha].
Defined.

Lemma sendToDiscord_outcome_witness :
  sendToDiscord (fun _ => Ok (429, "rate limited"))
    {| dw_Content := ""; dw_Username := "Linear";
       dw_AvatarURL := linearAvatarURL; dw_Embeds := [] |}
  = Returned
      (Some "discord returned status 429: rate limited",
       [DiscordPost {| dw_Content := ""; dw_Username := "Linear";
                       dw_AvatarURL := linearAvatarURL; dw_Embeds := [] |}])
  /\ ~ accepted (fun _ => Ok (429, "rate limited"))
        {| dw_Content := ""; dw_Username := "Linear";
           dw_AvatarURL := linearAvatarURL; dw_Embeds := [] |}.
Proof.
  assert (Hrun : sendToDiscord (fun _ => Ok (429, "rate limited"))
                   {| dw_Content := ""; dw_Username := "Linear";
                      dw_AvatarURL := linearAvatarURL; dw_Embeds := [] |}
                 = Returned
                     (Some "discord returned status 429: rate limited",
                      [DiscordPost {| dw_Content := ""; dw_Username := "Linear";
                                      dw_AvatarURL := linearAvatarURL;
                                      dw_Embeds := [] |}]))
    by (vm_compute; reflexivity).
  split; [exact Hrun |]. intros Hacc.
  destruct (sendToDiscord_outcome _ _ _ _ Hrun) as [[_ Hnil] _].
  specialize (Hnil Hacc). discriminate Hnil.
Defined.

Lemma webhook_handler_outcomes_witness :
  exists resp trace,
    handleLinearWebhook (sampleDecode (sampleWebhook "Issue" "create"))
      (sampleDecode sampleWebhookIssue) (sampleDecode sampleWebhookComment)
      (sampleDecode sampleWebhookProject) 0 (fun _ => "") (fun s => s)
      sampleDiscord {| req_Method := "POST"; req_Body := Ok "{}" |}
    = Returned (resp, trace)
    /\ resp = json_Encode [("status", "forwarded")]
    /\ exists payload,
         trace = [DiscordPost payload] /\ accepted sampleDiscord payload.
Proof.
  assert (Hrun : exists resp trace,
             handleLinearWebhook (sampleDecode (sampleWebhook "Issue" "create"))
               (sampleDecode sampleWebhookIssue) (sampleDecode sampleWebhookComment)
               (sampleDecode sampleWebhookProject) 0 (fun _ => "") (fun s => s)
               sampleDiscord {| req_Method := "POST"; req_Body := Ok "{}" |}
             = Returned (resp, trace)
             /\ resp = json_Encode [("status", "forwarded")]).
  { eexists. eexists. split; [vm_compute; reflexivity | reflexivity]. }
  destruct Hrun as (resp & trace & Hrun & Hresp).
  exists resp, trace. split; [exact Hrun |]. split; [exact Hresp |].
  apply (webhook_handler_outcomes _ _ _ _ _ _ _ _ _ _ _ Hrun). exact Hresp.
Defined.

Lemma priorityIssues_first_ten_witness :
  exists failed payload lines,
    sendReport 0 (fun _ => "") sampleDiscord sampleIssues [] []
    = Returned (failed, [DiscordPost payload])
    /\ dw_Embeds payload !! 1%nat
       = Some {| embed_Title := "ðŸš¨ Priority Issues";
                 embed_Description := strings_Join lines newline;
                 embed_URL := "";
                 embed_Color := ColorRed;
                 embed_Timestamp := "";
                 embed_Footer := None;
                 embed_Author := None;
                 embed_Fields := [] |}
    /\ length lines = 4%nat.
Proof.
  destruct (priorityIssues_first_ten 0 (fun _ => "") sampleDiscord sampleIssues
              [] [] eq_refl)
    as (failed & payload & lines & Hrun & Hsection & Hlines).
  exists failed, payload, lines. split; [exact Hrun |]. split; [exact Hsection |].
  rewrite <- (Forall2_length _ _ _ Hlines). vm_compute. reflexivity.
Defined.

Lemma recentIssues_first_five_witness :
  exists failed payload lines,
    sendReport (day + day / 2) (fun _ => "") sampleDiscord
      (sampleUpdated (day + 1)) [] []
    = Returned (failed, [DiscordPost payload])
    /\ last (dw_Embeds payload)
       = Some {| embed_Title := "ðŸ”„ Recently Updated";
                 embed_Description := strings_Join lines newline;
                 embed_URL := "";
                 embed_Color := ColorYellow;
                 embed_Timestamp := "";
                 embed_Footer := None;
                 embed_Author := None;
                 embed_Fields := [] |}
    /\ length lines = 5%nat.
Proof.
  destruct (recentIssues_first_five (day + day / 2) (fun _ => "") sampleDiscord
              (sampleUpdated (day + 1)) [] [] eq_refl)
    as (failed & payload & lines & Hrun & Hsection & Hlines).
  exists failed, payload, lines. split; [exact Hrun |]. split; [exact Hsection |].
  rewrite <- (Forall2_length _ _ _ Hlines). vm_compute. reflexivity.
Defined.
